(** * DSSAT output parsing and record reconciliation: a shallow embedding

    The Python sources embedded here are [src/utils.py], [src/ts_get_data.py],
    [src/data_preparation_grid.py], [src/heatmap_plot.py],
    [src/barplot_parameters.py] and the two driver scripts that compute the
    metric tables.

    Conventions of the embedding:
    - a Python [str] is a [string]; characters are code points below 256;
    - a text file is the list of its lines as [readlines()] returns them;
    - a Python exception is the [Raise] case of [result];
    - a dict is an association list in insertion order ([dict_set] keeps the
      position of a key that is already present, as CPython does);
    - a missing value (NaN, NaT, None in a column) is [None]. *)

From Stdlib Require Import List String Ascii Bool Arith ZArith Lia.
From Stdlib Require Import Sorting.Permutation Sorting.Sorted.
Import ListNotations.

Open Scope string_scope.
Open Scope list_scope.
Open Scope nat_scope.

(* ================================================================== *)
(** ** Python exceptions and results *)

Inductive exn : Type :=
| ValueError
| FileNotFoundError
| IndexError
| KeyError
| TypeError
| AttributeError
| UnboundLocalError
| OutOfBoundsDatetime
| ZeroDivisionError.

Inductive result (A : Type) : Type :=
| Ok (a : A)
| Raise (e : exn).

Arguments Ok {A} a.
Arguments Raise {A} e.

Definition bind {A B : Type} (r : result A) (k : A -> result B) : result B :=
  match r with
  | Ok a => k a
  | Raise e => Raise e
  end.

Notation "x <- r ;; k" := (bind r (fun x => k))
  (at level 61, r at next level, right associativity).
Notation "' p <- r ;; k" := (bind r (fun p => k))
  (at level 61, p pattern, r at next level, right associativity).

(** [xs[i]] on a list: [IndexError] out of range. *)
Definition index {A : Type} (xs : list A) (i : nat) : result A :=
  match nth_error xs i with
  | Some x => Ok x
  | None => Raise IndexError
  end.

(** A left fold whose body may raise: the [for] loops of the sources. *)
Fixpoint for_each {A S : Type} (body : S -> A -> result S) (xs : list A) (s : S)
  : result S :=
  match xs with
  | [] => Ok s
  | x :: rest => s' <- body s x ;; for_each body rest s'
  end.

(** [enumerate(xs)]. *)
Definition enumerate {A : Type} (xs : list A) : list (nat * A) :=
  combine (seq 0 (List.length xs)) xs.

(* ================================================================== *)
(** ** Python string operations *)

Module PyStr.

Definition chars (s : string) : list ascii := list_ascii_of_string s.
Definition of_chars (l : list ascii) : string := string_of_list_ascii l.

(** The line terminator of a line returned by [readlines()]. *)
Definition nl : string := String (ascii_of_nat 10) EmptyString.

(** [str.isspace] on one character, for code points below 256: TAB, LF, VT,
    FF, CR, the separators 0x1c-0x1f, SPACE, NEL (0x85) and NBSP (0xa0). *)
Definition isspace (c : ascii) : bool :=
  let n := nat_of_ascii c in
  ((9 <=? n) && (n <=? 13)) || ((28 <=? n) && (n <=? 32))
  || (n =? 133) || (n =? 160).

Fixpoint dropwhile {A : Type} (p : A -> bool) (l : list A) : list A :=
  match l with
  | [] => []
  | x :: rest => if p x then dropwhile p rest else l
  end.

Fixpoint takewhile {A : Type} (p : A -> bool) (l : list A) : list A :=
  match l with
  | [] => []
  | x :: rest => if p x then x :: takewhile p rest else []
  end.

Definition lstrip_chars (l : list ascii) : list ascii := dropwhile isspace l.
Definition rstrip_chars (l : list ascii) : list ascii :=
  rev (dropwhile isspace (rev l)).

(** [s.strip()]. *)
Definition strip (s : string) : string :=
  of_chars (rstrip_chars (lstrip_chars (chars s))).

(** [s.startswith(p)]. *)
Definition startswith (p s : string) : bool := String.prefix p s.

(** [s.startswith((p1, p2, ...))]. *)
Definition startswith_any (ps : list string) (s : string) : bool :=
  existsb (fun p => startswith p s) ps.

(** [sub in s]. *)
Fixpoint contains (sub s : string) : bool :=
  startswith sub s ||
  match s with
  | EmptyString => false
  | String _ rest => contains sub rest
  end.

(** [s[n:]] and [s[:n]] for a non-negative [n]. *)
Fixpoint drop (n : nat) (s : string) : string :=
  match n, s with
  | O, _ => s
  | S _, EmptyString => EmptyString
  | S m, String _ rest => drop m rest
  end.

Fixpoint take (n : nat) (s : string) : string :=
  match n, s with
  | O, _ => EmptyString
  | S _, EmptyString => EmptyString
  | S m, String c rest => String c (take m rest)
  end.

(** [s.split(sep)] for a non-empty separator: left to right, occurrences do
    not overlap.  [skip] counts the characters of a matched separator that
    are still to be passed over, [cur] is the current piece, reversed. *)
Fixpoint split_go (sep : string) (skip : nat) (cur : list ascii) (s : string)
  : list string :=
  match s with
  | EmptyString => [of_chars (rev cur)]
  | String c rest =>
      match skip with
      | S k => split_go sep k cur rest
      | O =>
          if startswith sep s
          then of_chars (rev cur) :: split_go sep (String.length sep - 1) [] rest
          else split_go sep 0 (c :: cur) rest
      end
  end.

Definition split (sep s : string) : list string := split_go sep 0 [] s.

(** [s.split()]: the maximal runs of non-blank characters. *)
Fixpoint split_ws_go (cur : list ascii) (l : list ascii) : list string :=
  match l with
  | [] => match cur with [] => [] | _ => [of_chars (rev cur)] end
  | c :: rest =>
      if isspace c
      then match cur with
           | [] => split_ws_go [] rest
           | _ => of_chars (rev cur) :: split_ws_go [] rest
           end
      else split_ws_go (c :: cur) rest
  end.

Definition split_ws (s : string) : list string := split_ws_go [] (chars s).

(** [s.rsplit(maxsplit=1)]: the last blank-separated token is split off; what
    stands before it keeps its leading blanks and loses its trailing ones.  A
    blank string gives the empty list, a single token the list of that
    token. *)
Definition rsplit1 (s : string) : list string :=
  let r := dropwhile isspace (rev (chars s)) in
  match r with
  | [] => []
  | _ =>
      let tok := takewhile (fun c => negb (isspace c)) r in
      let rest := dropwhile isspace (dropwhile (fun c => negb (isspace c)) r) in
      match rest with
      | [] => [of_chars (rev tok)]
      | _ => [of_chars (rev rest); of_chars (rev tok)]
      end
  end.

(** [sep.join(parts)]. *)
Fixpoint join (sep : string) (parts : list string) : string :=
  match parts with
  | [] => EmptyString
  | [p] => p
  | p :: rest => String.append p (String.append sep (join sep rest))
  end.

(** [f.readlines()] on the text of a file: each line keeps its terminator. *)
Fixpoint readlines_go (cur : list ascii) (l : list ascii) : list string :=
  match l with
  | [] => match cur with [] => [] | _ => [of_chars (rev cur)] end
  | c :: rest =>
      if Ascii.eqb c (ascii_of_nat 10)
      then of_chars (rev (c :: cur)) :: readlines_go [] rest
      else readlines_go (c :: cur) rest
  end.

Definition readlines (text : string) : list string := readlines_go [] (chars text).

(** The text of a file given line by line, each line terminated. *)
Definition text_of (ls : list string) : string :=
  fold_right (fun l acc => String.append l (String.append nl acc)) EmptyString ls.

End PyStr.

Import PyStr.

(* ================================================================== *)
(** ** Python values, as far as [validate_file_path] inspects them *)

Inductive pyval : Type :=
| PyNone
| PyBool (b : bool)
| PyInt (z : Z)
| PyStr (s : string)
| PyList (items : list string).

(** [bool(v)]. *)
Definition truthy (v : pyval) : bool :=
  match v with
  | PyNone => false
  | PyBool b => b
  | PyInt z => negb (Z.eqb z 0)
  | PyStr s => negb (String.eqb s EmptyString)
  | PyList items => match items with [] => false | _ => true end
  end.

(** [isinstance(v, str)]. *)
Definition is_str (v : pyval) : bool :=
  match v with
  | PyStr _ => true
  | _ => false
  end.

(* ================================================================== *)
(** ** src/utils.py: validate_file_path *)

(** [isfile] is [os.path.isfile] in the file system the call runs in. *)
Definition validate_file_path (isfile : string -> bool) (file_path : pyval)
  : result pyval :=
  if negb (truthy file_path) || negb (is_str file_path) then Raise ValueError
  else
    match file_path with
    | PyStr p => if negb (isfile p) then Raise FileNotFoundError else Ok file_path
    | _ => Raise TypeError
    end.

(* ================================================================== *)
(** ** Dictionaries in insertion order *)

Definition dict (V : Type) : Type := list (string * V).

(** [d[k] = v]: a key that is present keeps its position. *)
Fixpoint dict_set {V : Type} (k : string) (v : V) (d : dict V) : dict V :=
  match d with
  | [] => [(k, v)]
  | (k', v') :: rest =>
      if String.eqb k k' then (k, v) :: rest else (k', v') :: dict_set k v rest
  end.

(** [d.get(k)]. *)
Fixpoint dict_get {V : Type} (k : string) (d : dict V) : option V :=
  match d with
  | [] => None
  | (k', v') :: rest => if String.eqb k k' then Some v' else dict_get k rest
  end.

Definition keys {V : Type} (d : dict V) : list string := map fst d.

(** [Series.unique()], [Index.unique()]: first occurrences, in order. *)
Fixpoint unique_go (seen : list string) (l : list string) : list string :=
  match l with
  | [] => []
  | x :: rest =>
      if existsb (String.eqb x) seen then unique_go seen rest
      else x :: unique_go (x :: seen) rest
  end.

Definition unique (l : list string) : list string := unique_go [] l.

(** [xs[-k]] for [k >= 1]. *)
Definition index_from_end {A : Type} (xs : list A) (k : nat) : result A :=
  if List.length xs <? k then Raise IndexError else index xs (List.length xs - k).

(* ================================================================== *)
(** ** src/utils.py: simulations_lines *)

(** One round of the first loop: the indices of the lines containing
    ['*DSSAT'], and the stripped lines starting with ['TREATMENT'] with
    their indices. *)
Definition scan_line (st : list nat * list (nat * string)) (il : nat * string)
  : list nat * list (nat * string) :=
  let '(dssat_lines, run_lines) := st in
  let '(i, line) := il in
  let dssat_lines :=
    if contains "*DSSAT" line then dssat_lines ++ [i] else dssat_lines in
  let run_lines :=
    if startswith "TREATMENT" (strip line)
    then run_lines ++ [(i, strip line)] else run_lines in
  (dssat_lines, run_lines).

(** [run_line.split(':')[1].strip().rsplit(maxsplit=1)[0]]. *)
Definition treatment_name (run_line : string) : result string :=
  seg <- index (split ":" run_line) 1 ;;
  index (rsplit1 (strip seg)) 0.

(** The inner loop: the first ['TREATMENT'] line whose index lies in
    [start_line .. end_line] gives [run_info]; [None] when there is none. *)
Fixpoint find_run (start_line end_line : nat) (run_lines : list (nat * string))
  : result (option string) :=
  match run_lines with
  | [] => Ok None
  | (run_start, run_line) :: rest =>
      if (start_line <=? run_start) && (run_start <=? end_line)
      then name <- treatment_name run_line ;; Ok (Some name)
      else find_run start_line end_line rest
  end.

(** [if run_info:] on an optional string. *)
Definition nonempty (o : option string) : bool :=
  match o with
  | Some s => negb (String.eqb s EmptyString)
  | None => false
  end.

(** One round of the second loop. *)
Definition block_step (n_lines : nat) (dssat_lines : list nat)
  (run_lines : list (nat * string)) (result_dict : dict (nat * nat))
  (ix : nat * nat) : result (dict (nat * nat)) :=
  let '(i, start_line) := ix in
  end_line <-
    (if i <? List.length dssat_lines - 1
     then (next <- index dssat_lines (i + 1) ;; Ok (next - 1))
     else Ok n_lines) ;;
  run_info <- find_run start_line end_line run_lines ;;
  match run_info with
  | Some name =>
      if nonempty run_info
      then Ok (dict_set name (start_line, end_line) result_dict)
      else Ok result_dict
  | None => Ok result_dict
  end.

Definition simulations_lines (lines : list string) : result (dict (nat * nat)) :=
  let '(dssat_lines, run_lines) := fold_left scan_line (enumerate lines) ([], []) in
  for_each (block_step (List.length lines) dssat_lines run_lines)
    (enumerate dssat_lines) [].

(* ================================================================== *)
(** ** src/utils.py: extract_simulation_data *)

(** A row as the loops append it: every cell is still text. *)
Record raw_record : Type := mk_raw {
  raw_TREATMENT : string;
  raw_cultivar : string;
  raw_VARIABLE : string;
  raw_VALUE_SIMULATED : string;
  raw_VALUE_MEASURED : string;
  raw_EXPERIMENT : option string;
  raw_POSITION : nat
}.

(** ['' if v.startswith('-99') else v]. *)
Definition blank_sentinel (v : string) : string :=
  if startswith "-99" v then EmptyString else v.

(** The body of the data loop once the line is known to be a data line:
    the tokens of the line give the variable name and the two values. *)
Definition data_row (treatment : string) (cultivar : option string)
  (experiment_info : option string) (line_number : nat) (data_line : string)
  : result raw_record :=
  let tokens := split_ws (strip data_line) in
  let variable_name := join " " (firstn (List.length tokens - 2) tokens) in
  simulated_value <- index_from_end tokens 2 ;;
  measured_value <- index_from_end tokens 1 ;;
  let simulated_value := blank_sentinel simulated_value in
  let measured_value := blank_sentinel measured_value in
  cultivar <- match cultivar with
              | Some c => Ok c
              | None => Raise UnboundLocalError
              end ;;
  Ok (mk_raw treatment cultivar variable_name simulated_value measured_value
        experiment_info line_number).

(** [for data_line in lines[i + 1:]]: rows are read until a blank line or a
    line starting with ['*']. *)
Fixpoint read_rows (treatment : string) (cultivar : option string)
  (experiment_info : option string) (line_number : nat)
  (rest : list string) (cultivar_data : list raw_record)
  : result (list raw_record) :=
  match rest with
  | [] => Ok cultivar_data
  | data_line :: rest' =>
      let line_number := line_number + 1 in
      if String.eqb (strip data_line) EmptyString || startswith "*" data_line
      then Ok cultivar_data
      else
        row <- data_row treatment cultivar experiment_info line_number data_line ;;
        read_rows treatment cultivar experiment_info line_number rest'
          (cultivar_data ++ [row])
  end.

(** The variables that outlive one treatment block ([cultivar] and
    [header_line] are unbound until first assigned) and the two that are
    reset for every block. *)
Record scan_state : Type := mk_scan {
  st_cultivar : option string;
  st_header_line : option string;
  st_all_data : list raw_record;
  st_experiment_info : option string;
  st_cultivar_data : list raw_record
}.

(** [parts[1].split('ECOTYPE')[0].strip()] where
    [parts = line.split('CULTIVAR :')]. *)
Definition cultivar_of (line : string) : result (option string) :=
  let parts := split "CULTIVAR :" line in
  if 1 <? List.length parts
  then
    p1 <- index parts 1 ;;
    c <- index (split "ECOTYPE" p1) 0 ;;
    Ok (Some (strip c))
  else Ok None.

(** [line.split(':')[1].strip()]. *)
Definition experiment_of (line : string) : result string :=
  seg <- index (split ":" line) 1 ;;
  Ok (strip seg).

(** One round of [for i in range(start_line, end_line)]. *)
Definition line_step (lines : list string) (treatment : string)
  (st : scan_state) (i : nat) : result scan_state :=
  raw <- index lines i ;;
  let line := strip raw in
  experiment_info <-
    (if startswith "EXPERIMENT" line
     then (e <- experiment_of line ;; Ok (Some e))
     else Ok (st_experiment_info st)) ;;
  cultivar <-
    (if startswith "CROP" line && contains "CULTIVAR :" line
     then (c <- cultivar_of line ;;
           Ok (match c with Some _ => c | None => st_cultivar st end))
     else Ok (st_cultivar st)) ;;
  if startswith "@" line
  then
    cultivar_data <-
      read_rows treatment cultivar experiment_info 0 (skipn (i + 1) lines)
        (st_cultivar_data st) ;;
    Ok (mk_scan cultivar (Some line) (st_all_data st ++ cultivar_data)
          experiment_info cultivar_data)
  else
    Ok (mk_scan cultivar (st_header_line st) (st_all_data st)
          experiment_info (st_cultivar_data st)).

(** One round of [for treatment, (start_line, end_line) in
    treatment_dict.items()]. *)
Definition treatment_step (lines : list string) (st : scan_state)
  (entry : string * (nat * nat)) : result scan_state :=
  let '(treatment, (start_line, end_line)) := entry in
  let st0 := mk_scan (st_cultivar st) (st_header_line st) (st_all_data st) None [] in
  for_each (line_step lines treatment) (seq start_line (end_line - start_line)) st0.

(** The rows that survive the ['--------'] filter. *)
Definition has_rule (r : raw_record) : bool :=
  contains "--------" (raw_VARIABLE r)
  || contains "--------" (raw_VALUE_SIMULATED r)
  || contains "--------" (raw_VALUE_MEASURED r).

Section Overview.

(** The numbers of a numeric column, and [pd.to_numeric(..., errors='coerce')]
    on one cell: [None] is NaN. *)
Variable num : Type.
Variable to_numeric : string -> option num.

(** A row of the DataFrame [extract_simulation_data] returns (column names in
    lower case). *)
Record record : Type := mk_record {
  treatment : string;
  cultivar : string;
  variable : string;
  value_simulated : option num;
  value_measured : option num;
  experiment : option string;
  position : nat
}.

Definition numeric_row (r : raw_record) : record :=
  mk_record (raw_TREATMENT r) (raw_cultivar r) (raw_VARIABLE r)
    (to_numeric (raw_VALUE_SIMULATED r)) (to_numeric (raw_VALUE_MEASURED r))
    (raw_EXPERIMENT r) (raw_POSITION r).

(** The loops of [extract_simulation_data]: the rows in the order they are
    concatenated, and the last header line. *)
Definition scan_overview (lines : list string) : result scan_state :=
  treatment_dict <- simulations_lines lines ;;
  for_each (treatment_step lines) treatment_dict (mk_scan None None [] None []).

Definition extract_simulation_data (lines : list string)
  : result (list record * string) :=
  st <- scan_overview lines ;;
  let all_data := filter (fun r => negb (has_rule r)) (st_all_data st) in
  let all_data := map numeric_row all_data in
  match st_header_line st with
  | Some header_line => Ok (all_data, header_line)
  | None => Raise UnboundLocalError
  end.

End Overview.

Arguments mk_record {num}.
Arguments treatment {num}.
Arguments cultivar {num}.
Arguments variable {num}.
Arguments value_simulated {num}.
Arguments value_measured {num}.
Arguments experiment {num}.
Arguments position {num}.
Arguments numeric_row {num}.
Arguments extract_simulation_data {num}.

(** A numeric parser for the examples: an optional sign and decimal digits.
    It stands for [pd.to_numeric] only on such tokens. *)
Fixpoint digits_value (acc : Z) (l : list ascii) : option Z :=
  match l with
  | [] => Some acc
  | c :: rest =>
      let n := nat_of_ascii c in
      if (48 <=? n) && (n <=? 57)
      then digits_value (10 * acc + Z.of_nat (n - 48))%Z rest
      else None
  end.

Definition to_numeric_int (s : string) : option Z :=
  match chars s with
  | [] => None
  | c :: rest =>
      if Ascii.eqb c "-"%char
      then match rest with
           | [] => None
           | _ => option_map Z.opp (digits_value 0 rest)
           end
      else digits_value 0 (c :: rest)
  end.

(* ================================================================== *)
(** ** The files a call reads *)

(** A value of a field of [config.yaml] as [yaml.safe_load] returns it
    (sequences hold strings). *)
Inductive yaml_value : Type :=
| YNull
| YStr (s : string)
| YInt (z : Z)
| YBool (b : bool)
| YSeq (items : list string).

(** The document [yaml.safe_load] returns: [None] for an empty file, a
    mapping, or something that is not a mapping. *)
Inductive yaml_doc : Type :=
| YDocNull
| YDocMap (m : dict yaml_value)
| YDocOther.

(** [yaml.safe_load(config)]: a document, or [yaml.YAMLError]. *)
Inductive yaml_load : Type :=
| YamlParsed (d : yaml_doc)
| YamlError.

(** The file system of a call: [os.path.isfile], the lines of a text file
    that [open] finds, and what [yaml.safe_load] makes of one. *)
Record file_system : Type := mk_fs {
  fs_isfile : string -> bool;
  fs_lines : string -> option (list string);
  fs_yaml : string -> option yaml_load
}.

Definition open_lines (fs : file_system) (path : string) : result (list string) :=
  match fs_lines fs path with
  | Some ls => Ok ls
  | None => Raise FileNotFoundError
  end.

Definition open_yaml (fs : file_system) (path : string) : result yaml_load :=
  match fs_yaml fs path with
  | Some y => Ok y
  | None => Raise FileNotFoundError
  end.

(** [s.endswith('/')]. *)
Definition ends_with_slash (s : string) : bool :=
  match rev (chars s) with
  | c :: _ => Ascii.eqb c "/"%char
  | [] => false
  end.

(** [os.path.join(a, b)] of [posixpath]. *)
Definition path_join2 (a b : string) : string :=
  if startswith "/" b then b
  else if String.eqb a EmptyString || ends_with_slash a then String.append a b
  else String.append a (String.append "/" b).

(** [os.path.join(a, *parts)]. *)
Definition path_join (a : string) (parts : list string) : string :=
  fold_left path_join2 parts a.

(* ================================================================== *)
(** ** src/utils.py: wht_filedata_to_dataframe *)

Record wht_frame : Type := mk_wht_frame {
  wht_columns : list string;
  wht_data : list (list string)
}.

(** The condition of the list comprehension that selects the data lines. *)
Definition is_data_line (line : string) : bool :=
  negb (String.eqb (strip line) EmptyString)
  && negb (startswith_any ["*"; "!"; "@"] line).

Definition wht_rows (lines : list string) : result wht_frame :=
  match find (startswith "@") lines with
  | None => Raise ValueError
  | Some line =>
      let header_line := strip line in
      let columns := split_ws (drop 1 header_line) in
      let data_lines := map strip (filter is_data_line lines) in
      data <- for_each
                (fun data line =>
                   let values := split_ws line in
                   if List.length values =? List.length columns
                   then Ok (data ++ [values])
                   else Raise ValueError)
                data_lines [] ;;
      Ok (mk_wht_frame columns data)
  end.

Definition wht_filedata_to_dataframe (fs : file_system) (file_path : string)
  : result wht_frame :=
  lines <- open_lines fs file_path ;;
  wht_rows lines.

(* ================================================================== *)
(** ** src/utils.py: load_and_process_overview *)

(** [', '.join(value) if value else ''] for [value = config_file.get(field,
    [])]: a string is joined character by character, a number that is not
    zero cannot be joined. *)
Definition label_of (value : option yaml_value) : result string :=
  match value with
  | None => Ok EmptyString
  | Some YNull => Ok EmptyString
  | Some (YStr s) =>
      Ok (join ", " (map (fun c => String c EmptyString) (chars s)))
  | Some (YInt z) => if Z.eqb z 0 then Ok EmptyString else Raise TypeError
  | Some (YBool b) => if b then Raise TypeError else Ok EmptyString
  | Some (YSeq items) => Ok (join ", " items)
  end.

(** [config_file.get(field, [])] followed by the join; [config_file] is
    [None] while the variable is unbound. *)
Definition field_label (config_file : option yaml_doc) (field : string)
  : result string :=
  match config_file with
  | None => Raise UnboundLocalError
  | Some (YDocMap m) => label_of (dict_get field m)
  | Some _ => Raise AttributeError
  end.

Section LoadOverview.

Variable num : Type.
Variable to_numeric : string -> option num.

(** A row of one subfolder's frame once its columns are added. *)
Record tagged : Type := mk_tagged {
  tg_row : record num;
  tg_calibration_code : string;
  tg_plantgro_variables : string;
  tg_overview_variables : string;
  tg_calibration_method : string;
  tg_short_label : string;
  tg_long_label : string
}.

(** A row of the DataFrame [load_and_process_overview] returns. *)
Record overview_row : Type := mk_overview_row {
  ov_treatment_cultivar : string;
  ov_cultivar : string;
  ov_variable : option string;
  ov_value_simulated : option num;
  ov_value_measured : option num;
  ov_experiment : option string;
  ov_position : nat;
  ov_calibration_code : string;
  ov_plantgro_variables : string;
  ov_overview_variables : string;
  ov_calibration_method : string;
  ov_short_label : string;
  ov_long_label : string;
  ov_treatment : option string
}.

(** [dropna(subset=['value_measured'])] keeps these rows. *)
Definition has_measured (r : record num) : bool :=
  match value_measured r with
  | Some _ => true
  | None => false
  end.

(** One round of [for calibration_code in calibration_code_list]; the state
    is [config_file] (unbound at first) and [list_overview_df]. *)
Definition overview_step (fs : file_system) (base_data_dir : string)
  (st : option yaml_doc * list (list tagged)) (calibration_code : string)
  : result (option yaml_doc * list (list tagged)) :=
  let '(config_file, list_overview_df) := st in
  let out_file_path := path_join base_data_dir [calibration_code; "OVERVIEW.OUT"] in
  validated_path <- validate_file_path (fs_isfile fs) (PyStr out_file_path) ;;
  lines <- match validated_path with
           | PyStr p => open_lines fs p
           | _ => Raise TypeError
           end ;;
  '(overview_df_raw, _) <- extract_simulation_data to_numeric lines ;;
  let overview_df := filter has_measured overview_df_raw in
  let yaml_file_path := path_join base_data_dir [calibration_code; "config.yaml"] in
  loaded <- open_yaml fs yaml_file_path ;;
  let config_file :=
    match loaded with
    | YamlParsed d => Some d
    | YamlError => config_file
    end in
  plantgro_variables <- field_label config_file "plantgro_variables" ;;
  overview_variables <- field_label config_file "overview_variables" ;;
  calibration_method <- field_label config_file "calibration_method" ;;
  short_label <- field_label config_file "short_label" ;;
  long_label <- field_label config_file "long_label" ;;
  let overview_df :=
    map (fun r => mk_tagged r calibration_code plantgro_variables
                    overview_variables calibration_method short_label long_label)
      overview_df in
  Ok (config_file, list_overview_df ++ [overview_df]).

(** The renaming and the two [map] calls after the concatenation. *)
Definition relabel (treatments_dic variable_name_mapping : dict string)
  (t : tagged) : overview_row :=
  let r := tg_row t in
  mk_overview_row (treatment r) (cultivar r)
    (dict_get (variable r) variable_name_mapping)
    (value_simulated r) (value_measured r) (experiment r) (position r)
    (tg_calibration_code t) (tg_plantgro_variables t) (tg_overview_variables t)
    (tg_calibration_method t) (tg_short_label t) (tg_long_label t)
    (dict_get (take 4 (treatment r)) treatments_dic).

Definition load_and_process_overview (fs : file_system)
  (calibration_code_list : list string) (base_data_dir : string)
  (treatments_dic variable_name_mapping : dict string)
  : result (list overview_row) :=
  '(_, list_overview_df) <-
    for_each (overview_step fs base_data_dir) calibration_code_list (None, []) ;;
  match list_overview_df with
  | [] => Raise ValueError
  | _ =>
      Ok (map (relabel treatments_dic variable_name_mapping)
            (List.concat list_overview_df))
  end.

End LoadOverview.

Arguments mk_tagged {num}.
Arguments tg_row {num}.
Arguments tg_calibration_code {num}.
Arguments tg_plantgro_variables {num}.
Arguments tg_overview_variables {num}.
Arguments tg_calibration_method {num}.
Arguments tg_short_label {num}.
Arguments tg_long_label {num}.
Arguments mk_overview_row {num}.
Arguments ov_treatment_cultivar {num}.
Arguments ov_cultivar {num}.
Arguments ov_variable {num}.
Arguments ov_value_simulated {num}.
Arguments ov_value_measured {num}.
Arguments ov_experiment {num}.
Arguments ov_position {num}.
Arguments ov_calibration_code {num}.
Arguments ov_plantgro_variables {num}.
Arguments ov_overview_variables {num}.
Arguments ov_calibration_method {num}.
Arguments ov_short_label {num}.
Arguments ov_long_label {num}.
Arguments ov_treatment {num}.
Arguments has_measured {num}.
Arguments overview_step {num}.
Arguments relabel {num}.
Arguments load_and_process_overview {num}.

(* ================================================================== *)
(** ** src/ts_get_data.py and src/utils.py: load_prepare_time_series_data

    The embedding starts where the PlantGro frame has been filtered by the
    requested treatment and cut to its essential columns, and the WHT frames
    have been concatenated: its inputs are [plantgro_df], [wht_full_df],
    [treatment_number_name] and [treatment_experiment_name] at that point.
    Both copies of the function agree on the statements embedded here. *)

Module TimeSeries.

Definition is_digit (c : ascii) : bool :=
  let n := nat_of_ascii c in (48 <=? n) && (n <=? 57).

Definition digit (c : ascii) : Z := Z.of_nat (nat_of_ascii c - 48).

Definition number (l : list ascii) : Z :=
  fold_left (fun acc c => (10 * acc + digit c)%Z) l 0%Z.

(** Digits with single underscores between them, as [int] accepts. *)
Fixpoint int_body (prev_digit : bool) (acc : Z) (l : list ascii) : option Z :=
  match l with
  | [] => if prev_digit then Some acc else None
  | c :: rest =>
      if is_digit c then int_body true (10 * acc + digit c)%Z rest
      else if Ascii.eqb c "_"%char && prev_digit then int_body false acc rest
      else None
  end.

(** [int(s)] on a string: blanks around, an optional sign, decimal digits. *)
Definition py_int (s : string) : result Z :=
  let body (l : list ascii) :=
    match l with
    | [] => None
    | _ => int_body false 0%Z l
    end in
  let parsed :=
    match chars (strip s) with
    | [] => None
    | c :: rest =>
        if Ascii.eqb c "-"%char then option_map Z.opp (body rest)
        else if Ascii.eqb c "+"%char then body rest
        else body (c :: rest)
    end in
  match parsed with
  | Some z => Ok z
  | None => Raise ValueError
  end.

(** Days before 1 January of year [y] in the proleptic Gregorian calendar
    ([datetime.date(y, 1, 1).toordinal() - 1]). *)
Definition days_before_year (y : Z) : Z :=
  (365 * (y - 1) + (y - 1) / 4 - (y - 1) / 100 + (y - 1) / 400)%Z.

(** The day number of day [j] of year [y]; day 366 of a common year is
    1 January of the next one, as [strptime] has it. *)
Definition ordinal (y j : Z) : Z := (days_before_year y + j)%Z.

(** The first and last midnights a nanosecond [Timestamp] holds:
    1677-09-22 and 2262-04-11. *)
Definition min_ordinal : Z := ordinal 1677 265.
Definition max_ordinal : Z := ordinal 2262 101.

(** [pd.to_datetime(s, format='%Y%j')] on one cell, as a day number: four
    digits of year, then one to three digits of day of year in 1..366. *)
Definition to_datetime (s : string) : result Z :=
  let l := chars s in
  let y := firstn 4 l in
  let j := skipn 4 l in
  if (List.length y =? 4) && forallb is_digit l
     && (1 <=? List.length j) && (List.length j <=? 3)
     && (1 <=? number j)%Z && (number j <=? 366)%Z && (1 <=? number y)%Z
  then
    let d := ordinal (number y) (number j) in
    if (min_ordinal <=? d)%Z && (d <=? max_ordinal)%Z then Ok d
    else Raise OutOfBoundsDatetime
  else Raise ValueError.

(** A row of [plantgro_df]; [None] is NaN. *)
Record plantgro_row : Type := mk_plantgro_row {
  pg_DATE : string;
  pg_DAS : option Z;
  pg_DAP : option Z;
  pg_treatment : string;
  pg_genotype : string;
  pg_sim_id : string;
  pg_treatment_number : string;
  pg_experiment_id : string
}.

(** A row of the concatenated WHT frame: the text cells of the columns TRNO
    and DATE, the experiment the file belongs to, and the measured columns. *)
Record wht_row : Type := mk_wht_row {
  w_TRNO : string;
  w_DATE : string;
  w_experiment_id : string;
  w_cells : dict string
}.

(** A row of [mapping_df]. *)
Record mapping_row : Type := mk_mapping_row {
  mp_experiment_id : string;
  mp_treatment_number : Z;
  mp_sim_id : string;
  mp_treatment : string;
  mp_genotype : string
}.

(** A WHT row after the merges; the columns that come from [mapping_df] are
    missing when no simulated run matches. *)
Record merged_row : Type := mk_merged_row {
  mr_TRNO : Z;
  mr_DATE : string;
  mr_experiment_id : string;
  mr_cells : dict string;
  mr_run : option mapping_row;
  mr_DAS : option Z;
  mr_DAP : option Z
}.

(** [treat, geno = sim_id.split('_')]. *)
Definition split_sim_id (sim_id : string) : result (string * string) :=
  match split "_" sim_id with
  | [treat; geno] => Ok (treat, geno)
  | _ => Raise ValueError
  end.

Definition dict_index {V : Type} (d : dict V) (k : string) : result V :=
  match dict_get k d with
  | Some v => Ok v
  | None => Raise KeyError
  end.

(** The row appended to [mapping_rows] for one simulated run. *)
Definition mapping_row_of (treatment_number_name : dict string)
  (item : string * string) : result mapping_row :=
  let '(sim_id, experiment_id) := item in
  treatment_number <- dict_index treatment_number_name sim_id ;;
  '(treat, geno) <- split_sim_id sim_id ;;
  n <- py_int treatment_number ;;
  Ok (mk_mapping_row experiment_id n sim_id treat geno).

(** [mapping_rows], one per simulated run. *)
Definition mapping_rows (treatment_number_name treatment_experiment_name : dict string)
  : result (list mapping_row) :=
  for_each
    (fun rows item =>
       row <- mapping_row_of treatment_number_name item ;; Ok (rows ++ [row]))
    treatment_experiment_name [].

(** [wht_full_df['TRNO'].astype(int)]. *)
Definition trno_of (w : wht_row) : result (Z * wht_row) :=
  n <- py_int (w_TRNO w) ;; Ok (n, w).

Definition trno_as_int (wht_full_df : list wht_row) : result (list (Z * wht_row)) :=
  for_each (fun acc w => nw <- trno_of w ;; Ok (acc ++ [nw])) wht_full_df [].

(** The key of the first merge: experiment id and treatment number. *)
Definition same_run (n : Z) (w : wht_row) (m : mapping_row) : bool :=
  String.eqb (w_experiment_id w) (mp_experiment_id m)
  && Z.eqb n (mp_treatment_number m).

(** [how='left'] on one left row: every matching right row, in order, or
    one row with the right columns missing. *)
Definition merge_mapping_row (mapping_df : list mapping_row) (nw : Z * wht_row)
  : list merged_row :=
  let '(n, w) := nw in
  let row (run : option mapping_row) :=
    mk_merged_row n (w_DATE w) (w_experiment_id w) (w_cells w) run None None in
  match filter (same_run n w) mapping_df with
  | [] => [row None]
  | ms => map (fun m => row (Some m)) ms
  end.

(** [wht_full_df[wht_full_df['treatment'] == treatment]]. *)
Definition of_treatment (treatment : string) (r : merged_row) : bool :=
  match mr_run r with
  | Some m => String.eqb (mp_treatment m) treatment
  | None => false
  end.

(** The key of the second merge: DATE, treatment and genotype. *)
Definition same_timing (p q : plantgro_row) : bool :=
  String.eqb (pg_DATE p) (pg_DATE q)
  && String.eqb (pg_treatment p) (pg_treatment q)
  && String.eqb (pg_genotype p) (pg_genotype q).

(** [drop_duplicates(subset=['DATE', 'treatment', 'genotype'])]: the first
    row of every key is kept. *)
Fixpoint drop_duplicates (seen : list plantgro_row) (rows : list plantgro_row)
  : list plantgro_row :=
  match rows with
  | [] => []
  | p :: rest =>
      if existsb (same_timing p) seen then drop_duplicates seen rest
      else p :: drop_duplicates (p :: seen) rest
  end.

Definition timing_df (plantgro_df : list plantgro_row) : list plantgro_row :=
  drop_duplicates [] plantgro_df.

Definition timing_match (r : merged_row) (p : plantgro_row) : bool :=
  match mr_run r with
  | Some m =>
      String.eqb (mr_DATE r) (pg_DATE p)
      && String.eqb (mp_treatment m) (pg_treatment p)
      && String.eqb (mp_genotype m) (pg_genotype p)
  | None => false
  end.

(** The second left merge on one row (its key is unique in [timing_df]). *)
Definition merge_timing_row (timing : list plantgro_row) (r : merged_row)
  : list merged_row :=
  let row (das dap : option Z) :=
    mk_merged_row (mr_TRNO r) (mr_DATE r) (mr_experiment_id r) (mr_cells r)
      (mr_run r) das dap in
  match filter (timing_match r) timing with
  | [] => [row None None]
  | ps => map (fun p => row (pg_DAS p) (pg_DAP p)) ps
  end.

(** The WHT frame after the merge with [mapping_df], the treatment filter
    and the merge with [timing_df]. *)
Definition enrich (plantgro_df : list plantgro_row) (wht_full_df : list wht_row)
  (treatment_number_name treatment_experiment_name : dict string)
  (treatment : string) : result (list merged_row) :=
  mapping_df <- mapping_rows treatment_number_name treatment_experiment_name ;;
  wht <- trno_as_int wht_full_df ;;
  match mapping_df with
  | [] => Raise KeyError
  | _ =>
      let merged := flat_map (merge_mapping_row mapping_df) wht in
      let merged := filter (of_treatment treatment) merged in
      Ok (flat_map (merge_timing_row (timing_df plantgro_df)) merged)
  end.

(** [plantgro_df.loc[plantgro_df['DAP'] == 0, 'DATE'].unique()] as day
    numbers. *)
Definition dap0_dates_dt (plantgro_df : list plantgro_row) : result (list Z) :=
  for_each (fun acc s => d <- to_datetime s ;; Ok (acc ++ [d]))
    (unique
       (map pg_DATE
          (filter (fun p => match pg_DAP p with
                            | Some d => Z.eqb d 0
                            | None => false
                            end) plantgro_df)))
    [].

(** [dap0_dates_dt.min()]: NaT when there is no such date. *)
Definition earliest (ds : list Z) : option Z :=
  match ds with
  | [] => None
  | d :: rest => Some (fold_left Z.min rest d)
  end.

(** The assignment under [missing_dap_mask] on one row. *)
Definition fill_dap (reference_zero_dap_date : option Z) (r : merged_row)
  : result merged_row :=
  DATE_dt <- to_datetime (mr_DATE r) ;;
  let dap :=
    match mr_DAP r with
    | Some d => Some d
    | None =>
        match reference_zero_dap_date with
        | Some ref => Some (DATE_dt - ref)%Z
        | None => None
        end
    end in
  Ok (mk_merged_row (mr_TRNO r) (mr_DATE r) (mr_experiment_id r) (mr_cells r)
        (mr_run r) (mr_DAS r) dap).

(** The measurement frame once the missing DAP values are filled in. *)
Definition load_prepare_time_series_data (plantgro_df : list plantgro_row)
  (wht_full_df : list wht_row)
  (treatment_number_name treatment_experiment_name : dict string)
  (treatment : string) : result (list merged_row) :=
  dates <- dap0_dates_dt plantgro_df ;;
  rows <- enrich plantgro_df wht_full_df treatment_number_name
            treatment_experiment_name treatment ;;
  for_each (fun acc r => r' <- fill_dap (earliest dates) r ;; Ok (acc ++ [r']))
    rows [].

End TimeSeries.

(* ================================================================== *)
(** ** src/data_preparation_grid.py: prepare_metrics_by_treatment *)

Module Grid.

(** Insertion into a list sorted by [le]; an element goes after the ones it
    ties with.  (pandas sorts with quicksort, which fixes no order among
    ties; the statements below hold for any order among ties.) *)
Fixpoint insert_by {A : Type} (le : A -> A -> bool) (x : A) (l : list A) : list A :=
  match l with
  | [] => [x]
  | y :: rest => if le y x then y :: insert_by le x rest else x :: l
  end.

Definition sort_by {A : Type} (le : A -> A -> bool) (l : list A) : list A :=
  fold_left (fun acc x => insert_by le x acc) l [].

(** [Series.isin(selected)] on one cell. *)
Definition isin (selected : list string) (x : string) : bool :=
  existsb (String.eqb x) selected.

Section Grid.

(** The numbers of a metric column with their order, [round(NRMSE_DECIMALS)]
    on one cell and the mean of a non-empty list of cells.  A missing cell
    (NaN) is [None]. *)
Variable V : Type.
Variable leb : V -> V -> bool.
Variable round : V -> V.
Variable mean : list V -> V.

(** A row of a metric table: the group columns and the metric. *)
Record metric_row : Type := mk_metric_row {
  m_variable : string;
  m_calibration_method : string;
  m_short_label : string;
  m_long_label : string;
  m_treatment : string;
  m_value : option V
}.

(** A pivoted table: row labels, column labels and the cells row by row. *)
Record pivot : Type := mk_pivot {
  pv_index : list string;
  pv_columns : list string;
  pv_cells : list (list (option V))
}.

Definition at_key (v l : string) (r : metric_row) : bool :=
  String.eqb (m_variable r) v && String.eqb (m_short_label r) l.

(** [Index contains duplicate entries]: two rows with the same variable and
    short label. *)
Fixpoint has_duplicates (rows : list metric_row) : bool :=
  match rows with
  | [] => false
  | r :: rest =>
      existsb (at_key (m_variable r) (m_short_label r)) rest || has_duplicates rest
  end.

(** [df.pivot(index='variable', columns='short_label', values=...)]: labels
    in sorted order, a cell without a row is missing. *)
Definition pivot_table (rows : list metric_row) : result pivot :=
  if has_duplicates rows then Raise ValueError
  else
    let index := sort_by String.leb (unique (map m_variable rows)) in
    let columns := sort_by String.leb (unique (map m_short_label rows)) in
    let cell v l :=
      match find (at_key v l) rows with
      | Some r => m_value r
      | None => None
      end in
    Ok (mk_pivot index columns (map (fun v => map (cell v) columns) index)).

Definition round_pivot (p : pivot) : pivot :=
  mk_pivot (pv_index p) (pv_columns p)
    (map (map (option_map round)) (pv_cells p)).

(** The mean of the cells that are not missing; missing when all are. *)
Definition nanmean (cells : list (option V)) : option V :=
  match flat_map (fun c => match c with Some x => [x] | None => [] end) cells with
  | [] => None
  | xs => Some (mean xs)
  end.

(** [p.mean(axis=1)] and [p.mean(axis=0)], each value with its label. *)
Definition row_means (p : pivot) : list (string * option V) :=
  combine (pv_index p) (map nanmean (pv_cells p)).

Definition column (p : pivot) (j : nat) : list (option V) :=
  map (fun row => nth j row None) (pv_cells p).

Definition column_means (p : pivot) : list (string * option V) :=
  combine (pv_columns p)
    (map (fun j => nanmean (column p j)) (seq 0 (List.length (pv_columns p)))).

(** The order of [sort_values()]: ascending, missing values last. *)
Definition key_le (a b : string * option V) : bool :=
  match snd a, snd b with
  | Some x, Some y => leb x y
  | Some _, None => true
  | None, Some _ => false
  | None, None => true
  end.

(** [s.sort_values().index]. *)
Definition sorted_index (s : list (string * option V)) : list string :=
  map fst (sort_by key_le s).

(** The position of a label in an index; [KeyError] when it is absent. *)
Fixpoint position_of (label : string) (labels : list string) : result nat :=
  match labels with
  | [] => Raise KeyError
  | x :: rest =>
      if String.eqb x label then Ok 0
      else (n <- position_of label rest ;; Ok (S n))
  end.

Definition positions (wanted labels : list string) : result (list nat) :=
  for_each (fun acc l => n <- position_of l labels ;; Ok (acc ++ [n])) wanted [].

(** [p.loc[rows, cols]] for two lists of labels. *)
Definition loc (p : pivot) (rows cols : list string) : result pivot :=
  row_pos <- positions rows (pv_index p) ;;
  col_pos <- positions cols (pv_columns p) ;;
  Ok (mk_pivot rows cols
        (map (fun i => map (fun j => nth j (nth i (pv_cells p) []) None) col_pos)
           row_pos)).

Definition prepare_metrics_by_treatment
  (nrmse_data mpe_data r2_data gain_data : list metric_row)
  (treatment : string) (selected_variables selected_short_labels : list string)
  : result (pivot * pivot * pivot * pivot) :=
  let filtered_trt :=
    filter (fun r => isin selected_short_labels (m_short_label r)
                     && String.eqb (m_treatment r) treatment
                     && isin selected_variables (m_variable r)) nrmse_data in
  pivot_table_trt <- pivot_table filtered_trt ;;
  let pivot_table_trt := round_pivot pivot_table_trt in
  let treatment_order_trt := sorted_index (row_means pivot_table_trt) in
  let calib_order_trt := sorted_index (column_means pivot_table_trt) in
  pivot_table_ordered_trt <- loc pivot_table_trt treatment_order_trt calib_order_trt ;;
  let other (data : list metric_row) :=
    let filtered :=
      filter (fun r => String.eqb (m_treatment r) treatment
                       && isin selected_variables (m_variable r)
                       && isin selected_short_labels (m_short_label r)) data in
    p <- pivot_table filtered ;;
    loc p treatment_order_trt calib_order_trt in
  pivot_mpe_trt <- other mpe_data ;;
  pivot_r2_trt <- other r2_data ;;
  pivot_gain_trt <- other gain_data ;;
  Ok (pivot_table_ordered_trt, pivot_mpe_trt, pivot_r2_trt, pivot_gain_trt).

(** The rows of the NRMSE table that a call selects. *)
Definition selected_nrmse (nrmse_data : list (metric_row)) (treatment : string)
  (selected_variables selected_short_labels : list string) : list (metric_row) :=
  filter (fun r => isin selected_short_labels (m_short_label r)
                   && String.eqb (m_treatment r) treatment
                   && isin selected_variables (m_variable r)) nrmse_data.

(** The four tables have the same row labels in the same order and the same
    column labels in the same order; the row labels are the variables of the
    [selected] NRMSE rows, each once, in ascending order of the mean of the
    rounded NRMSE over the calibration labels, and the column labels are the
    calibration labels of those rows, each once, in ascending order of the
    mean of the rounded NRMSE over the variables (a missing mean comes
    last). *)
Definition ordered_by_nrmse (selected : list (metric_row)) (p1 p2 p3 p4 : pivot)
  : Prop :=
  exists p0,
    pivot_table selected = Ok p0
    /\ (pv_index p2 = pv_index p1 /\ pv_index p3 = pv_index p1
        /\ pv_index p4 = pv_index p1)
    /\ (pv_columns p2 = pv_columns p1 /\ pv_columns p3 = pv_columns p1
        /\ pv_columns p4 = pv_columns p1)
    /\ (exists keyed,
          Permutation keyed (row_means (round_pivot p0))
          /\ Sorted (fun a b => key_le a b = true) keyed
          /\ pv_index p1 = map fst keyed)
    /\ (exists keyed,
          Permutation keyed (column_means (round_pivot p0))
          /\ Sorted (fun a b => key_le a b = true) keyed
          /\ pv_columns p1 = map fst keyed)
    /\ (NoDup (pv_index p1)
        /\ forall v, In v (pv_index p1) <-> exists r, In r selected /\ m_variable r = v)
    /\ (NoDup (pv_columns p1)
        /\ forall l, In l (pv_columns p1)
                     <-> exists r, In r selected /\ m_short_label r = l).

(** The key a metric table is expected to hold once: variable, calibration
    label and treatment. *)
Definition key3 (r : metric_row) : string * string * string :=
  (m_variable r, m_short_label r, m_treatment r).

End Grid.

Arguments mk_metric_row {V}.
Arguments m_variable {V}.
Arguments m_calibration_method {V}.
Arguments m_short_label {V}.
Arguments m_long_label {V}.
Arguments m_treatment {V}.
Arguments m_value {V}.
Arguments mk_pivot {V}.
Arguments pv_index {V}.
Arguments pv_columns {V}.
Arguments pv_cells {V}.
Arguments at_key {V}.
Arguments has_duplicates {V}.
Arguments pivot_table {V}.
Arguments round_pivot {V}.
Arguments nanmean {V}.
Arguments row_means {V}.
Arguments column {V}.
Arguments column_means {V}.
Arguments key_le {V}.
Arguments sorted_index {V}.
Arguments loc {V}.
Arguments prepare_metrics_by_treatment {V}.
Arguments selected_nrmse {V}.
Arguments ordered_by_nrmse {V}.
Arguments key3 {V}.

End Grid.

(* ================================================================== *)
(** ** src/utils.py: update_variable_names *)

(** [s.replace(old, new)] for a non-empty [old]: left to right, occurrences
    do not overlap.  [skip] counts the characters of a matched occurrence
    that are still to be passed over. *)
Fixpoint str_replace_go (old new : string) (skip : nat) (s : string) : string :=
  match s with
  | EmptyString => EmptyString
  | String c rest =>
      match skip with
      | S k => str_replace_go old new k rest
      | O =>
          if startswith old s
          then String.append new (str_replace_go old new (String.length old - 1) rest)
          else String c (str_replace_go old new 0 rest)
      end
  end.

Definition str_replace (old new s : string) : string := str_replace_go old new 0 s.

(** [\w] of [re] on a [str] pattern, for code points below 256: the ASCII
    letters and digits, the underscore and the Latin-1 letters and numbers. *)
Definition is_word (c : ascii) : bool :=
  let n := nat_of_ascii c in
  ((48 <=? n) && (n <=? 57)) || ((65 <=? n) && (n <=? 90)) || (n =? 95)
  || ((97 <=? n) && (n <=? 122))
  || (n =? 170) || (n =? 178) || (n =? 179) || (n =? 181) || (n =? 185)
  || (n =? 186) || ((188 <=? n) && (n <=? 190))
  || ((192 <=? n) && (n <=? 214)) || ((216 <=? n) && (n <=? 246))
  || (248 <=? n).

(** Whether the text that follows a candidate match starts with a word
    character. *)
Definition word_ahead (s : string) : bool :=
  match s with
  | EmptyString => false
  | String c _ => is_word c
  end.

(** [re.sub(r'\bm2\b', repl, s)]: an occurrence of ['m2'] is replaced when
    no word character stands before it and none after it.  [prev_word] tells
    whether the character before the current position is a word
    character. *)
Fixpoint sub_word_m2_go (repl : string) (prev_word : bool) (skip : nat) (s : string)
  : string :=
  match s with
  | EmptyString => EmptyString
  | String c rest =>
      match skip with
      | S k => sub_word_m2_go repl (is_word c) k rest
      | O =>
          if negb prev_word && startswith "m2" s && negb (word_ahead (drop 2 s))
          then String.append repl (sub_word_m2_go repl true 1 rest)
          else String c (sub_word_m2_go repl (is_word c) 0 rest)
      end
  end.

Definition sub_word_m2 (repl s : string) : string := sub_word_m2_go repl false 0 s.

(** The five [replace] calls of the loop body, in order. *)
Definition unit_replacements (var : string) : string :=
  let var := str_replace "kg/ha/day" "kg ha$^{-1}$ day$^{-1}$" var in
  let var := str_replace "g/m2" "g m$^{-2}$" var in
  let var := str_replace "kg/ha" "kg ha$^{-1}$" var in
  let var := str_replace "m2" "m$^{-2}$" var in
  let var := str_replace "g/MJ" "g MJ$^{-2}$" var in
  var.

(** The body of the loop. *)
Definition update_variable_name (var : string) : string :=
  let var := unit_replacements var in
  sub_word_m2 "m$^{-2}$" var.

(** The argument: one name, or a list of names. *)
Inductive names_arg : Type :=
| OneName (name : string)
| NameList (names : list string).

Definition update_variable_names (variable_names : names_arg) : list string :=
  let variable_names :=
    match variable_names with
    | OneName name => [name]
    | NameList names => names
    end in
  map update_variable_name variable_names.

(* ================================================================== *)
(** ** src/ts_GROWTH_comparison_panel.py: the treatment label of a subplot *)

Definition is_upper (c : ascii) : bool :=
  let n := nat_of_ascii c in (65 <=? n) && (n <=? 90).

Definition is_decimal (c : ascii) : bool :=
  let n := nat_of_ascii c in (48 <=? n) && (n <=? 57).

(** [re.sub(r"([A-Z]+)(\d+)", r"\1-\2", s)] on the characters of [s]: at a
    position where capital letters are followed by digits, the longest run
    of each is taken and a hyphen is put between them; the search goes on
    after the digits. *)
Fixpoint hyphenate_go (skip : nat) (l : list ascii) : list ascii :=
  match l with
  | [] => []
  | c :: rest =>
      match skip with
      | S k => hyphenate_go k rest
      | O =>
          let letters := takewhile is_upper l in
          let digits := takewhile is_decimal (dropwhile is_upper l) in
          match letters, digits with
          | _ :: _, _ :: _ =>
              letters ++ "-"%char :: digits
              ++ hyphenate_go (List.length letters + List.length digits - 1) rest
          | _, _ => c :: hyphenate_go 0 rest
          end
      end
  end.

Definition treatment_label (treatment : string) : string :=
  of_chars (hyphenate_go 0 (chars treatment)).

(* ================================================================== *)
(** ** src/barplot_parameters.py: the order and the colours of the ecotypes *)

Module Barplot.

(** [MASTER_ECOTYPE_ORDER] of [plot_style/barplot.py]. *)
Definition MASTER_ECOTYPE_ORDER : list string :=
  ["subset_A"; "subset_B"; "subset_C"; "subset_D";
   "CI0001"; "AZWH18"; "DEFAULT"; "OTM"; "LAI"; "BM-LAI"].

(** [l.remove(x)] on a list that holds [x]: its first occurrence goes. *)
Fixpoint list_remove (x : string) (l : list string) : list string :=
  match l with
  | [] => []
  | y :: rest => if String.eqb y x then rest else y :: list_remove x rest
  end.

(** [l.insert(i, x)]: at the end when the list is shorter than [i]. *)
Definition list_insert (i : nat) (x : string) (l : list string) : list string :=
  firstn i l ++ x :: skipn i l.

(** [plot_order] of one subplot; [ecotypes] is [data['ecotype'].unique()]. *)
Definition plot_order (ecotypes : list string) : list string :=
  let plot_order := filter (Grid.isin ecotypes) MASTER_ECOTYPE_ORDER in
  if Grid.isin plot_order "subset_C"
  then list_insert 2 "subset_C" (list_remove "subset_C" plot_order)
  else plot_order.

(** A colour of [sns.color_palette("deep")] is its position in that palette
    of ten distinct colours. *)
Definition COLOR_POOL : list (list nat) := [[0; 1; 2; 3]; [4; 5; 6]; [7; 8; 9]].
Definition FIXED_COLOR : nat := 3.

(** One round of [for eco in unique_ecotypes]; the state is [color_map] and
    [pool_idx]. *)
Definition color_step (idx : nat) (st : dict nat * nat) (eco : string)
  : result (dict nat * nat) :=
  let '(color_map, pool_idx) := st in
  if String.eqb eco "subset_C" && (idx <? 2)
  then Ok (dict_set eco FIXED_COLOR color_map, pool_idx)
  else if String.eqb eco "subset_C" && (idx =? 2)
  then Ok (dict_set eco FIXED_COLOR color_map, pool_idx)
  else
    pool <- index COLOR_POOL idx ;;
    color <- index pool (pool_idx mod List.length pool) ;;
    Ok (dict_set eco color color_map, pool_idx + 1).

(** [color_map] of subplot [idx] for the categories [unique_ecotypes]. *)
Definition color_map (idx : nat) (unique_ecotypes : list string) : result (dict nat) :=
  '(color_map, _) <- for_each (color_step idx) unique_ecotypes ([], 0) ;;
  Ok color_map.

End Barplot.

(* ================================================================== *)
(** ** src/utils.py: read_growth_file *)

(** A bound of a slice of a list of [n] items: a negative one counts from
    the end, and both are cut to [0 .. n]. *)
Definition slice_bound (n : nat) (i : Z) : nat :=
  if (i <? 0)%Z then Z.to_nat (Z.max 0 (i + Z.of_nat n))
  else Nat.min (Z.to_nat i) n.

(** [xs[a:b]]. *)
Definition slice {A : Type} (xs : list A) (a b : Z) : list A :=
  let lo := slice_bound (List.length xs) a in
  let hi := slice_bound (List.length xs) b in
  firstn (hi - lo) (skipn lo xs).

(** The loop that looks for the header: the first line starting with ['@']
    and its index, counted from [i]. *)
Fixpoint find_header (i : nat) (treatment_lines : list string) : option (nat * string) :=
  match treatment_lines with
  | [] => None
  | line :: rest =>
      if startswith "@" line then Some (i, line) else find_header (S i) rest
  end.

(** [pd.DataFrame(data, columns=headers)] on a list of rows of text: the
    rows are filled up with missing cells to the length of the longest one,
    which has to be the number of headers; no row gives the empty frame. *)
Definition data_frame (data : list (list string)) (headers : list string)
  : result (list (list (option string))) :=
  match data with
  | [] => Ok []
  | _ =>
      let width := fold_left Nat.max (map (@List.length string) data) 0 in
      if width =? List.length headers
      then Ok (map (fun row => map Some row ++ repeat None (width - List.length row))
                 data)
      else Raise ValueError
  end.

Section Growth.

(** The numbers of a column and [pd.to_numeric] on one text cell: a number,
    NaN ([Some None]), or [ValueError] ([None]). *)
Variable num : Type.
Variable to_numeric : string -> option (option num).

Record growth_frame : Type := mk_growth_frame {
  gf_columns : list string;
  gf_rows : list (list (option num))
}.

Definition numeric_cell (cell : option string) : result (option num) :=
  match cell with
  | None => Ok None
  | Some text =>
      match to_numeric text with
      | Some x => Ok x
      | None => Raise ValueError
      end
  end.

(** [df.apply(pd.to_numeric)]: whichever cell fails, the exception is
    [ValueError]. *)
Definition numeric_frame (cells : list (list (option string)))
  : result (list (list (option num))) :=
  for_each
    (fun rows row =>
       r <- for_each (fun acc c => x <- numeric_cell c ;; Ok (acc ++ [x])) row [] ;;
       Ok (rows ++ [r]))
    cells [].

(** [treatment_range] holds two line numbers that are not negative, as
    [simulations_lines] gives them. *)
Definition read_growth_file (lines : list string) (treatment_range : nat * nat)
  : result growth_frame :=
  let '(start_line, end_line) := treatment_range in
  let treatment_lines := slice lines (Z.of_nat start_line - 1) (Z.of_nat end_line) in
  match find_header 0 treatment_lines with
  | None => Raise UnboundLocalError
  | Some (i, header_line) =>
      let headers := split_ws (strip header_line) in
      let data := map (fun line => split_ws (strip line)) (skipn (i + 1) treatment_lines) in
      cells <- data_frame data headers ;;
      rows <- numeric_frame cells ;;
      Ok (mk_growth_frame headers rows)
  end.

End Growth.

Arguments mk_growth_frame {num}.
Arguments gf_columns {num}.
Arguments gf_rows {num}.
Arguments numeric_cell {num}.
Arguments numeric_frame {num}.
Arguments read_growth_file {num}.

(* ================================================================== *)
(** ** src/utils.py: extract_treatment_info_plantgrowth *)

(** The two dictionaries and [experiment_info], which is unbound until an
    EXPERIMENT line is met and is not reset between treatments. *)
Record info_state : Type := mk_info {
  in_number : dict string;
  in_experiment : dict string;
  in_experiment_info : option string
}.

(** [line.split(':')[1].split()[0]]. *)
Definition experiment_code (line : string) : result string :=
  seg <- index (split ":" line) 1 ;;
  index (split_ws seg) 0.

(** [line.split()[1].strip()]. *)
Definition treatment_code (line : string) : result string :=
  tok <- index (split_ws line) 1 ;;
  Ok (strip tok).

(** One round of [for i in range(start_line, end_line)]. *)
Definition info_line_step (lines : list string) (st : info_state) (i : nat)
  : result info_state :=
  raw <- index lines i ;;
  let line := strip raw in
  experiment_info <-
    (if startswith "EXPERIMENT" line
     then (e <- experiment_code line ;; Ok (Some e))
     else Ok (in_experiment_info st)) ;;
  if startswith "TREATMENT" line
  then
    code <- treatment_code line ;;
    treatment_info <- treatment_name line ;;
    let treatment_number_name := dict_set treatment_info code (in_number st) in
    experiment <- match experiment_info with
                  | Some e => Ok e
                  | None => Raise UnboundLocalError
                  end ;;
    Ok (mk_info treatment_number_name
          (dict_set treatment_info experiment (in_experiment st)) experiment_info)
  else Ok (mk_info (in_number st) (in_experiment st) experiment_info).

(** One round of [for treatment, (start_line, end_line) in
    treatment_dict.items()]. *)
Definition info_treatment_step (lines : list string) (st : info_state)
  (entry : string * (nat * nat)) : result info_state :=
  let '(_, (start_line, end_line)) := entry in
  for_each (info_line_step lines) (seq start_line (end_line - start_line)) st.

Definition extract_treatment_info_plantgrowth (lines : list string)
  (treatment_dict : dict (nat * nat)) : result (dict string * dict string) :=
  st <- for_each (info_treatment_step lines) treatment_dict (mk_info [] [] None) ;;
  Ok (in_number st, in_experiment st).

(* ================================================================== *)
(** ** src/data_preparation_grid.py: compute_global_metric_limits *)

Module Limits.

Import Grid.

Section Limits.

Variable V : Type.
Variable leb : V -> V -> bool.

(** The values of a column that are not missing. *)
Definition present (cells : list (option V)) : list V :=
  flat_map (fun c => match c with Some x => [x] | None => [] end) cells.

(** The first value of a list that precedes all others under [le]; none for
    the empty list. *)
Definition extremum (le : V -> V -> bool) (xs : list V) : option V :=
  match xs with
  | [] => None
  | x :: rest => Some (fold_left (fun acc y => if le acc y then acc else y) rest x)
  end.

(** [Series.min()] and [Series.max()]: over the values that are not missing;
    NaN when there is none. *)
Definition series_min (cells : list (option V)) : option V :=
  extremum leb (present cells).

Definition series_max (cells : list (option V)) : option V :=
  extremum (fun a b => leb b a) (present cells).

(** [df.loc[df['variable'].isin(...) & df['short_label'].isin(...), metric]]. *)
Definition limit_cells (data : list (metric_row V))
  (selected_variables selected_short_labels : list string) : list (option V) :=
  map m_value
    (filter (fun r => isin selected_variables (m_variable r)
                      && isin selected_short_labels (m_short_label r)) data).

Definition compute_global_metric_limits
  (nrmse_data mpe_data r2_data gain_data : list (metric_row V))
  (selected_variables selected_short_labels : list string) : dict (option V) :=
  let cells data := limit_cells data selected_variables selected_short_labels in
  [("nrmse_min", series_min (cells nrmse_data));
   ("nrmse_max", series_max (cells nrmse_data));
   ("mpe_min", series_min (cells mpe_data));
   ("mpe_max", series_max (cells mpe_data));
   ("r2_min", series_min (cells r2_data));
   ("r2_max", series_max (cells r2_data));
   ("gain_min", series_min (cells gain_data));
   ("gain_max", series_max (cells gain_data))].

(** [lo] and [hi] bound the cells that are not missing and are among them;
    both are missing when every cell is. *)
Definition bounded_by (cells : list (option V)) (lo hi : option V) : Prop :=
  (present cells = [] /\ lo = None /\ hi = None)
  \/ (exists a b,
        lo = Some a /\ hi = Some b /\ In (Some a) cells /\ In (Some b) cells
        /\ forall v, In (Some v) cells -> leb a v = true /\ leb v b = true).

End Limits.

Arguments present {V}.
Arguments bounded_by {V}.
Arguments extremum {V}.
Arguments series_min {V}.
Arguments series_max {V}.
Arguments limit_cells {V}.
Arguments compute_global_metric_limits {V}.

End Limits.

(* ================================================================== *)
(** ** src/ts_get_data.py and src/utils.py: the sampling order *)

Module Sampling.

Import TimeSeries.

(** The genotype of a measurement row: missing when no simulated run
    matched it. *)
Definition genotype_of (r : merged_row) : option string :=
  option_map mp_genotype (mr_run r).

Definition same_genotype (g : string) (r : merged_row) : bool :=
  match genotype_of r with
  | Some g' => String.eqb g' g
  | None => false
  end.

(** The DAP values of the group of genotype [g] that are not missing. *)
Definition group_values (rows : list merged_row) (g : string) : list Z :=
  flat_map (fun r => match mr_DAP r with Some d => [d] | None => [] end)
    (filter (same_genotype g) rows).

(** The distinct values of a group that are smaller than [x]. *)
Definition smaller (group : list Z) (x : Z) : list Z :=
  nodup Z.eq_dec (filter (fun y => (y <? x)%Z) group).

(** [rank(method='dense', ascending=True)] of the value [x] in its group:
    one more than the number of distinct smaller values. *)
Definition dense_rank (group : list Z) (x : Z) : Z :=
  (1 + Z.of_nat (List.length (smaller group x)))%Z.

(** [groupby('genotype')['DAP'].rank(method='dense')] on one row: NaN for a
    row without a genotype or without a DAP. *)
Definition rank_of (rows : list merged_row) (r : merged_row) : option Z :=
  match genotype_of r, mr_DAP r with
  | Some g, Some d => Some (dense_rank (group_values rows g) d)
  | _, _ => None
  end.

(** [.astype(int)]: a NaN cannot be converted. *)
Definition sampling_id (rows : list merged_row) : result (list (merged_row * Z)) :=
  for_each
    (fun acc r =>
       match rank_of rows r with
       | Some k => Ok (acc ++ [(r, k)])
       | None => Raise ValueError
       end)
    rows [].

End Sampling.


(* ================================================================== *)
(** ** src/ts_GROWTH_comparison_panel.py: the colour and the line style of a
       calibration *)

Module Legend.

(** [COLOR_PALETTE] of [plot_style/ts_panel.py]. *)
Definition COLOR_PALETTE : list string :=
  ["#1f77b4"; "#d62728"; "#2ca02c"; "#ff7f0e"; "#9467bd"; "#17becf"; "#8c564b";
   "#e377c2"; "#7f7f7f"; "#bcbd22"; "#393b79"; "#ad494a"; "#637939"; "#8c6d31"].

(** [LINESTYLES] holds fourteen distinct styles; a style is its position in
    that list. *)
Definition LINESTYLES : list nat := seq 0 14.

(** One round of [for j, calib_code in enumerate(calib_codes)]. *)
Definition legend_step (calib_legend_info : dict (string * nat)) (jc : nat * string)
  : dict (string * nat) :=
  let '(j, calib_code) := jc in
  let line_color := nth (j mod List.length COLOR_PALETTE) COLOR_PALETTE EmptyString in
  let linestyle := nth (j mod List.length LINESTYLES) LINESTYLES 0 in
  dict_set calib_code (line_color, linestyle) calib_legend_info.

(** [calib_legend_info]; [calib_codes] is
    [list(df['short_label'].unique())]. *)
Definition calib_legend_info (calib_codes : list string) : dict (string * nat) :=
  fold_left legend_step (enumerate calib_codes) [].

End Legend.

(* ================================================================== *)
(** ** src/utils.py and src/ts_get_data.py: the DATE column of the PlantGro
       frame *)

Module PlantGroDate.

Definition digit_char (d : Z) : ascii := ascii_of_nat (48 + Z.to_nat d).

(** The decimal digits of a number that is not negative; [fuel] bounds the
    number of digits. *)
Fixpoint decimal_go (fuel : nat) (z : Z) (acc : list ascii) : list ascii :=
  match fuel with
  | O => acc
  | S f =>
      let acc := digit_char (z mod 10) :: acc in
      if (z <? 10)%Z then acc else decimal_go f (z / 10) acc
  end.

(** [str(z)] for an [int], as [astype(str)] writes a cell of an integer
    column. *)
Definition str_int (z : Z) : list ascii :=
  if (z <? 0)%Z
  then "-"%char :: decimal_go (S (Z.to_nat (Z.log2 (- z)))) (- z) []
  else decimal_go (S (Z.to_nat (Z.log2 z))) z [].

(** [s.zfill(width)]: zeros go after a leading sign. *)
Definition zfill (width : nat) (l : list ascii) : list ascii :=
  let pad := repeat "0"%char (width - List.length l) in
  match l with
  | c :: rest =>
      if Ascii.eqb c "-"%char || Ascii.eqb c "+"%char
      then c :: pad ++ rest
      else pad ++ l
  | [] => pad
  end.

(** [plantgro_df['@YEAR'].astype(str) + plantgro_df['DOY'].astype(str).str.zfill(3)]
    on one row of integer cells. *)
Definition DATE (year doy : Z) : string :=
  of_chars (str_int year ++ zfill 3 (str_int doy)).

End PlantGroDate.

(* ================================================================== *)
(** ** posixpath: split *)

Definition is_slash (c : ascii) : bool := Ascii.eqb c "/"%char.

Definition not_slash (c : ascii) : bool := negb (is_slash c).

(** [head.rstrip('/')] unless [head] is made of slashes only, the last step
    of [posixpath.split]. *)
Definition trim_slashes (head : list ascii) : list ascii :=
  if forallb is_slash head then head else rev (dropwhile is_slash (rev head)).

(** [os.path.split(p)] of [posixpath]: the tail is what follows the last
    slash, the head what precedes it. *)
Definition path_split (p : string) : string * string :=
  let l := rev (chars p) in
  let tail := rev (takewhile not_slash l) in
  let head := rev (dropwhile not_slash l) in
  (of_chars (trim_slashes head), of_chars tail).

(** [os.path.dirname(p)]. *)
Definition dirname (p : string) : string := fst (path_split p).

(* ================================================================== *)
(** ** src/heatmap_plot.py and src/barplot_parameters.py: what is written *)

Module Plots.

(** What a call does outside the process: it reads a file, opens one for
    writing, or prints a line. *)
Inductive effect : Type :=
| ReadFile (path : string)
| WriteFile (path : string)
| Stdout (text : string).

Definition written (trace : list effect) : list string :=
  flat_map (fun e => match e with WriteFile p => [p] | _ => [] end) trace.

(** [FILE_FORMAT] of [plot_style/heatmap.py] and of [plot_style/barplot.py]. *)
Definition HEATMAP_FILE_FORMAT : string := "png".
Definition BARPLOT_FILE_FORMAT : string := "png".

Section Calls.

(** The world of a call.  [isdir] tells which directories exist.  The data
    frames and the figure are not modelled: [outcome k] tells how the [k]-th
    call into pandas, seaborn, matplotlib or the operating system ends, with
    an exception or ([None]) without. *)
Variable isdir : string -> bool.
Variable outcome : nat -> option exn.

(** A statement: from the number of library calls made so far to the trace
    of what it did outside the process, the new number of calls and its
    result. *)
Definition M (A : Type) : Type := nat -> list effect * nat * result A.

Definition ret {A : Type} (a : A) : M A := fun k => ([], k, Ok a).

Definition raise {A : Type} (e : exn) : M A := fun k => ([], k, Raise e).

(** Code of the function itself, which touches nothing outside. *)
Definition lift {A : Type} (r : result A) : M A := fun k => ([], k, r).

Definition then_ {A B : Type} (m : M A) (f : A -> M B) : M B :=
  fun k =>
    match m k with
    | (t, k', Ok a) => let '(t', k'', r) := f a k' in (t ++ t', k'', r)
    | (t, k', Raise e) => (t, k', Raise e)
    end.

Definition call (k : nat) : result unit :=
  match outcome k with
  | Some e => Raise e
  | None => Ok tt
  end.

(** A call that works in memory on the data frames or on the figure; [name]
    says which call of the source it is. *)
Definition lib (name : string) : M unit := fun k => ([], S k, call k).

(** [pd.read_csv(path)]. *)
Definition read_csv (path : string) : M unit := fun k => ([ReadFile path], S k, call k).

(** [print(text)]. *)
Definition print_line (text : string) : M unit := fun k => ([Stdout text], S k, call k).

(** [open(path, 'wb')] creates no directory: the directory of [path] has to
    exist; a path without a directory is in the working directory. *)
Definition can_open (path : string) : bool :=
  String.eqb (dirname path) EmptyString || isdir (dirname path).

(** [plt.savefig(path, ...)] for a PNG file: the figure is rendered in
    memory, then [path] is opened for writing and the image is written.
    [WriteFile path] says that [path] was opened for writing, also when the
    writing then fails. *)
Definition savefig (path : string) : M unit :=
  fun k =>
    match outcome k with
    | Some e => ([], S k, Raise e)
    | None =>
        if can_open path then ([WriteFile path], S (S k), call (S k))
        else ([], S k, Raise FileNotFoundError)
    end.

(** A [for] loop over statements. *)
Fixpoint for_ {A : Type} (xs : list A) (body : A -> M unit) : M unit :=
  match xs with
  | [] => ret tt
  | x :: rest => then_ (body x) (fun _ => for_ rest body)
  end.

Local Notation "a >> b" := (then_ a (fun _ => b)) (at level 62, right associativity).

(** The statements of [create_heatmap_plot], in the order of the source. *)
Definition create_heatmap_plot (output_dir figure_name treatment : string) : M unit :=
  (* 1 *)
  lib "plt.subplots" >>
  (* 3 *)
  lib "hm1 = sns.heatmap(nrmse_filtered_ordered, ax=ax1)" >>
  lib "cbar1 = hm1.collections[0].colorbar" >>
  lib "cbar1.ax.set_title" >>
  lib "cbar1.ax.tick_params" >>
  lib "ax1.set_yticklabels(ax1.get_yticklabels())" >>
  lib "ax1.set_xticklabels(ax1.get_xticklabels())" >>
  lib "ax1.set_xlabel" >>
  lib "ax1.set_ylabel" >>
  lib "ax1.set_title" >>
  (* 4 *)
  lib "hm2 = sns.heatmap(mpe_filtered_ordered, ax=ax2)" >>
  lib "cbar2 = ax2.collections[0].colorbar" >>
  lib "cbar2.ax.set_title" >>
  lib "cbar2.ax.tick_params" >>
  lib "ax2.set_xticklabels(ax2.get_xticklabels())" >>
  lib "ax2.set_xlabel" >>
  lib "ax2.set_title" >>
  lib "ax2.set_ylabel" >>
  (* 5 *)
  lib "hm3 = sns.heatmap(r2_filtered_ordered, ax=ax3)" >>
  lib "cbar3 = ax3.collections[0].colorbar" >>
  lib "cbar3.ax.set_title" >>
  lib "cbar3.ax.tick_params" >>
  lib "ax3.set_xticklabels(ax3.get_xticklabels())" >>
  lib "ax3.set_xlabel" >>
  lib "ax3.set_title" >>
  lib "ax3.set_ylabel" >>
  (* 6 *)
  lib "hm4 = sns.heatmap(gain_filtered_ordered, ax=ax4)" >>
  lib "cbar4 = ax4.collections[0].colorbar" >>
  lib "cbar4.ax.set_title" >>
  lib "cbar4.ax.tick_params" >>
  lib "ax4.set_xticklabels(ax4.get_xticklabels())" >>
  lib "ax4.set_xlabel" >>
  lib "ax4.set_title" >>
  lib "ax4.set_ylabel" >>
  (* 7; update_variable_names works on strings only *)
  lib "current_vars = [tick.get_text() for tick in ax1.get_yticklabels()]" >>
  for_ ["ax1"; "ax2"; "ax3"; "ax4"] (fun ax => lib "ax.set_yticklabels") >>
  (* 8 *)
  lib "plt.subplots_adjust" >>
  lib "fig.supxlabel" >>
  (* 9 *)
  let output_filename :=
    String.append figure_name
      (String.append "_heatmap_"
         (String.append treatment (String.append "." HEATMAP_FILE_FORMAT))) in
  savefig (path_join output_dir [output_filename]) >>
  lib "plt.close" >>
  print_line (String.append "Heatmap saved to: " (path_join output_dir [output_filename])).

Section Barplot.

(** [data['ecotype'].unique()] for the rows of a step. *)
Variable ecotypes : string -> list string.

Variable PARAMS STEP_ORDER LEGEND_TITLES : list string.
Variable Y_LIMITS : list (Z * Z).

(** One round of [for j, eco in enumerate(plot_order)]. *)
Definition bar_step (color_map : dict nat) (eco : string) : M unit :=
  lib "vals = summary[summary['ecotype'] == eco]" >>
  for_ PARAMS (fun p => lib "means") >>
  for_ PARAMS (fun p => lib "errors") >>
  lib "bar_pos" >>
  then_ (lift (TimeSeries.dict_index color_map eco)) (fun color =>
  lib "ax.bar").

(** One round of [for idx, (ax, step) in enumerate(zip(axes, STEP_ORDER))]. *)
Definition subplot_step (subplot_labels : list string) (item : nat * string) : M unit :=
  let '(idx, step) := item in
  lib "data = df_long[df_long['step'] == step].copy()" >>
  lib "data['ecotype'].unique()" >>
  let plot_order := Barplot.plot_order (ecotypes step) in
  lib "data['ecotype'] = pd.Categorical(data['ecotype'], categories=plot_order)" >>
  lib "summary = data.groupby(['Parameter', 'ecotype'])['Percent Change'].agg(['mean', 'sem']).reset_index()" >>
  lib "summary['step'] = step" >>
  lib "cb_palette = sns.color_palette" >>
  lib "unique_ecotypes = list(data['ecotype'].cat.categories)" >>
  let unique_ecotypes := plot_order in
  then_ (lift (Barplot.color_map idx unique_ecotypes)) (fun color_map =>
  let n_ecos := List.length plot_order in
  (* bar_width = (total_bar_width - (n_ecos - 1) * bar_gap) / n_ecos *)
  (if n_ecos =? 0 then raise ZeroDivisionError else ret tt) >>
  lib "x_base = np.arange(n_params)" >>
  for_ plot_order (bar_step color_map) >>
  lib "ax.axhline" >>
  (if idx <? List.length Y_LIMITS then lib "ax.set_ylim" else ret tt) >>
  lib "ax.set_xlabel" >>
  lib "ax.set_ylabel" >>
  lib "ax.set_xticks" >>
  lib "ax.set_xticklabels" >>
  then_ (lift (index subplot_labels idx)) (fun label =>
  lib "ax.set_title" >>
  lib "ax.tick_params" >>
  lib "ax.get_legend_handles_labels" >>
  lib "leg = ax.legend" >>
  then_ (lift (index LEGEND_TITLES idx)) (fun title =>
  lib "leg.set_title"))).

(** The statements of [create_parameter_barplot], in the order of the
    source.  [plt.subplots(nrows=n_steps, ncols=1)] raises ValueError for no
    row, and for one row it gives a single [Axes], which [zip] cannot
    iterate (TypeError). *)
Definition create_parameter_barplot (BASE_DATA BASE_OUTPUT DATAFILE_NAME : string)
  : M unit :=
  read_csv (path_join BASE_DATA [DATAFILE_NAME]) >>
  lib "initial_row" >>
  lib "initial_vals = initial_row[PARAMS].iloc[0].astype(float)" >>
  lib "df_calc" >>
  for_ PARAMS (fun p => lib "df_calc[f'{p}_pctchange']") >>
  lib "subsetC_rows" >>
  for_ ["Ecotype assessment"; "Calibrarion time-series "]
    (fun target_step =>
       lib "sc_copied = subsetC_rows.copy()" >>
       lib "sc_copied['step'] = target_step" >>
       lib "df_calc = pd.concat") >>
  lib "df_long = df_calc.melt" >>
  lib "df_long['Parameter'] = df_long['Parameter'].str.replace" >>
  lib "scaling_rows" >>
  lib "df_long.loc[scaling_rows, 'Percent Change']" >>
  let n_steps := List.length STEP_ORDER in
  (if n_steps =? 0 then raise ValueError else lib "fig, axes = plt.subplots") >>
  let subplot_labels := firstn n_steps ["(a)"; "(b)"; "(c)"; "(d)"; "(e)"] in
  (if n_steps =? 1 then raise TypeError else ret tt) >>
  for_ (enumerate STEP_ORDER) (subplot_step subplot_labels) >>
  lib "fig.text" >>
  lib "fig.text" >>
  lib "fig.subplots_adjust" >>
  lib "plt.tight_layout" >>
  let output_path :=
    path_join BASE_OUTPUT
      [String.append "Figure-3_parameters_barplot." BARPLOT_FILE_FORMAT] in
  lib "fig.patch.set_facecolor" >>
  savefig output_path >>
  lib "plt.close" >>
  print_line (String.append "Parameter barplot saved to: " output_path).

End Barplot.

End Calls.

End Plots.

(* ================================================================== *)
(** ** Vocabulary of the statements about OVERVIEW.OUT *)

Definition is_experiment_line (line : string) : bool :=
  startswith "EXPERIMENT" line.

Definition is_crop_line (line : string) : bool :=
  startswith "CROP" line && contains "CULTIVAR :" line.

Definition is_header_line (line : string) : bool := startswith "@" line.

(** Line [j] of the file, once stripped, satisfies [p]. *)
Definition line_is (p : string -> bool) (lines : list string) (j : nat) : Prop :=
  exists raw, nth_error lines j = Some raw /\ p (strip raw) = true.

(** No line with an index in [a, b) satisfies [p]. *)
Definition none_in (p : string -> bool) (lines : list string) (a b : nat) : Prop :=
  forall k raw, a <= k < b -> nth_error lines k = Some raw -> p (strip raw) = false.

(** [j] is the last index in [a, b) whose line satisfies [p]. *)
Definition last_in (p : string -> bool) (lines : list string) (a b j : nat) : Prop :=
  a <= j < b /\ line_is p lines j /\ none_in p lines (S j) b.

(** The experiment description a row gets under the header at index [i] of
    the block that starts at [s]: parsed from the last EXPERIMENT line of the
    block above the header, missing when there is none. *)
Definition experiment_above (lines : list string) (s i : nat) (e : option string)
  : Prop :=
  (e = None /\ none_in is_experiment_line lines s i)
  \/ (exists j raw x,
        last_in is_experiment_line lines s i j /\ nth_error lines j = Some raw
        /\ experiment_of (strip raw) = Ok x /\ e = Some x).

(** The cultivar [c] is the one of the last CROP line of the block above the
    header, if the block has one there. *)
Definition cultivar_above (lines : list string) (s i : nat) (c : string) : Prop :=
  forall j raw,
    last_in is_crop_line lines s i j -> nth_error lines j = Some raw ->
    cultivar_of (strip raw) = Ok (Some c).

(** The raw row [r] was read under a header of the block [s, e) of
    treatment [t]. *)
Definition made_in_block (lines : list string) (t : string) (s e : nat)
  (r : raw_record) : Prop :=
  exists i n data_line c x,
    s <= i < e /\ line_is is_header_line lines i
    /\ In data_line (skipn (i + 1) lines)
    /\ data_row t (Some c) x n data_line = Ok r
    /\ experiment_above lines s i x /\ cultivar_above lines s i c.

(** What holds of the state of [extract_simulation_data] before line [i] of
    the block of treatment [t] that starts at [s]; [good] holds of the rows
    of the blocks done before. *)
Definition block_inv (lines : list string) (good : raw_record -> Prop)
  (t : string) (s i : nat) (st : scan_state) : Prop :=
  experiment_above lines s i (st_experiment_info st)
  /\ (forall j raw,
        last_in is_crop_line lines s i j -> nth_error lines j = Some raw ->
        exists c, st_cultivar st = Some c /\ cultivar_of (strip raw) = Ok (Some c))
  /\ (forall r, In r (st_cultivar_data st) -> made_in_block lines t s i r)
  /\ (forall r, In r (st_all_data st) -> good r \/ made_in_block lines t s i r).

(* ================================================================== *)
(** ** Vocabulary of the statement about the measurement rows *)

(** [m] is the metadata of a simulated run: its sim id and experiment id are
    an item of [treatment_experiment_name], its treatment number is the
    integer of the code [treatment_number_name] holds for the sim id, and its
    treatment and genotype are the two parts of the sim id. *)
Definition run_of (treatment_number_name treatment_experiment_name : dict string)
  (m : TimeSeries.mapping_row) : Prop :=
  exists code,
    In (TimeSeries.mp_sim_id m, TimeSeries.mp_experiment_id m) treatment_experiment_name
    /\ dict_get (TimeSeries.mp_sim_id m) treatment_number_name = Some code
    /\ TimeSeries.py_int code = Ok (TimeSeries.mp_treatment_number m)
    /\ TimeSeries.split_sim_id (TimeSeries.mp_sim_id m)
       = Ok (TimeSeries.mp_treatment m, TimeSeries.mp_genotype m).

(** The merged row [r] is the measurement row [w] joined to the run [m]. *)
Definition measurement_of (w : TimeSeries.wht_row) (m : TimeSeries.mapping_row)
  (r : TimeSeries.merged_row) : Prop :=
  TimeSeries.mr_run r = Some m
  /\ TimeSeries.py_int (TimeSeries.w_TRNO w) = Ok (TimeSeries.mr_TRNO r)
  /\ TimeSeries.mr_DATE r = TimeSeries.w_DATE w
  /\ TimeSeries.mr_experiment_id r = TimeSeries.w_experiment_id w
  /\ TimeSeries.mr_cells r = TimeSeries.w_cells w.

(** [r'] is [r] with its DAP filled in: a DAP that is present is kept, a
    missing one becomes the number of days from [reference] to the date of
    the row (and stays missing when there is no reference date). *)
Definition dap_filled (reference : option Z) (r r' : TimeSeries.merged_row) : Prop :=
  TimeSeries.mr_TRNO r' = TimeSeries.mr_TRNO r
  /\ TimeSeries.mr_DATE r' = TimeSeries.mr_DATE r
  /\ TimeSeries.mr_experiment_id r' = TimeSeries.mr_experiment_id r
  /\ TimeSeries.mr_cells r' = TimeSeries.mr_cells r
  /\ TimeSeries.mr_run r' = TimeSeries.mr_run r
  /\ TimeSeries.mr_DAS r' = TimeSeries.mr_DAS r
  /\ match TimeSeries.mr_DAP r with
     | Some d => TimeSeries.mr_DAP r' = Some d
     | None =>
         exists day,
           TimeSeries.to_datetime (TimeSeries.mr_DATE r) = Ok day
           /\ TimeSeries.mr_DAP r'
              = match reference with
                | Some ref => Some (day - ref)%Z
                | None => None
                end
     end.

(** [reference] is the earliest of the [dates]. *)
Definition is_earliest (dates : list Z) (reference : option Z) : Prop :=
  match reference with
  | Some ref => In ref dates /\ forall d, In d dates -> (ref <= d)%Z
  | None => dates = []
  end.

(* ================================================================== *)
(** ** Vocabulary of the statement about the treatment blocks *)

(** Line [i] contains ['*DSSAT']. *)
Definition dssat_at (lines : list string) (i : nat) : Prop :=
  exists raw, nth_error lines i = Some raw /\ contains "*DSSAT" raw = true.

(** Line [j], once stripped, starts with ['TREATMENT']. *)
Definition treatment_at (lines : list string) (j : nat) : Prop :=
  exists raw,
    nth_error lines j = Some raw /\ startswith "TREATMENT" (strip raw) = true.

(** [(s, e)] is the range of a block: line [s] contains ['*DSSAT'], and [e]
    is the index of the line before the next line that does, or the number
    of lines of the file when no later line does. *)
Definition block_range (lines : list string) (s e : nat) : Prop :=
  dssat_at lines s
  /\ ((s <= e /\ dssat_at lines (S e) /\ forall k, s < k <= e -> ~ dssat_at lines k)
      \/ (e = List.length lines /\ forall k, s < k -> ~ dssat_at lines k)).

(** Line [j] is the first TREATMENT line with an index in [s .. e]. *)
Definition first_treatment (lines : list string) (s e j : nat) : Prop :=
  s <= j <= e /\ treatment_at lines j
  /\ forall k, s <= k < j -> ~ treatment_at lines k.

(** [name] is the treatment name of the block [(s, e)]: the name on its
    first TREATMENT line. *)
Definition block_name (lines : list string) (s e : nat) (name : string) : Prop :=
  exists j raw,
    first_treatment lines s e j /\ nth_error lines j = Some raw
    /\ treatment_name (strip raw) = Ok name.

(** The first TREATMENT line of every block has a name: a colon, and text
    that is not blank between it and the next colon. *)
Definition treatments_named (lines : list string) : Prop :=
  forall s e j raw,
    block_range lines s e -> first_treatment lines s e j ->
    nth_error lines j = Some raw ->
    exists name, treatment_name (strip raw) = Ok name.

(** The indices of the ['*DSSAT'] lines and the TREATMENT lines, as the
    first loop of [simulations_lines] collects them. *)
Definition dssat_indices (lines : list string) : list nat :=
  map fst (filter (fun il => contains "*DSSAT" (snd il)) (enumerate lines)).

Definition treatment_lines (lines : list string) : list (nat * string) :=
  map (fun il => (fst il, strip (snd il)))
    (filter (fun il => startswith "TREATMENT" (strip (snd il))) (enumerate lines)).

(** The ranges of the blocks, from the indices of the ['*DSSAT'] lines. *)
Fixpoint ranges (n_lines : nat) (dssat_lines : list nat) : list (nat * nat) :=
  match dssat_lines with
  | [] => []
  | s :: rest =>
      (s, match rest with
          | [] => n_lines
          | next :: _ => next - 1
          end) :: ranges n_lines rest
  end.

(** One round of the second loop of [simulations_lines], on a range. *)
Definition range_step (run_lines : list (nat * string))
  (result_dict : dict (nat * nat)) (range : nat * nat) : result (dict (nat * nat)) :=
  run_info <- find_run (fst range) (snd range) run_lines ;;
  match run_info with
  | Some name =>
      if nonempty run_info then Ok (dict_set name range result_dict)
      else Ok result_dict
  | None => Ok result_dict
  end.

(** The order of two indexed items by their index. *)
Definition before {A : Type} (a b : nat * A) : Prop := fst a < fst b.

(* ================================================================== *)
(** ** Example inputs *)

Import Grid TimeSeries.

(** A measurement file with a comment, a header and two rows. *)
Definition wht_example : list string :=
  readlines (text_of ["*EXP.DATA (T): EXP1"; "! measured"; "@TRNO DATE  CWAD";
                      "  1 2022105  300"; ""; "  2 2022106  400"]).

Definition wht_example_fs : file_system :=
  mk_fs (fun _ => true)
    (fun p => if String.eqb p "EXP1.WHT" then Some wht_example else None)
    (fun _ => None).

(** Two treatment blocks; the second one has two colons on its EXPERIMENT
    line and no CROP line. *)
Definition overview_example : list string :=
  readlines
    (text_of
       ["*DSSAT Cropping System Model";
        " EXPERIMENT     : EXP1 WH";
        " TREATMENT  1   : WW23_G1   WHCER048";
        " CROP           : WHEAT     CULTIVAR : Yecora Rojo    ECOTYPE :CI0001";
        "@     VARIABLE        SIMULATED     MEASURED";
        "      --------        ---------     --------";
        "      Anthesis (dap)         77           78";
        "      Yield (kg/ha)        5000          -99";
        "";
        "*DSSAT Cropping System Model";
        " EXPERIMENT     : EXP2 WH: drought";
        " TREATMENT  2   : DR22_G2   WHCER048";
        "@     VARIABLE        SIMULATED     MEASURED";
        "      Anthesis (dap)         70           71";
        ""]).

Definition overview_example_rows : list (record Z) :=
  [mk_record "WW23_G1" "Yecora Rojo" "Anthesis (dap)" (Some 77%Z) (Some 78%Z)
     (Some "EXP1 WH") 2;
   mk_record "WW23_G1" "Yecora Rojo" "Yield (kg/ha)" (Some 5000%Z) None
     (Some "EXP1 WH") 3;
   mk_record "DR22_G2" "Yecora Rojo" "Anthesis (dap)" (Some 70%Z) (Some 71%Z)
     (Some "EXP2 WH") 1].

(** Two calibration subfolders over one OVERVIEW.OUT; the second
    [config.yaml] does not parse. *)
Definition two_folders : file_system :=
  mk_fs
    (fun p => String.eqb p "data/a/OVERVIEW.OUT" || String.eqb p "data/b/OVERVIEW.OUT")
    (fun p =>
       if String.eqb p "data/a/OVERVIEW.OUT" || String.eqb p "data/b/OVERVIEW.OUT"
       then Some overview_example else None)
    (fun p =>
       if String.eqb p "data/a/config.yaml"
       then Some (YamlParsed
                    (YDocMap [("calibration_method", YSeq ["GLUE"]);
                              ("short_label", YSeq ["subset A"]);
                              ("long_label", YSeq ["Cultivar subset A"])]))
       else if String.eqb p "data/b/config.yaml" then Some YamlError
       else None).

(** Three variables under two calibration labels, for two treatments. *)
Definition grid_example : list (metric_row Z) :=
  [mk_metric_row "Yield" "GLUE" "B" "long B" "WW-23" (Some 30%Z);
   mk_metric_row "Yield" "GLUE" "A" "long A" "WW-23" (Some 10%Z);
   mk_metric_row "Anthesis" "GLUE" "A" "long A" "WW-23" (Some 50%Z);
   mk_metric_row "Anthesis" "GLUE" "B" "long B" "WW-23" (Some 2%Z);
   mk_metric_row "LAI" "GLUE" "A" "long A" "WW-23" (Some 1%Z);
   mk_metric_row "LAI" "GLUE" "A" "long A" "DR-22" (Some 1%Z)].

(** The mean of integers, rounded down: a stand-in for the mean of floats. *)
Definition mean_int (l : list Z) : Z :=
  (fold_left Z.add l 0 / Z.of_nat (List.length l))%Z.

(** Two genotypes of one treatment; one measurement falls on a simulated
    date, two do not, and one belongs to no simulated run. *)
Definition ts_plantgro : list plantgro_row :=
  [mk_plantgro_row "2022100" (Some 0%Z) (Some 0%Z) "WW23" "G1" "WW23_G1" "1" "EXP1";
   mk_plantgro_row "2022110" (Some 10%Z) (Some 10%Z) "WW23" "G1" "WW23_G1" "1" "EXP1";
   mk_plantgro_row "2022098" (Some 0%Z) (Some 0%Z) "WW23" "G2" "WW23_G2" "2" "EXP1"].

Definition ts_wht : list wht_row :=
  [mk_wht_row "1" "2022110" "EXP1" [("CWAD", "300")];
   mk_wht_row "1" "2022120" "EXP1" [("CWAD", "500")];
   mk_wht_row "3" "2022120" "EXP1" [];
   mk_wht_row "2" "2023001" "EXP1" []].

Definition ts_out : list merged_row :=
  let g1 := mk_mapping_row "EXP1" 1 "WW23_G1" "WW23" "G1" in
  let g2 := mk_mapping_row "EXP1" 2 "WW23_G2" "WW23" "G2" in
  [mk_merged_row 1 "2022110" "EXP1" [("CWAD", "300")] (Some g1) (Some 10%Z) (Some 10%Z);
   mk_merged_row 1 "2022120" "EXP1" [("CWAD", "500")] (Some g1) None (Some 22%Z);
   mk_merged_row 2 "2023001" "EXP1" [] (Some g2) None (Some 268%Z)].

(* ================================================================== *)
(** ** Vocabulary of the statements about names and labels *)

(** Two strings differ at a position that both have. *)
Fixpoint clash (a b : string) : bool :=
  match a, b with
  | String x a', String y b' => negb (Ascii.eqb x y) || clash a' b'
  | _, _ => false
  end.

(** The non-empty suffixes of a string. *)
Fixpoint tails (s : string) : list string :=
  match s with
  | EmptyString => []
  | String _ rest => s :: tails rest
  end.

(** A capital letter stands directly before a digit somewhere in the text. *)
Fixpoint upper_before_digit (l : list ascii) : bool :=
  match l with
  | [] => false
  | a :: rest =>
      match rest with
      | [] => false
      | b :: _ => (is_upper a && is_decimal b) || upper_before_digit rest
      end
  end.

(* ================================================================== *)
(** ** Vocabulary of the statements about PlantGro.OUT *)

(** [lines[start_line - 1:end_line]]. *)
Definition treatment_slice (lines : list string) (treatment_range : nat * nat)
  : list string :=
  slice lines (Z.of_nat (fst treatment_range) - 1) (Z.of_nat (snd treatment_range)).

(** The cell of a row of the frame under column [j], for the line the row
    was read from: the number of token [j], missing when the line has fewer
    tokens. *)
Definition cell_of_line {num : Type} (to_numeric : string -> option (option num))
  (line : string) (j : nat) (x : option num) : Prop :=
  match nth_error (split_ws (strip line)) j with
  | Some tok => to_numeric tok = Some x
  | None => x = None
  end.

(** Line [i] lies in one of the ranges of the dictionary. *)
Definition in_ranges (treatment_dict : dict (nat * nat)) (i : nat) : Prop :=
  exists name s e, In (name, (s, e)) treatment_dict /\ s <= i < e.

(** [name -> code] is read from a TREATMENT line of the ranges. *)
Definition number_read (lines : list string) (treatment_dict : dict (nat * nat))
  (name code : string) : Prop :=
  exists i raw,
    in_ranges treatment_dict i /\ nth_error lines i = Some raw
    /\ startswith "TREATMENT" (strip raw) = true
    /\ treatment_name (strip raw) = Ok name
    /\ treatment_code (strip raw) = Ok code.

(** [experiment] is read from an EXPERIMENT line of the ranges. *)
Definition experiment_read (lines : list string) (treatment_dict : dict (nat * nat))
  (experiment : string) : Prop :=
  exists i raw,
    in_ranges treatment_dict i /\ nth_error lines i = Some raw
    /\ startswith "EXPERIMENT" (strip raw) = true
    /\ experiment_code (strip raw) = Ok experiment.

(* ================================================================== *)
(** ** Vocabulary of the statement about the cells of the metric tables *)

(** The cell of a pivoted table at row [i] and column [j]. *)
Definition cell_at {V : Type} (p : pivot V) (i j : nat) : option V :=
  nth j (nth i (pv_cells p) []) None.

(** The rows of a metric table that a call selects for the MPE, R2 and gain
    tables. *)
Definition selected_rows {V : Type} (data : list (metric_row V)) (treatment : string)
  (selected_variables selected_short_labels : list string) : list (metric_row V) :=
  filter (fun r => String.eqb (m_treatment r) treatment
                   && isin selected_variables (m_variable r)
                   && isin selected_short_labels (m_short_label r)) data.

(** The table [p] holds the values of [rows], each passed through [f], under
    their variable and calibration label: the cell of a row label and a
    column label is the value of the row of [rows] with that variable and
    that label, and is missing when there is no such row. *)
Definition holds_values {V : Type} (f : option V -> option V)
  (rows : list (metric_row V)) (p : pivot V) : Prop :=
  forall i j v l,
    nth_error (pv_index p) i = Some v -> nth_error (pv_columns p) j = Some l ->
    (forall r, In r rows -> m_variable r = v -> m_short_label r = l ->
               cell_at p i j = f (m_value r))
    /\ ((forall r, In r rows -> ~ (m_variable r = v /\ m_short_label r = l)) ->
        cell_at p i j = None).

(* ================================================================== *)
(** ** More example inputs *)

(** Two runs of a PlantGro.OUT file; the last row of the second one is cut
    short. *)
Definition growth_example : list string :=
  readlines
    (text_of
       ["*GROWTH ASPECTS OUTPUT FILE";
        "";
        "*DSSAT Cropping System Model";
        "*RUN   1        : WW23_G1 WHCER048";
        " EXPERIMENT     : EXP1 WH field trial";
        " TREATMENT  1     : WW23_G1          WHCER048";
        "";
        "@YEAR DOY   DAS   DAP  LAID";
        " 2022 100     0     0     1";
        " 2022 101     1     1     2";
        "";
        "*DSSAT Cropping System Model";
        "*RUN   2        : WW23_G2 WHCER048";
        " EXPERIMENT     : EXP1 WH field trial";
        " TREATMENT  2     : WW23_G2          WHCER048";
        "";
        "@YEAR DOY   DAS   DAP  LAID";
        " 2022 100     0     0     3";
        " 2022 101     1"]).

(** The ranges [simulations_lines] gives for it. *)
Definition growth_example_ranges : dict (nat * nat) :=
  [("WW23_G1", (2, 10)); ("WW23_G2", (11, 19))].

(** A run whose treatment name has no underscore. *)
Definition unnamed_example : list string :=
  readlines
    (text_of
       ["*DSSAT Cropping System Model";
        " EXPERIMENT     : EXP1 WH field trial";
        " TREATMENT  1     : WW23          WHCER048";
        "@YEAR DOY   DAS   DAP  LAID";
        " 2022 100     0     0     1"]).

(** A metric table in which the variable Yield of treatment WW-23 has two
    rows under the calibration label A, one per calibration method. *)
Definition grid_two_methods : list (metric_row Z) :=
  grid_example ++ [mk_metric_row "Yield" "MCMC" "A" "long A" "WW-23" (Some 20%Z)].

(** A numeric parser that never gives NaN, for the examples. *)
Definition to_number (s : string) : option (option Z) :=
  option_map Some (to_numeric_int s).

(* ================================================================== *)
(** ** Vocabulary of the statements about the figures *)

(** The trace and the result of a run. *)
Definition trace_of {A : Type} (run : list Plots.effect * nat * result A)
  : list Plots.effect :=
  fst (fst run).

Definition result_of {A : Type} (run : list Plots.effect * nat * result A) : result A :=
  snd run.

(** A statement that writes no file, however the library calls end. *)
Definition quiet {A : Type} (m : Plots.M A) : Prop :=
  forall k, Plots.written (trace_of (m k)) = [].

(** A run opens no file for writing but [path], and not twice; when it
    returns, it has written [path]. *)
Definition saves_only (path : string) (run : list Plots.effect * nat * result unit)
  : Prop :=
  (Plots.written (trace_of run) = [] \/ Plots.written (trace_of run) = [path])
  /\ (result_of run = Ok tt -> Plots.written (trace_of run) = [path]).

(** A run in a world where [path] cannot be opened raises and has written
    nothing. *)
Definition saves_nothing (isdir : string -> bool) (path : string)
  (run : list Plots.effect * nat * result unit) : Prop :=
  Plots.can_open isdir path = false ->
  Plots.written (trace_of run) = [] /\ exists e, result_of run = Raise e.

(** Both, for a statement and every number of calls made before it. *)
Definition saves (isdir : string -> bool) (path : string) (m : Plots.M unit) : Prop :=
  forall k, saves_only path (m k) /\ saves_nothing isdir path (m k).

(** A directory as [os.path.split] names it: without its trailing slashes,
    unless it is made of slashes only. *)
Definition without_trailing_slashes (d : string) : string :=
  of_chars (trim_slashes (chars d)).

(* ================================================================== *)
(** ** Example worlds for the figures *)

(** Every library call returns; every directory exists, or none does. *)
Definition all_return : nat -> option exn := fun _ => None.
Definition every_directory : string -> bool := fun _ => true.
Definition no_directory : string -> bool := fun _ => false.

(** The ecotypes of every step of a bar plot. *)
Definition three_ecotypes (step : string) : list string :=
  ["subset_C"; "CI0001"; "subset_A"].

(* ================================================================== *)
(** * Properties *)

(** ** Results and loops *)

Lemma bind_ok {A B : Type} (r : result A) (k : A -> result B) (b : B) :
  bind r k = Ok b -> exists a, r = Ok a /\ k a = Ok b.
Proof.
  destruct r as [a | e]; simpl; intros Hk.
  - exists a. split; [reflexivity | exact Hk].
  - discriminate Hk.
Qed.

Lemma for_each_app {A S : Type} (body : S -> A -> result S) (xs ys : list A) (s : S) :
  for_each body (xs ++ ys) s = bind (for_each body xs s) (for_each body ys).
Proof.
  revert s. induction xs as [| x xs IH]; intros s; simpl.
  - reflexivity.
  - destruct (body s x) as [s' | e]; simpl; [apply IH | reflexivity].
Qed.

(** A loop that appends one computed element per round. *)
Lemma collect_ok {A B : Type} (f : A -> result B) (xs : list A) (acc out : list B) :
  for_each (fun acc x => bind (f x) (fun y => Ok (acc ++ [y]))) xs acc = Ok out ->
  exists ys, out = acc ++ ys /\ Forall2 (fun x y => f x = Ok y) xs ys.
Proof.
  revert acc. induction xs as [| x xs IH]; intros acc H; simpl in H.
  - inversion H; subst. exists []. split; [now rewrite app_nil_r | constructor].
  - destruct (f x) as [y | e] eqn:Hf; simpl in H; [| discriminate H].
    destruct (IH _ H) as (ys & -> & Hall).
    exists (y :: ys). split.
    + now rewrite <- app_assoc.
    + constructor; assumption.
Qed.

Lemma collect_all {A B : Type} (f : A -> result B) (xs : list A) (acc ys : list B) :
  Forall2 (fun x y => f x = Ok y) xs ys ->
  for_each (fun acc x => bind (f x) (fun y => Ok (acc ++ [y]))) xs acc = Ok (acc ++ ys).
Proof.
  intros H. revert acc. induction H as [| x y xs ys Hf _ IH]; intros acc; simpl.
  - now rewrite app_nil_r.
  - rewrite Hf. simpl. rewrite IH. now rewrite <- app_assoc.
Qed.

(* ------------------------------------------------------------------ *)
(** ** validate_file_path *)

Lemma truthy_str (s : string) : truthy (PyStr s) = false <-> s = EmptyString.
Proof.
  simpl. destruct (String.eqb_spec s EmptyString) as [-> | Hne]; simpl.
  - split; reflexivity.
  - split; [discriminate | intros ->; congruence].
Qed.

(** C10. [validate_file_path] raises [ValueError] exactly when its argument
    is the empty string or is not a string, raises [FileNotFoundError]
    exactly when the argument is a non-empty string for which
    [os.path.isfile] is false, raises nothing else, and returns exactly when
    the argument is a non-empty string naming a file, and then it returns
    the argument itself. *)
Theorem validate_file_path_spec (isfile : string -> bool) (file_path : pyval) :
  (validate_file_path isfile file_path = Raise ValueError
   <-> (file_path = PyStr EmptyString \/ is_str file_path = false))
  /\ (validate_file_path isfile file_path = Raise FileNotFoundError
      <-> exists p, file_path = PyStr p /\ p <> EmptyString /\ isfile p = false)
  /\ (forall e, validate_file_path isfile file_path = Raise e ->
        e = ValueError \/ e = FileNotFoundError)
  /\ (forall v, validate_file_path isfile file_path = Ok v <->
        v = file_path
        /\ exists p, file_path = PyStr p /\ p <> EmptyString /\ isfile p = true).
Proof.
  unfold validate_file_path.
  destruct file_path as [| b | z | s | items]; simpl.
  1, 2, 3, 5:
    rewrite ?Bool.orb_true_r; repeat split; intros;
    repeat match goal with
           | H : exists _, _ |- _ => destruct H
           | H : _ /\ _ |- _ => destruct H
           end;
    try discriminate; try (inversion H; subst); auto.
  destruct (String.eqb_spec s EmptyString) as [-> | Hne]; simpl.
  - repeat split; intros; try discriminate; auto.
    + destruct H as (p & Hp & Hne & _). inversion Hp; subst. congruence.
    + inversion H; auto.
    + destruct H as (_ & p & Hp & Hne & _). inversion Hp; subst. congruence.
  - destruct (isfile s) eqn:Hf; simpl.
    + repeat split; intros; try discriminate; auto.
      * destruct H as [H | H]; [inversion H; congruence | discriminate].
      * destruct H as (p & Hp & _ & Hfalse). inversion Hp; subst. congruence.
      * inversion H; reflexivity.
      * exists s. auto.
      * destruct H as (-> & _). reflexivity.
    + repeat split; intros; try discriminate; auto.
      * destruct H as [H | H]; [inversion H; congruence | discriminate].
      * exists s. auto.
      * inversion H; auto.
      * destruct H as (_ & p & Hp & _ & Htrue). inversion Hp; subst. congruence.
Qed.

(* ------------------------------------------------------------------ *)
(** ** wht_filedata_to_dataframe *)

Lemma wht_loop_ok (n : nat) (data_lines : list string) (acc : list (list string)) :
  (forall l, In l data_lines -> List.length (split_ws l) = n) ->
  for_each
    (fun data line =>
       let values := split_ws line in
       if List.length values =? n then Ok (data ++ [values]) else Raise ValueError)
    data_lines acc
  = Ok (acc ++ map split_ws data_lines).
Proof.
  revert acc. induction data_lines as [| l ls IH]; intros acc Hall; simpl.
  - now rewrite app_nil_r.
  - rewrite (Hall l (or_introl eq_refl)), Nat.eqb_refl. simpl.
    rewrite IH by (intros; apply Hall; now right).
    now rewrite <- app_assoc.
Qed.

Lemma wht_loop_bad (n : nat) (data_lines : list string) (acc : list (list string)) :
  (exists l, In l data_lines /\ List.length (split_ws l) <> n) ->
  for_each
    (fun data line =>
       let values := split_ws line in
       if List.length values =? n then Ok (data ++ [values]) else Raise ValueError)
    data_lines acc
  = Raise ValueError.
Proof.
  revert acc. induction data_lines as [| l ls IH]; intros acc (b & Hin & Hbad).
  - destruct Hin.
  - simpl. destruct (Nat.eqb_spec (List.length (split_ws l)) n) as [Heq | Hne]; simpl.
    + apply IH. destruct Hin as [-> | Hin]; [contradiction | eauto].
    + reflexivity.
Qed.

(** C8. On a file that [open] finds: without a line starting with ['@'] the
    call raises [ValueError]; with a first such line [header], it raises
    [ValueError] if some data line (a line that is not blank and does not
    start with ['*'], ['!'] or ['@']) has a number of blank-separated tokens
    other than the number of header columns, and otherwise it returns the
    frame whose columns are the tokens of [header] after its ['@'] and whose
    rows are the token lists of the data lines, in file order. *)
Theorem wht_filedata_to_dataframe_spec (fs : file_system) (file_path : string)
  (lines : list string) (Hopen : fs_lines fs file_path = Some lines) :
  ((forall line, In line lines -> startswith "@" line = false) ->
   wht_filedata_to_dataframe fs file_path = Raise ValueError)
  /\ (forall header, find (startswith "@") lines = Some header ->
        let columns := split_ws (drop 1 (strip header)) in
        ((exists line, In line lines /\ is_data_line line = true
                       /\ List.length (split_ws (strip line)) <> List.length columns) ->
         wht_filedata_to_dataframe fs file_path = Raise ValueError)
        /\ ((forall line, In line lines -> is_data_line line = true ->
               List.length (split_ws (strip line)) = List.length columns) ->
            wht_filedata_to_dataframe fs file_path
            = Ok (mk_wht_frame columns
                    (map (fun line => split_ws (strip line))
                       (filter is_data_line lines))))).
Proof.
  unfold wht_filedata_to_dataframe, open_lines. rewrite Hopen. simpl.
  unfold wht_rows. split.
  - intros Hnone.
    destruct (find (startswith "@") lines) as [h |] eqn:Hfind; [| reflexivity].
    apply find_some in Hfind. destruct Hfind as [Hin Hat].
    rewrite (Hnone h Hin) in Hat. discriminate Hat.
  - intros header Hfind. rewrite Hfind.
    set (columns := split_ws (drop 1 (strip header))). split.
    + intros (line & Hin & Hdata & Hbad).
      rewrite wht_loop_bad; [reflexivity |].
      exists (strip line). split; [| exact Hbad].
      apply in_map. apply filter_In. split; assumption.
    + intros Hall.
      rewrite wht_loop_ok.
      * simpl. now rewrite map_map.
      * intros l Hl. apply in_map_iff in Hl. destruct Hl as (line & <- & Hin).
        apply filter_In in Hin. destruct Hin as [Hin Hdata]. now apply Hall.
Qed.


Lemma wht_filedata_to_dataframe_witness :
  wht_filedata_to_dataframe wht_example_fs "EXP1.WHT"
  = Ok (mk_wht_frame ["TRNO"; "DATE"; "CWAD"]
          [["1"; "2022105"; "300"]; ["2"; "2022106"; "400"]]).
Proof.
  pose proof (wht_filedata_to_dataframe_spec wht_example_fs "EXP1.WHT"
                wht_example eq_refl) as [_ H].
  specialize (H ("@TRNO DATE  CWAD" ++ nl)%string eq_refl).
  destruct H as [_ H].
  rewrite H; [reflexivity |].
  intros line Hin Hdata.
  vm_compute in Hin.
  repeat (destruct Hin as [<- | Hin]; [try reflexivity; discriminate Hdata |]).
  destruct Hin.
Defined.

(* ------------------------------------------------------------------ *)
(** ** Loops with an invariant *)

Lemma for_each_inv {A S : Type} (body : S -> A -> result S) (Inv : S -> Prop)
  (xs : list A) (s s' : S) :
  Inv s ->
  (forall x t t', In x xs -> Inv t -> body t x = Ok t' -> Inv t') ->
  for_each body xs s = Ok s' -> Inv s'.
Proof.
  revert s. induction xs as [| x xs IH]; intros s Hs Hstep Hrun; simpl in Hrun.
  - inversion Hrun; subst. exact Hs.
  - apply bind_ok in Hrun. destruct Hrun as (t & Hx & Hrest).
    apply (IH t); auto.
    + apply (Hstep x s t); auto. now left.
    + intros y u u' Hy. apply Hstep. now right.
Qed.

(** The invariant may mention the loop index of [range(a, a + n)]. *)
Lemma for_each_seq_inv {St : Type} (body : St -> nat -> result St)
  (Inv : nat -> St -> Prop) (n a : nat) (s s' : St) :
  Inv a s ->
  (forall i t t', a <= i < a + n -> Inv i t -> body t i = Ok t' -> Inv (S i) t') ->
  for_each body (seq a n) s = Ok s' -> Inv (a + n) s'.
Proof.
  revert a s. induction n as [| n IH]; intros a s Hs Hstep Hrun; simpl in Hrun.
  - inversion Hrun; subst. now rewrite Nat.add_0_r.
  - apply bind_ok in Hrun. destruct Hrun as (t & Hx & Hrest).
    replace (a + S n) with (S a + n) by lia.
    apply (IH (S a) t); auto.
    + apply (Hstep a s t); auto. lia.
    + intros i u u' Hi. apply Hstep. lia.
Qed.

(* ------------------------------------------------------------------ *)
(** ** Splitting *)

Lemma split_go_nonempty (sep : string) (s : string) (skip : nat) (cur : list ascii) :
  split_go sep skip cur s <> [].
Proof.
  revert skip cur. induction s as [| c rest IH]; intros skip cur; cbn [split_go].
  - discriminate.
  - destruct skip as [| k]; [| apply IH].
    destruct (startswith sep (String c rest)); [discriminate | apply IH].
Qed.

Lemma split_nonempty (sep s : string) : exists x xs, split sep s = x :: xs.
Proof.
  unfold split. destruct (split_go sep 0 [] s) as [| x xs] eqn:H.
  - now apply split_go_nonempty in H.
  - eauto.
Qed.

(** A string that contains the separator splits into two pieces at least. *)
Lemma split_go_contains (sep : string) (s : string) (cur : list ascii) :
  sep <> EmptyString -> contains sep s = true ->
  2 <= List.length (split_go sep 0 cur s).
Proof.
  intros Hsep. revert cur. induction s as [| c rest IH]; intros cur Hc.
  - simpl in Hc. rewrite Bool.orb_false_r in Hc.
    destruct sep; [congruence | discriminate Hc].
  - cbn [split_go]. cbn [contains] in Hc.
    destruct (startswith sep (String c rest)) eqn:Hp.
    + cbn [List.length].
      pose proof (split_go_nonempty sep rest (String.length sep - 1) []) as Hne.
      destruct (split_go sep (String.length sep - 1) [] rest); [congruence |].
      simpl. lia.
    + simpl in Hc. apply IH. exact Hc.
Qed.

Lemma split_contains (sep s : string) :
  sep <> EmptyString -> contains sep s = true -> 2 <= List.length (split sep s).
Proof. intros. now apply split_go_contains. Qed.

(* ------------------------------------------------------------------ *)
(** ** The rows read from OVERVIEW.OUT *)

Lemma header_not_experiment (line : string) :
  is_header_line line = true -> is_experiment_line line = false.
Proof.
  unfold is_header_line, is_experiment_line, startswith.
  destruct line as [| c rest]; cbn [String.prefix]; [discriminate |].
  destruct (ascii_dec "@" c) as [<- | Hne]; [intros _ | discriminate].
  destruct (ascii_dec "E" "@") as [Heq | _]; [discriminate Heq | reflexivity].
Qed.

Lemma header_not_crop (line : string) :
  is_header_line line = true -> is_crop_line line = false.
Proof.
  unfold is_header_line, is_crop_line, startswith.
  destruct line as [| c rest]; cbn [String.prefix]; [discriminate |].
  destruct (ascii_dec "@" c) as [<- | Hne]; [intros _ | discriminate].
  destruct (ascii_dec "C" "@") as [Heq | _]; [discriminate Heq | reflexivity].
Qed.

Lemma none_in_empty (p : string -> bool) (lines : list string) (a : nat) :
  none_in p lines a a.
Proof. intros k raw Hk. lia. Qed.

Lemma none_in_snoc (p : string -> bool) (lines : list string) (a i : nat) (raw : string) :
  none_in p lines a i -> nth_error lines i = Some raw -> p (strip raw) = false ->
  none_in p lines a (S i).
Proof.
  intros Hnone Hi Hp k raw' Hk Hk'.
  destruct (Nat.eq_dec k i) as [-> | Hne].
  - congruence.
  - apply (Hnone k); [lia | assumption].
Qed.

Lemma last_in_snoc (p : string -> bool) (lines : list string) (a i j : nat) (raw : string) :
  last_in p lines a i j -> nth_error lines i = Some raw -> p (strip raw) = false ->
  last_in p lines a (S i) j.
Proof.
  intros (Hj & Hline & Hnone) Hi Hp.
  split; [lia |]. split; [assumption |].
  apply none_in_snoc with (raw := raw); auto.
Qed.

Lemma last_in_here (p : string -> bool) (lines : list string) (a i : nat) (raw : string) :
  a <= i -> nth_error lines i = Some raw -> p (strip raw) = true ->
  last_in p lines a (S i) i.
Proof.
  intros Ha Hi Hp. repeat split; try lia.
  - exists raw. auto.
  - apply none_in_empty.
Qed.

(** The last line satisfying [p] is determined. *)
Lemma last_in_unique (p : string -> bool) (lines : list string) (a b j k : nat) :
  last_in p lines a b j -> last_in p lines a b k -> j = k.
Proof.
  intros (Hj & (rj & Hrj & Hpj) & Hnj) (Hk & (rk & Hrk & Hpk) & Hnk).
  destruct (Nat.lt_trichotomy j k) as [Hlt | [Heq | Hgt]]; [| exact Heq |].
  - specialize (Hnj k rk). rewrite Hnj in Hpk; [discriminate | lia | assumption].
  - specialize (Hnk j rj). rewrite Hnk in Hpj; [discriminate | lia | assumption].
Qed.

Lemma last_in_before (p : string -> bool) (lines : list string) (a i j : nat) (raw : string) :
  last_in p lines a (S i) j -> nth_error lines i = Some raw -> p (strip raw) = false ->
  last_in p lines a i j.
Proof.
  intros (Hj & (rj & Hrj & Hpj) & Hnone) Hi Hp.
  assert (j <> i) by (intros ->; congruence).
  repeat split; try lia.
  - exists rj. auto.
  - intros k raw' Hk. apply Hnone. lia.
Qed.

Lemma read_rows_made (t : string) (c x : option string) (rest : list string)
  (n : nat) (acc out : list raw_record) :
  read_rows t c x n rest acc = Ok out ->
  exists new, out = acc ++ new
    /\ forall r, In r new ->
         exists n' data_line c',
           In data_line rest /\ c = Some c' /\ data_row t (Some c') x n' data_line = Ok r.
Proof.
  revert n acc. induction rest as [| l rest IH]; intros n acc H; simpl in H.
  - inversion H; subst. exists []. split; [now rewrite app_nil_r | intros r []].
  - destruct (String.eqb (strip l) EmptyString || startswith "*" l).
    + inversion H; subst. exists []. split; [now rewrite app_nil_r | intros r []].
    + apply bind_ok in H. destruct H as (row & Hrow & Hrest).
      destruct (IH _ _ Hrest) as (new & -> & Hnew).
      exists (row :: new). split; [now rewrite <- app_assoc |].
      intros r [<- | Hr].
      * exists (n + 1), l.
        destruct c as [c' |].
        -- exists c'. repeat split; auto. now left.
        -- unfold data_row in Hrow.
           destruct (index_from_end (split_ws (strip l)) 2); [| discriminate Hrow].
           destruct (index_from_end (split_ws (strip l)) 1); discriminate Hrow.
      * destruct (Hnew r Hr) as (n' & dl & c' & Hin & Hc & Hd).
        exists n', dl, c'. repeat split; auto. now right.
Qed.

Lemma made_in_block_mono (lines : list string) (t : string) (s e e' : nat)
  (r : raw_record) :
  e <= e' -> made_in_block lines t s e r -> made_in_block lines t s e' r.
Proof.
  intros Hle (i & n & dl & c & x & Hi & H).
  exists i, n, dl, c, x. split; [lia | exact H].
Qed.

Lemma experiment_above_snoc (lines : list string) (s i : nat) (e : option string)
  (raw : string) :
  experiment_above lines s i e -> nth_error lines i = Some raw ->
  is_experiment_line (strip raw) = false ->
  experiment_above lines s (S i) e.
Proof.
  intros [[-> Hnone] | (j & rj & x & Hlast & Hrj & Hx & ->)] Hi Hp.
  - left. split; [reflexivity |]. now apply none_in_snoc with (raw := raw).
  - right. exists j, rj, x.
    split; [now apply last_in_snoc with (raw := raw) | auto].
Qed.

Lemma cultivar_of_contains (line : string) (c : option string) :
  contains "CULTIVAR :" line = true -> cultivar_of line = Ok c ->
  exists c0, c = Some c0.
Proof.
  intros Hc H. unfold cultivar_of in H.
  assert (Hlen : 2 <= List.length (split "CULTIVAR :" line))
    by (apply split_contains; [discriminate | exact Hc]).
  destruct (Nat.ltb_spec 1 (List.length (split "CULTIVAR :" line))) as [_ | Hle];
    [| lia].
  apply bind_ok in H. destruct H as (p1 & _ & H).
  apply bind_ok in H. destruct H as (c0 & _ & H).
  inversion H. eauto.
Qed.

Lemma line_step_inv (lines : list string) (good : raw_record -> Prop)
  (t : string) (s i : nat) (st st' : scan_state) :
  s <= i -> block_inv lines good t s i st -> line_step lines t st i = Ok st' ->
  block_inv lines good t s (S i) st'.
Proof.
  intros Hsi (Hexp & Hcul & Hcd & Hall) H.
  unfold line_step in H.
  apply bind_ok in H. destruct H as (raw & Hraw & H).
  unfold index in Hraw. destruct (nth_error lines i) as [raw' |] eqn:Hnth;
    [| discriminate Hraw].
  inversion Hraw; subst raw'. clear Hraw.
  change (startswith "EXPERIMENT" (strip raw)) with (is_experiment_line (strip raw)) in H.
  change (startswith "CROP" (strip raw) && contains "CULTIVAR :" (strip raw))
    with (is_crop_line (strip raw)) in H.
  change (startswith "@" (strip raw)) with (is_header_line (strip raw)) in H.
  destruct (is_header_line (strip raw)) eqn:Hh.
  - (* a header: the rows below it are read *)
    rewrite (header_not_experiment _ Hh), (header_not_crop _ Hh) in H. simpl in H.
    apply bind_ok in H. destruct H as (cd' & Hrows & H). inversion H; subst st'; clear H.
    apply read_rows_made in Hrows. destruct Hrows as (new & -> & Hnew).
    assert (Hmade : forall r, In r (st_cultivar_data st ++ new) ->
                      made_in_block lines t s (S i) r).
    { intros r Hr. apply in_app_or in Hr. destruct Hr as [Hr | Hr].
      - apply made_in_block_mono with (e := i); [lia | now apply Hcd].
      - destruct (Hnew r Hr) as (n' & dl & c' & Hdl & Hc & Hrow).
        exists i, n', dl, c', (st_experiment_info st).
        repeat split; auto; try lia.
        + exists raw. auto.
        + intros j rj Hlast Hrj.
          destruct (Hcul j rj Hlast Hrj) as (c & Hc0 & Hof). congruence. }
    repeat split; simpl.
    + apply experiment_above_snoc with (raw := raw); auto.
      now apply header_not_experiment.
    + intros j rj Hlast Hrj. apply (Hcul j rj); auto.
      apply last_in_before with (raw := raw); auto. now apply header_not_crop.
    + exact Hmade.
    + intros r Hr. apply in_app_or in Hr. destruct Hr as [Hr | Hr].
      * destruct (Hall r Hr) as [Hg | Hm]; [now left | right].
        apply made_in_block_mono with (e := i); [lia | exact Hm].
      * right. now apply Hmade.
  - (* any other line *)
    apply bind_ok in H. destruct H as (x' & Hx' & H).
    apply bind_ok in H. destruct H as (c' & Hc' & H).
    inversion H; subst st'; clear H. repeat split; simpl.
    + destruct (is_experiment_line (strip raw)) eqn:He.
      * apply bind_ok in Hx'. destruct Hx' as (x & Hx & Hx'). inversion Hx'; subst x'.
        right. exists i, raw, x. repeat split; auto; try lia.
        -- exists raw. auto.
        -- apply none_in_empty.
      * inversion Hx'; subst x'. now apply experiment_above_snoc with (raw := raw).
    + intros j rj Hlast Hrj.
      destruct (is_crop_line (strip raw)) eqn:Hcrop.
      * assert (j = i) as ->
          by (eapply last_in_unique; [exact Hlast | now apply last_in_here with (raw := raw)]).
        assert (rj = raw) as -> by congruence.
        apply bind_ok in Hc'. destruct Hc' as (c & Hc & Hc'). inversion Hc'; subst c'.
        unfold is_crop_line in Hcrop. apply andb_prop in Hcrop. destruct Hcrop as [_ Hcon].
        destruct (cultivar_of_contains _ _ Hcon Hc) as (c0 & ->).
        exists c0. auto.
      * inversion Hc'; subst c'. apply (Hcul j rj); auto.
        now apply last_in_before with (raw := raw).
    + intros r Hr. apply made_in_block_mono with (e := i); [lia | now apply Hcd].
    + intros r Hr. destruct (Hall r Hr) as [Hg | Hm]; [now left | right].
      apply made_in_block_mono with (e := i); [lia | exact Hm].
Qed.

(** The rows a block adds were read under one of its headers. *)
Lemma treatment_step_inv (lines : list string) (good : raw_record -> Prop)
  (t : string) (s e : nat) (st st' : scan_state) :
  (forall r, In r (st_all_data st) -> good r) ->
  treatment_step lines st (t, (s, e)) = Ok st' ->
  forall r, In r (st_all_data st') -> good r \/ made_in_block lines t s e r.
Proof.
  intros Hgood H. unfold treatment_step in H.
  assert (Hinv : block_inv lines good t s (s + (e - s)) st').
  { eapply (for_each_seq_inv (line_step lines t) (block_inv lines good t s));
      cycle 2; [exact H | |].
    - split; [| split; [| split]]; simpl.
      + left. split; [reflexivity | apply none_in_empty].
      + intros j raw (Hj & _). lia.
      + intros r [].
      + intros r Hr. left. now apply Hgood.
    - intros i u u' Hi. apply line_step_inv. lia. }
  destruct Hinv as (_ & _ & _ & Hall).
  intros r Hr. destruct (Hall r Hr) as [Hg | Hm]; [now left | right].
  apply made_in_block_mono with (e := s + (e - s)); [| exact Hm].
  destruct (Nat.le_gt_cases s e) as [Hle | Hgt]; [lia |].
  destruct Hm as (i & _ & _ & _ & _ & Hi & _). lia.
Qed.

(** Every row [extract_simulation_data] has concatenated was read under a
    header of the block of an entry of the treatment dictionary. *)
Lemma scan_overview_made (lines : list string) (st : scan_state) :
  scan_overview lines = Ok st ->
  exists d, simulations_lines lines = Ok d
    /\ forall r, In r (st_all_data st) ->
         exists t s e, In (t, (s, e)) d /\ made_in_block lines t s e r.
Proof.
  unfold scan_overview. intros H.
  apply bind_ok in H. destruct H as (d & Hd & H).
  exists d. split; [exact Hd |].
  eapply (for_each_inv (treatment_step lines)
            (fun st => forall r, In r (st_all_data st) ->
                         exists t s e, In (t, (s, e)) d /\ made_in_block lines t s e r));
    cycle 2; [exact H | |].
  - intros r [].
  - intros [t [s e]] u u' Hin Hu Hstep r Hr.
    destruct (treatment_step_inv lines _ t s e u u' Hu Hstep r Hr) as [Hg | Hm].
    + exact Hg.
    + exists t, s, e. auto.
Qed.

Lemma data_row_fields (t c : string) (x : option string) (n : nat)
  (data_line : string) (r : raw_record) :
  data_row t (Some c) x n data_line = Ok r ->
  exists sim meas,
    index_from_end (split_ws (strip data_line)) 2 = Ok sim
    /\ index_from_end (split_ws (strip data_line)) 1 = Ok meas
    /\ r = mk_raw t c
             (join " " (firstn (List.length (split_ws (strip data_line)) - 2)
                          (split_ws (strip data_line))))
             (blank_sentinel sim) (blank_sentinel meas) x n.
Proof.
  unfold data_row. intros H.
  apply bind_ok in H. destruct H as (sim & Hsim & H).
  apply bind_ok in H. destruct H as (meas & Hmeas & H).
  simpl in H. inversion H. eauto.
Qed.

Lemma in_skipn {A : Type} (x : A) (n : nat) (l : list A) :
  In x (skipn n l) -> In x l.
Proof.
  intros H. rewrite <- (firstn_skipn n l). apply in_or_app. now right.
Qed.

(** The rows [extract_simulation_data] returns are the converted rows of the
    scan. *)
Lemma extract_rows {num : Type} (to_numeric : string -> option num)
  (lines : list string) (rows : list (record num)) (header : string) :
  extract_simulation_data to_numeric lines = Ok (rows, header) ->
  exists st, scan_overview lines = Ok st
    /\ forall r, In r rows ->
         exists raw, In raw (st_all_data st) /\ r = numeric_row to_numeric raw.
Proof.
  unfold extract_simulation_data. intros H.
  apply bind_ok in H. destruct H as (st & Hst & H).
  exists st. split; [exact Hst |].
  destruct (st_header_line st); [| discriminate H].
  inversion H; subst. intros r Hr.
  apply in_map_iff in Hr. destruct Hr as (raw & <- & Hraw).
  apply filter_In in Hraw. destruct Hraw as [Hraw _].
  exists raw. auto.
Qed.

(* ------------------------------------------------------------------ *)
(** ** extract_simulation_data: what a record is keyed by *)

(** C2 (amended). Every record [extract_simulation_data] returns was read
    under an ['@'] header line, at some index [i], of the block [s, e) of an
    entry of the treatment dictionary; it carries the treatment name of that
    entry; its experiment description is parsed from the last EXPERIMENT line
    of the block above the header (the text between the first and the second
    colon), and is missing when the block has none there; and when the block
    has a [CROP ... CULTIVAR :] line above the header, its cultivar is the
    text between ['CULTIVAR :'] and ['ECOTYPE'] of the last such line. *)
Theorem extract_simulation_data_keys {num : Type} (to_numeric : string -> option num)
  (lines : list string) (rows : list (record num)) (header : string) :
  extract_simulation_data to_numeric lines = Ok (rows, header) ->
  exists d, simulations_lines lines = Ok d
    /\ forall r, In r rows ->
         exists t s e i,
           In (t, (s, e)) d /\ s <= i < e /\ line_is is_header_line lines i
           /\ treatment r = t
           /\ experiment_above lines s i (experiment r)
           /\ cultivar_above lines s i (cultivar r).
Proof.
  intros H. apply extract_rows in H. destruct H as (st & Hst & Hrows).
  apply scan_overview_made in Hst. destruct Hst as (d & Hd & Hmade).
  exists d. split; [exact Hd |].
  intros r Hr. destruct (Hrows r Hr) as (raw & Hraw & ->).
  destruct (Hmade raw Hraw) as (t & s & e & Hin & i & n & dl & c & x & Hi & Hh & _ & Hrow & Hx & Hc).
  apply data_row_fields in Hrow. destruct Hrow as (sim & meas & _ & _ & ->).
  exists t, s, e, i. simpl. auto 10.
Qed.


Lemma overview_example_run :
  extract_simulation_data to_numeric_int overview_example
  = Ok (overview_example_rows, "@     VARIABLE        SIMULATED     MEASURED").
Proof. vm_compute. reflexivity. Qed.

Lemma extract_simulation_data_keys_witness :
  exists d, simulations_lines overview_example = Ok d
    /\ forall r, In r overview_example_rows ->
         exists t s e i,
           In (t, (s, e)) d /\ s <= i < e /\ line_is is_header_line overview_example i
           /\ treatment r = t
           /\ experiment_above overview_example s i (experiment r)
           /\ cultivar_above overview_example s i (cultivar r).
Proof.
  apply (extract_simulation_data_keys to_numeric_int overview_example
           overview_example_rows "@     VARIABLE        SIMULATED     MEASURED").
  vm_compute. reflexivity.
Defined.

(** C2, counterexample. On [overview_example] the record of the second block
    carries the cultivar ["Yecora Rojo"] although no line of that block is a
    [CROP ... CULTIVAR :] line (the name is left over from the first block),
    and its experiment description is ["EXP2 WH"], not the text after the
    first colon of the block's EXPERIMENT line, which is
    ["EXP2 WH: drought"]. *)
Lemma extract_simulation_data_counterexample :
  exists rows header r,
    extract_simulation_data to_numeric_int overview_example = Ok (rows, header)
    /\ simulations_lines overview_example
       = Ok [("WW23_G1", (0, 8)); ("DR22_G2", (9, 15))]
    /\ In r rows /\ treatment r = "DR22_G2"
    /\ cultivar r = "Yecora Rojo"
    /\ none_in is_crop_line overview_example 9 15
    /\ nth_error overview_example 10
       = Some (String.append " EXPERIMENT     : EXP2 WH: drought" nl)
    /\ none_in is_experiment_line overview_example 11 15
    /\ experiment r = Some "EXP2 WH"
    /\ experiment r <> Some "EXP2 WH: drought".
Proof.
  exists overview_example_rows, "@     VARIABLE        SIMULATED     MEASURED",
    (mk_record "DR22_G2" "Yecora Rojo" "Anthesis (dap)" (Some 70%Z) (Some 71%Z)
       (Some "EXP2 WH") 1).
  split; [exact overview_example_run |].
  split; [vm_compute; reflexivity |].
  split; [simpl; auto |].
  split; [reflexivity |].
  split; [reflexivity |].
  split.
  { intros k raw Hk Hnth.
    assert (Hcases : k = 9 \/ k = 10 \/ k = 11 \/ k = 12 \/ k = 13 \/ k = 14) by lia.
    destruct Hcases as [-> | [-> | [-> | [-> | [-> | ->]]]]];
      vm_compute in Hnth; inversion Hnth; vm_compute; reflexivity. }
  split; [vm_compute; reflexivity |].
  split.
  { intros k raw Hk Hnth.
    assert (Hcases : k = 11 \/ k = 12 \/ k = 13 \/ k = 14) by lia.
    destruct Hcases as [-> | [-> | [-> | ->]]];
      vm_compute in Hnth; inversion Hnth; vm_compute; reflexivity. }
  split; [reflexivity | discriminate].
Qed.

(* ------------------------------------------------------------------ *)
(** ** load_and_process_overview: no missing measurement *)

Lemma overview_step_measured {num : Type} (to_numeric : string -> option num)
  (fs : file_system) (base : string) (code : string)
  (st st' : option yaml_doc * list (list (tagged num))) :
  (forall frame t, In frame (snd st) -> In t frame ->
     value_measured (tg_row t) <> None) ->
  overview_step to_numeric fs base st code = Ok st' ->
  forall frame t, In frame (snd st') -> In t frame ->
    value_measured (tg_row t) <> None.
Proof.
  intros Hst H. destruct st as [config frames]. unfold overview_step in H.
  apply bind_ok in H. destruct H as (path & _ & H).
  apply bind_ok in H. destruct H as (lines & _ & H).
  apply bind_ok in H. destruct H as ([raw_df hdr] & _ & H).
  apply bind_ok in H. destruct H as (loaded & _ & H).
  apply bind_ok in H. destruct H as (pv & _ & H).
  apply bind_ok in H. destruct H as (ovv & _ & H).
  apply bind_ok in H. destruct H as (cm & _ & H).
  apply bind_ok in H. destruct H as (sl & _ & H).
  apply bind_ok in H. destruct H as (ll & _ & H).
  inversion H; subst st'; clear H. simpl.
  intros frame t Hframe Ht. apply in_app_or in Hframe.
  destruct Hframe as [Hframe | [<- | []]].
  - now apply (Hst frame).
  - apply in_map_iff in Ht. destruct Ht as (r & <- & Hr).
    apply filter_In in Hr. destruct Hr as [_ Hm]. simpl.
    unfold has_measured in Hm. destruct (value_measured r); [discriminate | discriminate Hm].
Qed.

(** C7. A token of a data line that begins with ['-99'], simulated or
    measured, becomes a missing value in the record [extract_simulation_data]
    makes of the line, and every row [load_and_process_overview] returns has
    a measured value that is not missing. *)
Theorem load_and_process_overview_measured {num : Type}
  (to_numeric : string -> option num)
  (to_numeric_empty : to_numeric EmptyString = None) :
  (forall lines rows header,
     extract_simulation_data to_numeric lines = Ok (rows, header) ->
     forall r, In r rows ->
       exists data_line sim meas,
         In data_line lines
         /\ index_from_end (split_ws (strip data_line)) 2 = Ok sim
         /\ index_from_end (split_ws (strip data_line)) 1 = Ok meas
         /\ value_simulated r = to_numeric (blank_sentinel sim)
         /\ value_measured r = to_numeric (blank_sentinel meas)
         /\ (startswith "-99" sim = true -> value_simulated r = None)
         /\ (startswith "-99" meas = true -> value_measured r = None))
  /\ (forall fs calibration_code_list base_data_dir treatments_dic
        variable_name_mapping overview_data,
        load_and_process_overview to_numeric fs calibration_code_list
          base_data_dir treatments_dic variable_name_mapping = Ok overview_data ->
        forall r, In r overview_data -> ov_value_measured r <> None).
Proof.
  split.
  - intros lines rows header H r Hr.
    apply extract_rows in H. destruct H as (st & Hst & Hrows).
    apply scan_overview_made in Hst. destruct Hst as (d & _ & Hmade).
    destruct (Hrows r Hr) as (raw & Hraw & ->).
    destruct (Hmade raw Hraw)
      as (t & s & e & _ & i & n & dl & c & x & _ & _ & Hdl & Hrow & _).
    apply data_row_fields in Hrow. destruct Hrow as (sim & meas & Hsim & Hmeas & ->).
    exists dl, sim, meas. simpl.
    split; [now apply in_skipn in Hdl |].
    split; [exact Hsim |]. split; [exact Hmeas |].
    split; [reflexivity |]. split; [reflexivity |].
    unfold blank_sentinel. split; intros ->; exact to_numeric_empty.
  - intros fs codes base td vm df H r Hr.
    unfold load_and_process_overview in H.
    apply bind_ok in H. destruct H as ([config frames] & Hloop & H).
    assert (Hframes : forall frame t, In frame frames -> In t frame ->
                        value_measured (tg_row t) <> None).
    { change frames with (snd (config, frames)).
      eapply (for_each_inv (overview_step to_numeric fs base)
                (fun st => forall frame t, In frame (snd st) -> In t frame ->
                             value_measured (tg_row t) <> None));
        cycle 2; [exact Hloop | |].
      - intros frame t [].
      - intros code u u' _ Hu Hstep. exact (overview_step_measured _ _ _ _ _ _ Hu Hstep). }
    destruct frames as [| f fs']; [discriminate H |].
    inversion H; subst df; clear H.
    apply in_map_iff in Hr. destruct Hr as (t & <- & Ht).
    change (In t (List.concat (f :: fs'))) in Ht.
    apply in_concat in Ht. destruct Ht as (frame & Hframe & Ht).
    simpl. now apply (Hframes frame t).
Qed.


Lemma load_and_process_overview_measured_witness :
  exists overview_data,
    load_and_process_overview to_numeric_int two_folders ["a"] "data"
      [("WW23", "WW-23"); ("DR22", "DR-22")] [] = Ok overview_data
    /\ overview_data <> []
    /\ forall r, In r overview_data -> ov_value_measured r <> None.
Proof.
  eexists. split; [vm_compute; reflexivity |]. split; [discriminate |].
  apply (proj2 (load_and_process_overview_measured to_numeric_int eq_refl)
           two_folders ["a"] "data" [("WW23", "WW-23"); ("DR22", "DR-22")] []).
  vm_compute. reflexivity.
Defined.

(* ------------------------------------------------------------------ *)
(** ** load_and_process_overview: the labels of a subfolder *)

(** C6, at the failing input. The subfolder [b] has a [config.yaml] that
    does not parse; [yaml.YAMLError] is caught and printed, [config_file]
    keeps the document of subfolder [a], and the rows of [b] are tagged with
    the labels of [a]. *)
Lemma load_and_process_overview_stale_config :
  exists overview_data,
    load_and_process_overview to_numeric_int two_folders ["a"; "b"] "data"
      [("WW23", "WW-23"); ("DR22", "DR-22")] [] = Ok overview_data
    /\ map (fun r => (ov_calibration_code r, ov_short_label r, ov_long_label r,
                      ov_calibration_method r)) overview_data
       = [("a", "subset A", "Cultivar subset A", "GLUE");
          ("a", "subset A", "Cultivar subset A", "GLUE");
          ("b", "subset A", "Cultivar subset A", "GLUE");
          ("b", "subset A", "Cultivar subset A", "GLUE")].
Proof.
  eexists. split; [vm_compute; reflexivity | reflexivity].
Qed.

(* ------------------------------------------------------------------ *)
(** ** prepare_metrics_by_treatment: one order for the four tables *)

Import Grid.

Section Sorting.

Context {A : Type} (le : A -> A -> bool).
Hypothesis le_total : forall x y, le x y = true \/ le y x = true.

Let le_prop (x y : A) : Prop := le x y = true.

Lemma insert_by_perm (x : A) (l : list A) : Permutation (insert_by le x l) (x :: l).
Proof.
  induction l as [| y l IH]; simpl.
  - apply Permutation_refl.
  - destruct (le y x).
    + apply perm_trans with (y :: x :: l); [now apply perm_skip | apply perm_swap].
    + apply Permutation_refl.
Qed.

Lemma sort_from_perm (l acc : list A) :
  Permutation (fold_left (fun acc x => insert_by le x acc) l acc) (l ++ acc).
Proof.
  revert acc. induction l as [| x l IH]; intros acc; simpl.
  - apply Permutation_refl.
  - apply perm_trans with (l ++ insert_by le x acc); [apply IH |].
    apply perm_trans with (l ++ x :: acc).
    + apply Permutation_app_head. apply insert_by_perm.
    + apply Permutation_sym. apply Permutation_middle.
Qed.

Lemma sort_by_perm (l : list A) : Permutation (sort_by le l) l.
Proof.
  unfold sort_by. apply perm_trans with (l ++ []); [apply sort_from_perm |].
  rewrite app_nil_r. apply Permutation_refl.
Qed.

Lemma insert_by_hd (x a : A) (l : list A) :
  le_prop a x -> HdRel le_prop a l -> HdRel le_prop a (insert_by le x l).
Proof.
  intros Hax Hl. destruct l as [| y l]; simpl.
  - now constructor.
  - destruct (le y x); constructor; [now inversion Hl | exact Hax].
Qed.

Lemma insert_by_sorted (x : A) (l : list A) :
  Sorted le_prop l -> Sorted le_prop (insert_by le x l).
Proof.
  induction l as [| y l IH]; intros Hl; simpl.
  - repeat constructor.
  - inversion Hl as [| ? ? Hsorted Hhd]; subst.
    destruct (le y x) eqn:Hyx.
    + constructor; [now apply IH | now apply insert_by_hd].
    + constructor; [exact Hl |]. constructor.
      destruct (le_total x y) as [H | H]; [exact H | congruence].
Qed.

Lemma sort_from_sorted (l acc : list A) :
  Sorted le_prop acc ->
  Sorted le_prop (fold_left (fun acc x => insert_by le x acc) l acc).
Proof.
  revert acc. induction l as [| x l IH]; intros acc Hacc; simpl.
  - exact Hacc.
  - apply IH. now apply insert_by_sorted.
Qed.

Lemma sort_by_sorted (l : list A) : Sorted (fun x y => le x y = true) (sort_by le l).
Proof. unfold sort_by. apply sort_from_sorted. constructor. Qed.

End Sorting.

Lemma unique_go_in (x : string) (l seen : list string) :
  In x (unique_go seen l) <-> In x l /\ ~ In x seen.
Proof.
  revert seen. induction l as [| y l IH]; intros seen; simpl.
  - tauto.
  - destruct (existsb (String.eqb y) seen) eqn:Hseen.
    + apply existsb_exists in Hseen. destruct Hseen as (z & Hz & Hyz).
      apply String.eqb_eq in Hyz. subst z. rewrite IH.
      split; [tauto |]. intros [[-> | Hin] Hnot]; [contradiction | tauto].
    + assert (Hy : ~ In y seen).
      { intros Hin. apply Bool.not_true_iff_false in Hseen. apply Hseen.
        apply existsb_exists. exists y. split; [exact Hin | apply String.eqb_refl]. }
      simpl. rewrite IH. simpl.
      destruct (string_dec y x) as [-> | Hne]; [tauto |].
      split.
      * intros [Heq | [Hin Hnot]]; [contradiction | tauto].
      * intros [[Heq | Hin] Hnot]; [contradiction | right; tauto].
Qed.

Lemma unique_go_nodup (l seen : list string) : NoDup (unique_go seen l).
Proof.
  revert seen. induction l as [| y l IH]; intros seen; simpl.
  - constructor.
  - destruct (existsb (String.eqb y) seen); [apply IH |].
    constructor; [| apply IH].
    rewrite unique_go_in. simpl. tauto.
Qed.

Lemma unique_in (x : string) (l : list string) : In x (unique l) <-> In x l.
Proof. unfold unique. rewrite unique_go_in. simpl. tauto. Qed.

Lemma unique_nodup (l : list string) : NoDup (unique l).
Proof. apply unique_go_nodup. Qed.

Lemma loc_labels {V : Type} (p q : pivot V) (rows cols : list string) :
  loc p rows cols = Ok q -> pv_index q = rows /\ pv_columns q = cols.
Proof.
  unfold loc. intros H.
  apply bind_ok in H. destruct H as (rp & _ & H).
  apply bind_ok in H. destruct H as (cp & _ & H).
  inversion H. simpl. auto.
Qed.

Lemma map_fst_combine {A B : Type} (xs : list A) (ys : list B) :
  List.length xs = List.length ys -> map fst (combine xs ys) = xs.
Proof.
  revert ys. induction xs as [| x xs IH]; intros [| y ys] Hlen; simpl in *;
    try reflexivity; try discriminate.
  f_equal. apply IH. lia.
Qed.

Lemma pivot_table_labels {V : Type} (rows : list (metric_row V)) (p : pivot V) :
  pivot_table rows = Ok p ->
  pv_index p = sort_by String.leb (unique (map m_variable rows))
  /\ pv_columns p = sort_by String.leb (unique (map m_short_label rows))
  /\ List.length (pv_cells p) = List.length (pv_index p).
Proof.
  unfold pivot_table. destruct (has_duplicates rows); [discriminate |].
  intros H. inversion H. simpl. now rewrite length_map.
Qed.

Lemma sorted_labels (l : list string) (x : string) :
  (In x (sort_by String.leb (unique l)) <-> In x l)
  /\ NoDup (sort_by String.leb (unique l)).
Proof.
  pose proof (sort_by_perm String.leb (unique l)) as Hperm. split.
  - split; intros H.
    + apply unique_in. eapply Permutation_in; [exact Hperm | exact H].
    + apply unique_in in H.
      eapply Permutation_in; [apply Permutation_sym; exact Hperm | exact H].
  - eapply Permutation_NoDup; [apply Permutation_sym; exact Hperm | apply unique_nodup].
Qed.

Section GridOrder.

Context {V : Type} (leb : V -> V -> bool) (round : V -> V) (mean : list V -> V).
Hypothesis leb_total : forall x y, leb x y = true \/ leb y x = true.

Lemma key_le_total (a b : string * option V) :
  key_le leb a b = true \/ key_le leb b a = true.
Proof.
  unfold key_le. destruct (snd a) as [x |], (snd b) as [y |]; auto.
Qed.

Lemma sorted_index_spec (s : list (string * option V)) :
  exists keyed,
    Permutation keyed s
    /\ Sorted (fun a b => key_le leb a b = true) keyed
    /\ sorted_index leb s = map fst keyed.
Proof.
  exists (sort_by (key_le leb) s). split; [apply sort_by_perm |].
  split; [apply sort_by_sorted; apply key_le_total | reflexivity].
Qed.



(** The order of the four tables of a call that returns. *)
Lemma prepare_metrics_order_of_result
  (nrmse_data mpe_data r2_data gain_data : list (metric_row V))
  (treatment : string) (selected_variables selected_short_labels : list string)
  (p1 p2 p3 p4 : pivot V) :
  prepare_metrics_by_treatment leb round mean nrmse_data mpe_data r2_data gain_data
    treatment selected_variables selected_short_labels = Ok (p1, p2, p3, p4) ->
  ordered_by_nrmse leb round mean
    (selected_nrmse nrmse_data treatment selected_variables selected_short_labels)
    p1 p2 p3 p4.
Proof.
  intros H. unfold ordered_by_nrmse.
  set (selected := selected_nrmse nrmse_data treatment selected_variables
                     selected_short_labels).
  unfold prepare_metrics_by_treatment in H.
  change (filter _ nrmse_data) with selected in H.
  apply bind_ok in H. destruct H as (p0 & Hp0 & H).
  apply bind_ok in H. destruct H as (q1 & Hq1 & H).
  apply bind_ok in H. destruct H as (q2 & Hq2 & H).
  apply bind_ok in H. destruct H as (q3 & Hq3 & H).
  apply bind_ok in H. destruct H as (q4 & Hq4 & H).
  inversion H; subst q1 q2 q3 q4; clear H.
  apply bind_ok in Hq2. destruct Hq2 as (m2 & _ & Hq2).
  apply bind_ok in Hq3. destruct Hq3 as (m3 & _ & Hq3).
  apply bind_ok in Hq4. destruct Hq4 as (m4 & _ & Hq4).
  apply loc_labels in Hq1, Hq2, Hq3, Hq4.
  destruct Hq1 as [Hi1 Hc1], Hq2 as [Hi2 Hc2], Hq3 as [Hi3 Hc3], Hq4 as [Hi4 Hc4].
  destruct (pivot_table_labels _ _ Hp0) as (Hindex & Hcolumns & Hlen).
  destruct (sorted_index_spec (row_means mean (round_pivot round p0)))
    as (rk & Hrperm & Hrsorted & Hreq).
  destruct (sorted_index_spec (column_means mean (round_pivot round p0)))
    as (ck & Hcperm & Hcsorted & Hceq).
  assert (Hrows : Permutation (pv_index p1) (pv_index p0)).
  { rewrite Hi1, Hreq.
    apply perm_trans with (map fst (row_means mean (round_pivot round p0)));
      [now apply Permutation_map |].
    unfold row_means. simpl. rewrite map_fst_combine; [apply Permutation_refl |].
    now rewrite !length_map. }
  assert (Hcols : Permutation (pv_columns p1) (pv_columns p0)).
  { rewrite Hc1, Hceq.
    apply perm_trans with (map fst (column_means mean (round_pivot round p0)));
      [now apply Permutation_map |].
    unfold column_means. simpl. rewrite map_fst_combine; [apply Permutation_refl |].
    now rewrite length_map, length_seq. }
  exists p0. split; [exact Hp0 |].
  split; [repeat split; congruence |].
  split; [repeat split; congruence |].
  split; [exists rk; rewrite Hi1; auto |].
  split; [exists ck; rewrite Hc1; auto |].
  split.
  - split.
    + eapply Permutation_NoDup; [apply Permutation_sym; exact Hrows |].
      rewrite Hindex. apply sorted_labels. exact EmptyString.
    + intros v. split.
      * intros Hv. apply (Permutation_in _ Hrows) in Hv. rewrite Hindex in Hv.
        apply (proj1 (proj1 (sorted_labels (map m_variable selected) v))) in Hv.
        apply in_map_iff in Hv.
        destruct Hv as (r & <- & Hr). exists r. auto.
      * intros (r & Hr & <-). apply (Permutation_in _ (Permutation_sym Hrows)).
        rewrite Hindex.
        apply (proj2 (proj1 (sorted_labels (map m_variable selected) _))).
        now apply in_map.
  - split.
    + eapply Permutation_NoDup; [apply Permutation_sym; exact Hcols |].
      rewrite Hcolumns. apply sorted_labels. exact EmptyString.
    + intros l. split.
      * intros Hl. apply (Permutation_in _ Hcols) in Hl. rewrite Hcolumns in Hl.
        apply (proj1 (proj1 (sorted_labels (map m_short_label selected) l))) in Hl.
        apply in_map_iff in Hl.
        destruct Hl as (r & <- & Hr). exists r. auto.
      * intros (r & Hr & <-). apply (Permutation_in _ (Permutation_sym Hcols)).
        rewrite Hcolumns.
        apply (proj2 (proj1 (sorted_labels (map m_short_label selected) _))).
        now apply in_map.
Qed.


Lemma no_duplicates_selected (p : metric_row V -> bool) (t : string)
  (table : list (metric_row V)) :
  (forall r, p r = true -> m_treatment r = t) ->
  NoDup (map key3 table) ->
  has_duplicates (filter p table) = false.
Proof.
  intros Hp. induction table as [| r rest IH]; intros Hnd; simpl.
  - reflexivity.
  - inversion Hnd as [| ? ? Hnotin Hrest]; subst.
    destruct (p r) eqn:Hr; [| now apply IH].
    simpl. rewrite (IH Hrest), Bool.orb_false_r.
    destruct (existsb (at_key (m_variable r) (m_short_label r)) (filter p rest))
      eqn:Hex; [| reflexivity].
    exfalso. apply Hnotin.
    apply existsb_exists in Hex. destruct Hex as (r' & Hin & Hkey).
    apply filter_In in Hin. destruct Hin as [Hin Hr'].
    unfold at_key in Hkey. apply andb_prop in Hkey. destruct Hkey as [Hv Hl].
    apply String.eqb_eq in Hv, Hl.
    apply in_map_iff. exists r'. split; [| exact Hin].
    unfold key3. rewrite Hv, Hl, (Hp r Hr), (Hp r' Hr'). reflexivity.
Qed.

Lemma position_of_in (label : string) (labels : list string) :
  In label labels -> exists n, position_of label labels = Ok n.
Proof.
  induction labels as [| x rest IH]; intros Hin; [destruct Hin |]. simpl.
  destruct (String.eqb x label) eqn:Hx; [eauto |].
  destruct Hin as [-> | Hin]; [rewrite String.eqb_refl in Hx; discriminate |].
  destruct (IH Hin) as (n & ->). simpl. eauto.
Qed.

Lemma positions_in (wanted labels : list string) :
  (forall w, In w wanted -> In w labels) -> exists ns, positions wanted labels = Ok ns.
Proof.
  intros Hall. unfold positions.
  assert (Hgen : forall acc, exists ns,
            for_each (fun acc l => bind (position_of l labels)
                                     (fun n => Ok (acc ++ [n]))) wanted acc = Ok ns).
  { induction wanted as [| w ws IH]; intros acc; simpl; [eauto |].
    destruct (position_of_in w labels) as (n & ->); [apply Hall; now left |].
    simpl. apply IH. intros; apply Hall; now right. }
  apply Hgen.
Qed.

Lemma loc_returns (p : pivot V) (rows cols : list string) :
  (forall w, In w rows -> In w (pv_index p)) ->
  (forall w, In w cols -> In w (pv_columns p)) ->
  exists q, loc p rows cols = Ok q.
Proof.
  intros Hr Hc. unfold loc.
  destruct (positions_in rows (pv_index p) Hr) as (rp & ->).
  destruct (positions_in cols (pv_columns p) Hc) as (cp & ->).
  simpl. eauto.
Qed.

Lemma sorted_index_in (s : list (string * option V)) (x : string) :
  In x (sorted_index leb s) -> In x (map fst s).
Proof.
  unfold sorted_index. intros H.
  eapply Permutation_in; [| exact H].
  apply Permutation_map. apply sort_by_perm.
Qed.

(** A call returns when each table holds a key (variable, calibration label,
    treatment) at most once and the other three tables hold the keys of the
    NRMSE table. *)
Lemma prepare_metrics_returns
  (nrmse_data mpe_data r2_data gain_data : list (metric_row V))
  (treatment : string) (selected_variables selected_short_labels : list string) :
  NoDup (map key3 nrmse_data) -> NoDup (map key3 mpe_data) ->
  NoDup (map key3 r2_data) -> NoDup (map key3 gain_data) ->
  (forall r, In r nrmse_data ->
     In (key3 r) (map key3 mpe_data) /\ In (key3 r) (map key3 r2_data)
     /\ In (key3 r) (map key3 gain_data)) ->
  exists tables,
    prepare_metrics_by_treatment leb round mean nrmse_data mpe_data r2_data gain_data
      treatment selected_variables selected_short_labels = Ok tables.
Proof.
  intros N1 N2 N3 N4 Hkeys. unfold prepare_metrics_by_treatment.
  set (sel1 := fun r : metric_row V =>
                 isin selected_short_labels (m_short_label r)
                 && String.eqb (m_treatment r) treatment
                 && isin selected_variables (m_variable r)).
  set (sel2 := fun r : metric_row V =>
                 String.eqb (m_treatment r) treatment
                 && isin selected_variables (m_variable r)
                 && isin selected_short_labels (m_short_label r)).
  assert (Hsel1 : forall r, sel1 r = true -> m_treatment r = treatment).
  { intros r H. unfold sel1 in H. apply andb_prop in H. destruct H as [H _].
    apply andb_prop in H. destruct H as [_ H]. now apply String.eqb_eq in H. }
  assert (Hsel2 : forall r, sel2 r = true -> m_treatment r = treatment).
  { intros r H. unfold sel2 in H. apply andb_prop in H. destruct H as [H _].
    apply andb_prop in H. destruct H as [H _]. now apply String.eqb_eq in H. }
  assert (Hsame : forall r r' : metric_row V,
            key3 r = key3 r' -> sel1 r = true -> sel2 r' = true).
  { intros r r' Hk H. unfold key3 in Hk. inversion Hk as [[Hv Hl Ht]].
    unfold sel1 in H. unfold sel2. rewrite <- Hv, <- Hl, <- Ht.
    apply andb_prop in H. destruct H as [H H3]. apply andb_prop in H.
    destruct H as [H1 H2]. now rewrite H1, H2, H3. }
  assert (Hpivot : forall (p : metric_row V -> bool) (table : list (metric_row V)),
            (forall r, p r = true -> m_treatment r = treatment) ->
            NoDup (map key3 table) -> exists q, pivot_table (filter p table) = Ok q).
  { intros p table Hp Hnd. unfold pivot_table.
    rewrite (no_duplicates_selected p treatment table Hp Hnd). eauto. }
  destruct (Hpivot sel1 nrmse_data Hsel1 N1) as (p0 & Hp0). rewrite Hp0. simpl.
  destruct (pivot_table_labels _ _ Hp0) as (Hi0 & Hc0 & Hlen0).
  set (rows := sorted_index leb (row_means mean (round_pivot round p0))).
  set (cols := sorted_index leb (column_means mean (round_pivot round p0))).
  assert (Hrows : forall w, In w rows -> In w (map m_variable (filter sel1 nrmse_data))).
  { intros w Hw. apply sorted_index_in in Hw. unfold row_means in Hw. simpl in Hw.
    rewrite map_fst_combine in Hw by now rewrite !length_map.
    rewrite Hi0 in Hw. exact (proj1 (proj1 (sorted_labels _ w)) Hw). }
  assert (Hcols : forall w, In w cols -> In w (map m_short_label (filter sel1 nrmse_data))).
  { intros w Hw. apply sorted_index_in in Hw. unfold column_means in Hw. simpl in Hw.
    rewrite map_fst_combine in Hw by now rewrite length_map, length_seq.
    rewrite Hc0 in Hw. exact (proj1 (proj1 (sorted_labels _ w)) Hw). }
  destruct (loc_returns (round_pivot round p0) rows cols) as (q1 & ->).
  { intros w Hw. simpl. rewrite Hi0. apply (proj2 (proj1 (sorted_labels _ w))). now apply Hrows. }
  { intros w Hw. simpl. rewrite Hc0. apply (proj2 (proj1 (sorted_labels _ w))). now apply Hcols. }
  simpl.
  assert (Hother : forall table : list (metric_row V),
            NoDup (map key3 table) ->
            (forall r, In r nrmse_data -> In (key3 r) (map key3 table)) ->
            exists q, bind (pivot_table (filter sel2 table))
                        (fun p => loc p rows cols) = Ok q).
  { intros table Hnd Hin.
    destruct (Hpivot sel2 table Hsel2 Hnd) as (p & Hp). rewrite Hp. simpl.
    destruct (pivot_table_labels _ _ Hp) as (Hi & Hc & _).
    assert (Hcover : forall r, In r (filter sel1 nrmse_data) ->
                       exists r', In r' (filter sel2 table) /\ key3 r' = key3 r).
    { intros r Hr. apply filter_In in Hr. destruct Hr as [Hr Hs].
      specialize (Hin r Hr). apply in_map_iff in Hin. destruct Hin as (r' & Hk & Hr').
      exists r'. split; [| exact Hk]. apply filter_In. split; [exact Hr' |].
      now apply (Hsame r r'). }
    apply loc_returns.
    - intros w Hw. rewrite Hi. apply (proj2 (proj1 (sorted_labels _ w))).
      apply Hrows in Hw. apply in_map_iff in Hw. destruct Hw as (r & <- & Hr).
      destruct (Hcover r Hr) as (r' & Hr' & Hk).
      replace (m_variable r) with (m_variable r') by (unfold key3 in Hk; congruence).
      now apply in_map.
    - intros w Hw. rewrite Hc. apply (proj2 (proj1 (sorted_labels _ w))).
      apply Hcols in Hw. apply in_map_iff in Hw. destruct Hw as (r & <- & Hr).
      destruct (Hcover r Hr) as (r' & Hr' & Hk).
      replace (m_short_label r) with (m_short_label r')
        by (unfold key3 in Hk; congruence).
      now apply in_map. }
  destruct (Hother mpe_data N2) as (q2 & ->); [intros r Hr; apply (Hkeys r Hr) |].
  destruct (Hother r2_data N3) as (q3 & ->); [intros r Hr; apply (Hkeys r Hr) |].
  destruct (Hother gain_data N4) as (q4 & ->); [intros r Hr; apply (Hkeys r Hr) |].
  simpl. eauto.
Qed.

End GridOrder.

(* ------------------------------------------------------------------ *)
(** ** load_prepare_time_series_data: the join and the missing DAP *)

Import TimeSeries.

Lemma forall2_in_r {A B : Type} (R : A -> B -> Prop) (xs : list A) (ys : list B) (y : B) :
  Forall2 R xs ys -> In y ys -> exists x, In x xs /\ R x y.
Proof.
  intros H. induction H as [| a b xs ys Hab _ IH]; intros Hin; [destruct Hin |].
  destruct Hin as [<- | Hin].
  - exists a. split; [now left | exact Hab].
  - destruct (IH Hin) as (x & Hx & Hr). exists x. split; [now right | exact Hr].
Qed.

Lemma forall2_in_l {A B : Type} (R : A -> B -> Prop) (xs : list A) (ys : list B) (x : A) :
  Forall2 R xs ys -> In x xs -> exists y, In y ys /\ R x y.
Proof.
  intros H. induction H as [| a b xs ys Hab _ IH]; intros Hin; [destruct Hin |].
  destruct Hin as [<- | Hin].
  - exists b. split; [now left | exact Hab].
  - destruct (IH Hin) as (y & Hy & Hr). exists y. split; [now right | exact Hr].
Qed.

Lemma mapping_row_of_run (tnn ten : dict string) (item : string * string)
  (m : mapping_row) :
  In item ten -> mapping_row_of tnn item = Ok m -> run_of tnn ten m.
Proof.
  intros Hin H. destruct item as [sim_id experiment_id]. unfold mapping_row_of in H.
  apply bind_ok in H. destruct H as (code & Hcode & H).
  apply bind_ok in H. destruct H as ([treat geno] & Hsplit & H).
  apply bind_ok in H. destruct H as (n & Hn & H).
  inversion H; subst m; clear H. unfold run_of. simpl.
  exists code. unfold dict_index in Hcode.
  destruct (dict_get sim_id tnn) as [c |]; [| discriminate Hcode].
  inversion Hcode; subst c. auto.
Qed.

Lemma run_of_mapping_row (tnn ten : dict string) (m : mapping_row) :
  run_of tnn ten m ->
  In (mp_sim_id m, mp_experiment_id m) ten
  /\ mapping_row_of tnn (mp_sim_id m, mp_experiment_id m) = Ok m.
Proof.
  intros (code & Hin & Hcode & Hn & Hsplit). split; [exact Hin |].
  unfold mapping_row_of, dict_index. rewrite Hcode. simpl.
  rewrite Hsplit. simpl. rewrite Hn. simpl. destruct m; reflexivity.
Qed.

Lemma merge_mapping_row_in (df : list mapping_row) (n : Z) (w : wht_row)
  (r : merged_row) :
  In r (merge_mapping_row df (n, w)) ->
  mr_TRNO r = n /\ mr_DATE r = w_DATE w /\ mr_experiment_id r = w_experiment_id w
  /\ mr_cells r = w_cells w /\ mr_DAS r = None /\ mr_DAP r = None
  /\ match mr_run r with
     | Some m => In m df /\ same_run n w m = true
     | None => True
     end.
Proof.
  unfold merge_mapping_row.
  destruct (filter (same_run n w) df) as [| m0 ms] eqn:Hf.
  - intros [<- | []]. simpl. auto 10.
  - intros Hin. apply in_map_iff in Hin. destruct Hin as (m & <- & Hm). simpl.
    rewrite <- Hf in Hm. apply filter_In in Hm. auto 10.
Qed.

Lemma merge_mapping_row_has (df : list mapping_row) (n : Z) (w : wht_row)
  (m : mapping_row) :
  In m df -> same_run n w m = true ->
  In (mk_merged_row n (w_DATE w) (w_experiment_id w) (w_cells w) (Some m) None None)
    (merge_mapping_row df (n, w)).
Proof.
  intros Hin Hsame. unfold merge_mapping_row.
  assert (Hm : In m (filter (same_run n w) df)) by (apply filter_In; auto).
  destruct (filter (same_run n w) df) as [| m0 ms]; [destruct Hm |].
  apply in_map_iff. exists m. auto.
Qed.

Lemma drop_duplicates_in (p : plantgro_row) (rows seen : list plantgro_row) :
  In p (drop_duplicates seen rows) -> In p rows.
Proof.
  revert seen. induction rows as [| q rows IH]; intros seen; simpl; [tauto |].
  destruct (existsb (same_timing q) seen).
  - intros H. right. now apply (IH seen).
  - intros [-> | H]; [now left | right]. now apply (IH (q :: seen)).
Qed.

Lemma merge_timing_row_in (timing : list plantgro_row) (r r' : merged_row) :
  In r' (merge_timing_row timing r) ->
  mr_TRNO r' = mr_TRNO r /\ mr_DATE r' = mr_DATE r
  /\ mr_experiment_id r' = mr_experiment_id r /\ mr_cells r' = mr_cells r
  /\ mr_run r' = mr_run r
  /\ ((mr_DAS r' = None /\ mr_DAP r' = None)
      \/ exists p, In p timing /\ timing_match r p = true
                   /\ mr_DAS r' = pg_DAS p /\ mr_DAP r' = pg_DAP p).
Proof.
  unfold merge_timing_row.
  destruct (filter (timing_match r) timing) as [| p0 ps] eqn:Hf.
  - intros [<- | []]. simpl. auto 10.
  - intros Hin. apply in_map_iff in Hin. destruct Hin as (p & <- & Hp). simpl.
    rewrite <- Hf in Hp. apply filter_In in Hp.
    repeat split; auto. right. exists p. tauto.
Qed.

Lemma merge_timing_row_has (timing : list plantgro_row) (r : merged_row) :
  exists r', In r' (merge_timing_row timing r)
    /\ mr_TRNO r' = mr_TRNO r /\ mr_DATE r' = mr_DATE r
    /\ mr_experiment_id r' = mr_experiment_id r /\ mr_cells r' = mr_cells r
    /\ mr_run r' = mr_run r.
Proof.
  unfold merge_timing_row.
  destruct (filter (timing_match r) timing) as [| p0 ps].
  - eexists. split; [now left | simpl; auto].
  - eexists. split; [now left | simpl; auto].
Qed.

Lemma fold_min_spec (rest : list Z) (d : Z) :
  In (fold_left Z.min rest d) (d :: rest)
  /\ forall x, In x (d :: rest) -> (fold_left Z.min rest d <= x)%Z.
Proof.
  revert d. induction rest as [| y rest IH]; intros d; simpl.
  - split; [now left |]. intros x [<- | []]. lia.
  - destruct (IH (Z.min d y)) as [Hin Hle]. split.
    + destruct Hin as [Heq | Hin]; [| now right; right].
      rewrite <- Heq. destruct (Z.min_spec d y) as [[_ ->] | [_ ->]]; auto.
    + intros x [Hx | [Hx | Hx]].
      * specialize (Hle (Z.min d y) (or_introl eq_refl)). lia.
      * specialize (Hle (Z.min d y) (or_introl eq_refl)). lia.
      * apply Hle. now right.
Qed.

Lemma earliest_spec (dates : list Z) : is_earliest dates (earliest dates).
Proof.
  destruct dates as [| d rest]; simpl; [reflexivity |].
  apply fold_min_spec.
Qed.

Lemma fill_dap_filled (reference : option Z) (r r' : merged_row) :
  fill_dap reference r = Ok r' -> dap_filled reference r r'.
Proof.
  unfold fill_dap. intros H. apply bind_ok in H. destruct H as (day & Hday & H).
  inversion H; subst r'; clear H. unfold dap_filled. simpl.
  repeat split. destruct (mr_DAP r); [reflexivity |]. exists day. auto.
Qed.

Lemma same_run_eq (n : Z) (w : wht_row) (m : mapping_row) :
  same_run n w m = true
  <-> w_experiment_id w = mp_experiment_id m /\ n = mp_treatment_number m.
Proof.
  unfold same_run. rewrite Bool.andb_true_iff, String.eqb_eq, Z.eqb_eq. tauto.
Qed.

(** The frame after the two merges: a join on experiment id and treatment
    number, restricted to the requested treatment, with the timing columns
    of the PlantGro row of the same date, treatment and genotype. *)
Lemma enrich_join (plantgro_df : list plantgro_row) (wht_full_df : list wht_row)
  (tnn ten : dict string) (treatment : string) (mid : list merged_row) :
  enrich plantgro_df wht_full_df tnn ten treatment = Ok mid ->
  (forall r, In r mid ->
     exists w m,
       In w wht_full_df /\ run_of tnn ten m /\ measurement_of w m r
       /\ w_experiment_id w = mp_experiment_id m
       /\ mr_TRNO r = mp_treatment_number m
       /\ mp_treatment m = treatment)
  /\ (forall w m,
        In w wht_full_df -> run_of tnn ten m ->
        w_experiment_id w = mp_experiment_id m ->
        py_int (w_TRNO w) = Ok (mp_treatment_number m) ->
        mp_treatment m = treatment ->
        exists r, In r mid /\ measurement_of w m r)
  /\ (forall r, In r mid ->
        (mr_DAS r = None /\ mr_DAP r = None)
        \/ exists p m,
             In p plantgro_df /\ mr_run r = Some m
             /\ pg_DATE p = mr_DATE r /\ pg_treatment p = mp_treatment m
             /\ pg_genotype p = mp_genotype m
             /\ mr_DAS r = pg_DAS p /\ mr_DAP r = pg_DAP p).
Proof.
  unfold enrich. intros H.
  apply bind_ok in H. destruct H as (df & Hdf & H).
  apply bind_ok in H. destruct H as (wht & Hwht & H).
  assert (Hmid : mid = flat_map (merge_timing_row (timing_df plantgro_df))
                         (filter (of_treatment treatment)
                            (flat_map (merge_mapping_row df) wht))).
  { destruct df; [discriminate H | now inversion H]. }
  clear H. unfold mapping_rows in Hdf. apply collect_ok in Hdf.
  destruct Hdf as (df' & Heq & Hdf). simpl in Heq. subst df'.
  unfold trno_as_int in Hwht. apply collect_ok in Hwht.
  destruct Hwht as (wht' & Heq & Hwht). simpl in Heq. subst wht'.
  split; [| split].
  - intros r Hr. rewrite Hmid in Hr. apply in_flat_map in Hr.
    destruct Hr as (r0 & Hr0 & Hr).
    apply filter_In in Hr0. destruct Hr0 as [Hr0 Htreat].
    apply in_flat_map in Hr0. destruct Hr0 as ([n w] & Hnw & Hr0).
    destruct (forall2_in_r _ _ _ _ Hwht Hnw) as (w0 & Hw0 & Htrno).
    unfold trno_of in Htrno. apply bind_ok in Htrno.
    destruct Htrno as (n0 & Hn0 & Heq). inversion Heq; subst n0 w0; clear Heq.
    apply merge_mapping_row_in in Hr0.
    destruct Hr0 as (Ht0 & Hd0 & He0 & Hc0 & _ & _ & Hrun0).
    apply merge_timing_row_in in Hr.
    destruct Hr as (Ht & Hd & He & Hc & Hrun & _).
    unfold of_treatment in Htreat.
    destruct (mr_run r0) as [m |] eqn:Hm; [| discriminate Htreat].
    destruct Hrun0 as [Hin Hsame]. apply same_run_eq in Hsame.
    destruct Hsame as [Hexp Hnum]. apply String.eqb_eq in Htreat.
    destruct (forall2_in_r _ _ _ _ Hdf Hin) as (item & Hitem & Hrow).
    exists w, m. split; [exact Hw0 |].
    split; [now apply (mapping_row_of_run tnn ten item) |].
    split; [unfold measurement_of; repeat split; congruence |].
    repeat split; congruence.
  - intros w m Hw Hrun Hexp Hnum Htreat.
    apply run_of_mapping_row in Hrun. destruct Hrun as [Hitem Hrow].
    destruct (forall2_in_l _ _ _ _ Hdf Hitem) as (m' & Hm' & Hrow').
    assert (m' = m) by congruence. subst m'.
    destruct (forall2_in_l _ _ _ _ Hwht Hw) as ([n w'] & Hnw & Htrno).
    unfold trno_of in Htrno. rewrite Hnum in Htrno. simpl in Htrno.
    inversion Htrno; subst n w'; clear Htrno.
    set (r0 := mk_merged_row (mp_treatment_number m) (w_DATE w) (w_experiment_id w)
                 (w_cells w) (Some m) None None).
    destruct (merge_timing_row_has (timing_df plantgro_df) r0)
      as (r & Hr & Ht & Hd & He & Hc & Hr_run).
    exists r. split.
    + rewrite Hmid. apply in_flat_map. exists r0. split; [| exact Hr].
      apply filter_In. split.
      * apply in_flat_map. exists (mp_treatment_number m, w). split; [exact Hnw |].
        apply merge_mapping_row_has; [exact Hm' |]. now apply same_run_eq.
      * unfold of_treatment. simpl. now apply String.eqb_eq.
    + unfold measurement_of. rewrite Ht, Hd, He, Hc, Hr_run. simpl. auto.
  - intros r Hr. rewrite Hmid in Hr. apply in_flat_map in Hr.
    destruct Hr as (r0 & _ & Hr). apply merge_timing_row_in in Hr.
    destruct Hr as (_ & Hd & _ & _ & Hrun & [Hnone | (p & Hp & Hmatch & Hdas & Hdap)]);
      [now left | right].
    unfold timing_match in Hmatch.
    destruct (mr_run r0) as [m |] eqn:Hm; [| discriminate Hmatch].
    apply andb_prop in Hmatch. destruct Hmatch as [Hmatch Hg].
    apply andb_prop in Hmatch. destruct Hmatch as [Hdate Ht].
    apply String.eqb_eq in Hdate, Ht, Hg.
    exists p, m. split; [now apply drop_duplicates_in in Hp |].
    repeat split; congruence.
Qed.

(** C3. The measurement rows are the WHT rows joined to the simulated runs
    on experiment id and treatment number (TRNO), for the requested
    treatment: every row comes from such a pair and every such pair gives a
    row; a row gets DAS and DAP from the PlantGro row of its date, treatment
    and genotype; and then a row whose DAP is still missing gets the number
    of days from the earliest simulated date with DAP 0 to its own date,
    while a row whose DAP is present keeps it. *)
Theorem load_prepare_time_series_data_dap (plantgro_df : list plantgro_row)
  (wht_full_df : list wht_row) (treatment_number_name treatment_experiment_name : dict string)
  (treatment : string) (out : list merged_row) :
  load_prepare_time_series_data plantgro_df wht_full_df treatment_number_name
    treatment_experiment_name treatment = Ok out ->
  exists mid dates,
    enrich plantgro_df wht_full_df treatment_number_name treatment_experiment_name
      treatment = Ok mid
    /\ (forall r, In r mid ->
          exists w m,
            In w wht_full_df
            /\ run_of treatment_number_name treatment_experiment_name m
            /\ measurement_of w m r
            /\ w_experiment_id w = mp_experiment_id m
            /\ mr_TRNO r = mp_treatment_number m
            /\ mp_treatment m = treatment)
    /\ (forall w m,
          In w wht_full_df ->
          run_of treatment_number_name treatment_experiment_name m ->
          w_experiment_id w = mp_experiment_id m ->
          py_int (w_TRNO w) = Ok (mp_treatment_number m) ->
          mp_treatment m = treatment ->
          exists r, In r mid /\ measurement_of w m r)
    /\ (forall r, In r mid ->
          (mr_DAS r = None /\ mr_DAP r = None)
          \/ exists p m,
               In p plantgro_df /\ mr_run r = Some m
               /\ pg_DATE p = mr_DATE r /\ pg_treatment p = mp_treatment m
               /\ pg_genotype p = mp_genotype m
               /\ mr_DAS r = pg_DAS p /\ mr_DAP r = pg_DAP p)
    /\ Forall2 (fun s d => to_datetime s = Ok d)
         (unique (map pg_DATE
                    (filter (fun p => match pg_DAP p with
                                      | Some d => Z.eqb d 0
                                      | None => false
                                      end) plantgro_df)))
         dates
    /\ is_earliest dates (earliest dates)
    /\ Forall2 (dap_filled (earliest dates)) mid out.
Proof.
  unfold load_prepare_time_series_data. intros H.
  apply bind_ok in H. destruct H as (dates & Hdates & H).
  apply bind_ok in H. destruct H as (mid & Hmid & H).
  exists mid, dates. split; [exact Hmid |].
  destruct (enrich_join _ _ _ _ _ _ Hmid) as (Hsound & Hcomplete & Htiming).
  split; [exact Hsound |]. split; [exact Hcomplete |]. split; [exact Htiming |].
  unfold dap0_dates_dt in Hdates. apply collect_ok in Hdates.
  destruct Hdates as (ds & Heq & Hds). simpl in Heq. subst ds.
  split; [exact Hds |]. split; [apply earliest_spec |].
  apply collect_ok in H. destruct H as (rs & Heq & Hrs). simpl in Heq. subst rs.
  clear - Hrs. induction Hrs; constructor; auto. now apply fill_dap_filled.
Qed.


Lemma load_prepare_time_series_data_dap_witness :
  exists mid dates,
    enrich ts_plantgro ts_wht [("WW23_G1", "1"); ("WW23_G2", "2")]
      [("WW23_G1", "EXP1"); ("WW23_G2", "EXP1")] "WW23" = Ok mid
    /\ earliest dates = Some (ordinal 2022 98)
    /\ Forall2 (dap_filled (earliest dates)) mid ts_out.
Proof.
  destruct (load_prepare_time_series_data_dap ts_plantgro ts_wht
              [("WW23_G1", "1"); ("WW23_G2", "2")]
              [("WW23_G1", "EXP1"); ("WW23_G2", "EXP1")] "WW23" ts_out)
    as (mid & dates & Hmid & _ & _ & _ & Hdates & _ & Hfill).
  - vm_compute. reflexivity.
  - exists mid, dates. split; [exact Hmid |]. split; [| exact Hfill].
    match type of Hdates with
    | Forall2 _ ?l _ =>
        assert (Hl : l = ["2022100"; "2022098"]) by (vm_compute; reflexivity);
        rewrite Hl in Hdates
    end.
    inversion Hdates as [| ? d1 ? ds1 H1 Hrest]; subst.
    inversion Hrest as [| ? d2 ? ds2 H2 Hnil]; subst.
    inversion Hnil; subst.
    vm_compute in H1. vm_compute in H2.
    inversion H1; inversion H2; subst. reflexivity.
Defined.

(* ------------------------------------------------------------------ *)
(** ** simulations_lines: the two loops *)

Lemma scan_lines_from (l : list (nat * string)) (a : list nat) (b : list (nat * string)) :
  fold_left scan_line l (a, b)
  = (a ++ map fst (filter (fun il => contains "*DSSAT" (snd il)) l),
     b ++ map (fun il => (fst il, strip (snd il)))
            (filter (fun il => startswith "TREATMENT" (strip (snd il))) l)).
Proof.
  revert a b. induction l as [| [i line] l IH]; intros a b; simpl.
  - now rewrite !app_nil_r.
  - rewrite IH.
    destruct (contains "*DSSAT" line), (startswith "TREATMENT" (strip line)); simpl;
      now rewrite <- ?app_assoc.
Qed.

Lemma scan_lines_spec (lines : list string) :
  fold_left scan_line (enumerate lines) ([], [])
  = (dssat_indices lines, treatment_lines lines).
Proof. apply scan_lines_from. Qed.

(** The second loop visits the ranges of the blocks in order. *)
Lemma block_loop_ranges (n : nat) (runs : list (nat * string))
  (pre suf : list nat) (d : dict (nat * nat)) :
  for_each (block_step n (pre ++ suf) runs)
    (combine (seq (List.length pre) (List.length suf)) suf) d
  = for_each (range_step runs) (ranges n suf) d.
Proof.
  revert pre d. induction suf as [| s suf IH]; intros pre d; [reflexivity |].
  cbn [List.length seq combine for_each ranges].
  assert (Hstep : block_step n (pre ++ s :: suf) runs d (List.length pre, s)
                  = range_step runs d (s, match suf with
                                          | [] => n
                                          | next :: _ => next - 1
                                          end)).
  { unfold block_step, range_step. cbn [fst snd].
    rewrite length_app. cbn [List.length].
    destruct suf as [| next suf'].
    - cbn [List.length].
      destruct (Nat.ltb_spec (List.length pre) (List.length pre + 1 - 1)); [lia |].
      reflexivity.
    - cbn [List.length].
      destruct (Nat.ltb_spec (List.length pre)
                  (List.length pre + S (S (List.length suf')) - 1)); [| lia].
      unfold index. rewrite nth_error_app2 by lia.
      replace (List.length pre + 1 - List.length pre) with 1 by lia.
      reflexivity. }
  rewrite Hstep.
  destruct (range_step runs d _) as [d' | err]; [| reflexivity]. cbn [bind].
  specialize (IH (pre ++ [s]) d'). rewrite <- app_assoc in IH. cbn [app] in IH.
  rewrite length_app in IH. cbn [List.length] in IH.
  replace (List.length pre + 1) with (S (List.length pre)) in IH by lia.
  exact IH.
Qed.

Lemma simulations_lines_ranges (lines : list string) :
  simulations_lines lines
  = for_each (range_step (treatment_lines lines))
      (ranges (List.length lines) (dssat_indices lines)) [].
Proof.
  unfold simulations_lines. rewrite scan_lines_spec.
  apply (block_loop_ranges (List.length lines) (treatment_lines lines) []).
Qed.

(* ------------------------------------------------------------------ *)
(** ** Lines and their indices *)

Lemma in_enumerate_from {A : Type} (l : list A) (k i : nat) (x : A) :
  In (i, x) (combine (seq k (List.length l)) l)
  <-> k <= i /\ nth_error l (i - k) = Some x.
Proof.
  revert k. induction l as [| y l IH]; intros k; simpl.
  - split; [tauto |]. intros [_ H]. destruct (i - k); discriminate H.
  - rewrite IH. split.
    + intros [H | [Hk Hnth]].
      * inversion H; subst. split; [lia |]. now rewrite Nat.sub_diag.
      * split; [lia |]. replace (i - k) with (S (i - S k)) by lia. exact Hnth.
    + intros [Hk Hnth]. destruct (Nat.eq_dec i k) as [-> | Hne].
      * left. rewrite Nat.sub_diag in Hnth. simpl in Hnth. congruence.
      * right. split; [lia |].
        replace (i - k) with (S (i - S k)) in Hnth by lia. exact Hnth.
Qed.

Lemma in_enumerate {A : Type} (l : list A) (i : nat) (x : A) :
  In (i, x) (enumerate l) <-> nth_error l i = Some x.
Proof.
  unfold enumerate. rewrite in_enumerate_from, Nat.sub_0_r.
  split; [tauto | intros; split; [lia | assumption]].
Qed.


Lemma enumerate_from_sorted {A : Type} (l : list A) (k : nat) :
  StronglySorted before (combine (seq k (List.length l)) l).
Proof.
  revert k. induction l as [| y l IH]; intros k; simpl; constructor.
  - apply IH.
  - apply Forall_forall. intros [i x] Hin.
    apply in_enumerate_from in Hin. unfold before. simpl. lia.
Qed.

Lemma filter_sorted {A : Type} (R : A -> A -> Prop) (p : A -> bool) (l : list A) :
  StronglySorted R l -> StronglySorted R (filter p l).
Proof.
  induction 1 as [| x l Hl IH Hx]; simpl; [constructor |].
  destruct (p x); [| exact IH].
  constructor; [exact IH |].
  apply Forall_forall. intros y Hy. apply filter_In in Hy.
  rewrite Forall_forall in Hx. now apply Hx.
Qed.

Lemma map_sorted {A B : Type} (R : A -> A -> Prop) (Q : B -> B -> Prop)
  (f : A -> B) (l : list A) :
  (forall x y, R x y -> Q (f x) (f y)) ->
  StronglySorted R l -> StronglySorted Q (map f l).
Proof.
  intros Hf. induction 1 as [| x l Hl IH Hx]; simpl; constructor; [exact IH |].
  apply Forall_forall. intros y Hy. apply in_map_iff in Hy.
  destruct Hy as (z & <- & Hz). rewrite Forall_forall in Hx. auto.
Qed.

Lemma dssat_indices_in (lines : list string) (i : nat) :
  In i (dssat_indices lines) <-> dssat_at lines i.
Proof.
  unfold dssat_indices, dssat_at. rewrite in_map_iff. split.
  - intros ([j raw] & Hj & Hin). simpl in Hj. subst j.
    apply filter_In in Hin. destruct Hin as [Hin Hc].
    apply in_enumerate in Hin. exists raw. auto.
  - intros (raw & Hnth & Hc). exists (i, raw). split; [reflexivity |].
    apply filter_In. split; [now apply in_enumerate | exact Hc].
Qed.

Lemma dssat_indices_sorted (lines : list string) :
  StronglySorted lt (dssat_indices lines).
Proof.
  unfold dssat_indices.
  apply map_sorted with (R := before); [auto |].
  apply filter_sorted. apply enumerate_from_sorted.
Qed.

Lemma treatment_lines_in (lines : list string) (j : nat) (l : string) :
  In (j, l) (treatment_lines lines)
  <-> exists raw, nth_error lines j = Some raw
        /\ startswith "TREATMENT" (strip raw) = true /\ l = strip raw.
Proof.
  unfold treatment_lines. rewrite in_map_iff. split.
  - intros ([i raw] & Heq & Hin). simpl in Heq. inversion Heq; subst.
    apply filter_In in Hin. destruct Hin as [Hin Hc].
    apply in_enumerate in Hin. exists raw. auto.
  - intros (raw & Hnth & Hc & ->). exists (j, raw). split; [reflexivity |].
    apply filter_In. split; [now apply in_enumerate | exact Hc].
Qed.

Lemma treatment_lines_sorted (lines : list string) :
  StronglySorted before (treatment_lines lines).
Proof.
  unfold treatment_lines.
  apply map_sorted with (R := before); [auto |].
  apply filter_sorted. apply enumerate_from_sorted.
Qed.

(* ------------------------------------------------------------------ *)
(** ** The ranges of the blocks *)

Lemma ranges_in (n : nat) (ds : list nat) (s e : nat) :
  StronglySorted lt ds -> In (s, e) (ranges n ds) ->
  In s ds
  /\ ((exists next, In next ds /\ s < next /\ e = next - 1
                    /\ forall k, In k ds -> k <= s \/ next <= k)
      \/ (e = n /\ forall k, In k ds -> k <= s)).
Proof.
  induction 1 as [| a rest Hsorted IH Ha]; intros Hin; [destruct Hin |].
  rewrite Forall_forall in Ha. cbn [ranges] in Hin. destruct Hin as [Heq | Hin].
  - inversion Heq; subst s. split; [now left |].
    destruct rest as [| next rest'].
    + right. split; [congruence |]. intros k [<- | []]. lia.
    + left. exists next. inversion Hsorted as [| ? ? _ Hnext]; subst.
      rewrite Forall_forall in Hnext.
      split; [right; now left |]. split; [apply Ha; now left |].
      split; [congruence |].
      intros k [<- | [<- | Hk]]; [left; lia | right; lia |].
      right. specialize (Hnext k Hk). lia.
  - destruct (IH Hin) as (Hs & Hcases). split; [now right |].
    specialize (Ha s Hs).
    destruct Hcases as [(next & Hnext & Hlt & He & Hgap) | (He & Hlast)].
    + left. exists next. split; [now right |]. repeat split; auto.
      intros k [<- | Hk]; [left; lia | now apply Hgap].
    + right. split; [exact He |]. intros k [<- | Hk]; [lia | now apply Hlast].
Qed.

Lemma ranges_start (n : nat) (ds : list nat) (s : nat) :
  In s ds -> exists e, In (s, e) (ranges n ds).
Proof.
  induction ds as [| a rest IH]; intros Hin; [destruct Hin |].
  cbn [ranges]. destruct Hin as [-> | Hin].
  - eexists. now left.
  - destruct (IH Hin) as (e & He). exists e. now right.
Qed.

Lemma ranges_sorted (n : nat) (ds : list nat) :
  StronglySorted lt ds -> StronglySorted before (ranges n ds).
Proof.
  induction 1 as [| a rest Hsorted IH Ha]; cbn [ranges]; constructor; [exact IH |].
  apply Forall_forall. intros [s e] Hin.
  apply (ranges_in n rest s e Hsorted) in Hin. destruct Hin as [Hs _].
  rewrite Forall_forall in Ha. unfold before. simpl. now apply Ha.
Qed.

Lemma block_range_unique (lines : list string) (s e e' : nat) :
  block_range lines s e -> block_range lines s e' -> e = e'.
Proof.
  intros [Hs [(Hle & Hnext & Hgap) | (He & Hlast)]]
         [_ [(Hle' & Hnext' & Hgap') | (He' & Hlast')]].
  - destruct (Nat.lt_trichotomy e e') as [Hlt | [Heq | Hgt]]; [| exact Heq |].
    + exfalso. apply (Hgap' (S e)); [lia | exact Hnext].
    + exfalso. apply (Hgap (S e')); [lia | exact Hnext'].
  - exfalso. apply (Hlast' (S e)); [lia | exact Hnext].
  - exfalso. apply (Hlast (S e')); [lia | exact Hnext'].
  - congruence.
Qed.

(** The ranges the second loop visits are the ranges of the blocks. *)
Lemma ranges_block (lines : list string) (s e : nat) :
  In (s, e) (ranges (List.length lines) (dssat_indices lines))
  <-> block_range lines s e.
Proof.
  assert (Hto : forall s e,
            In (s, e) (ranges (List.length lines) (dssat_indices lines)) ->
            block_range lines s e).
  { clear s e. intros s e Hin.
    apply ranges_in in Hin; [| apply dssat_indices_sorted].
    destruct Hin as (Hs & Hcases). apply dssat_indices_in in Hs.
    split; [exact Hs |].
    destruct Hcases as [(next & Hnext & Hlt & He & Hgap) | (He & Hlast)].
    - left. subst e. split; [lia |]. split.
      + replace (S (next - 1)) with next by lia. now apply dssat_indices_in.
      + intros k Hk Hat. apply dssat_indices_in in Hat.
        destruct (Hgap k Hat); lia.
    - right. split; [exact He |]. intros k Hk Hat. apply dssat_indices_in in Hat.
      specialize (Hlast k Hat). lia. }
  split; [apply Hto |].
  intros Hblock. destruct Hblock as [Hs Hrest].
  assert (Hin : In s (dssat_indices lines)) by now apply dssat_indices_in.
  destruct (ranges_start (List.length lines) _ s Hin) as (e' & He').
  assert (e' = e)
    by (apply (block_range_unique lines s); [now apply Hto | now split]).
  now subst e'.
Qed.

(* ------------------------------------------------------------------ *)
(** ** The treatment name of a block *)

Lemma dropwhile_head {A : Type} (p : A -> bool) (l : list A) (x : A) (rest : list A) :
  dropwhile p l = x :: rest -> p x = false.
Proof.
  induction l as [| y l IH]; simpl; [discriminate |].
  destruct (p y) eqn:Hy; [exact IH |]. intros H. inversion H; subst. exact Hy.
Qed.

Lemma of_chars_empty (l : list ascii) : of_chars l = EmptyString -> l = [].
Proof. destruct l; [reflexivity | discriminate]. Qed.

Lemma rev_empty {A : Type} (l : list A) : rev l = [] -> l = [].
Proof.
  intros H. apply (f_equal (@List.length A)) in H.
  rewrite length_rev in H. destruct l; [reflexivity | discriminate H].
Qed.

(** The first piece of [rsplit(maxsplit=1)] is never empty. *)
Lemma rsplit1_first (s name : string) :
  index (rsplit1 s) 0 = Ok name -> name <> EmptyString.
Proof.
  unfold rsplit1.
  destruct (dropwhile isspace (rev (chars s))) as [| c r] eqn:Hr;
    [discriminate |].
  pose proof (dropwhile_head _ _ _ _ Hr) as Hc.
  set (tok := takewhile (fun c => negb (isspace c)) (c :: r)).
  assert (Htok : tok <> []).
  { unfold tok. cbn [takewhile]. rewrite Hc. discriminate. }
  destruct (dropwhile isspace (dropwhile (fun c => negb (isspace c)) (c :: r)))
    as [| c' r'] eqn:Hrest; unfold index; cbn [nth_error]; intros H;
    inversion H; subst; intros Hempty; apply of_chars_empty in Hempty.
  - apply rev_empty in Hempty. contradiction.
  - destruct (rev r'); discriminate Hempty.
Qed.

Lemma treatment_name_nonempty (l name : string) :
  treatment_name l = Ok name -> name <> EmptyString.
Proof.
  unfold treatment_name. intros H. apply bind_ok in H.
  destruct H as (seg & _ & H). now apply rsplit1_first in H.
Qed.

Lemma find_run_first (runs : list (nat * string)) (s e : nat) :
  StronglySorted before runs ->
  match find_run s e runs with
  | Ok None => forall j l, In (j, l) runs -> ~ s <= j <= e
  | Ok (Some name) =>
      exists j l,
        In (j, l) runs /\ s <= j <= e
        /\ (forall j' l', In (j', l') runs -> s <= j' <= e -> j <= j')
        /\ treatment_name l = Ok name
  | Raise err =>
      exists j l,
        In (j, l) runs /\ s <= j <= e
        /\ (forall j' l', In (j', l') runs -> s <= j' <= e -> j <= j')
        /\ treatment_name l = Raise err
  end.
Proof.
  induction 1 as [| [j0 l0] runs Hsorted IH Hhd]; cbn [find_run].
  - intros j l [].
  - rewrite Forall_forall in Hhd.
    destruct ((s <=? j0) && (j0 <=? e)) eqn:Hrange.
    + apply andb_prop in Hrange. destruct Hrange as [H1 H2].
      apply Nat.leb_le in H1, H2.
      assert (Hmin : forall j' l', In (j', l') ((j0, l0) :: runs) ->
                       s <= j' <= e -> j0 <= j').
      { intros j' l' [Heq | Hin] _; [inversion Heq; lia |].
        specialize (Hhd _ Hin). unfold before in Hhd. simpl in Hhd. lia. }
      destruct (treatment_name l0) as [name | err] eqn:Hname; cbn [bind];
        exists j0, l0; (split; [now left |]); (split; [lia |]); split; auto.
    + assert (Hout : ~ s <= j0 <= e).
      { intros [H1 H2]. apply Nat.leb_le in H1, H2. rewrite H1, H2 in Hrange.
        discriminate Hrange. }
      destruct (find_run s e runs) as [[name |] | err].
      * destruct IH as (j & l & Hin & Hj & Hmin & Hname).
        exists j, l. split; [now right |]. split; [exact Hj |]. split; [| exact Hname].
        intros j' l' [Heq | Hin'] Hj'; [inversion Heq; subst; contradiction |].
        now apply (Hmin j' l').
      * intros j l [Heq | Hin]; [inversion Heq; subst; exact Hout | exact (IH j l Hin)].
      * destruct IH as (j & l & Hin & Hj & Hmin & Hname).
        exists j, l. split; [now right |]. split; [exact Hj |]. split; [| exact Hname].
        intros j' l' [Heq | Hin'] Hj'; [inversion Heq; subst; contradiction |].
        now apply (Hmin j' l').
Qed.

Lemma first_treatment_unique (lines : list string) (s e j j' : nat) :
  first_treatment lines s e j -> first_treatment lines s e j' -> j = j'.
Proof.
  intros (Hj & Hat & Hfirst) (Hj' & Hat' & Hfirst').
  destruct (Nat.lt_trichotomy j j') as [Hlt | [Heq | Hgt]]; [| exact Heq |].
  - exfalso. apply (Hfirst' j); [lia | exact Hat].
  - exfalso. apply (Hfirst j'); [lia | exact Hat'].
Qed.

(** What the inner loop finds for a range, in terms of the lines. *)
Lemma find_run_block (lines : list string) (s e : nat) :
  match find_run s e (treatment_lines lines) with
  | Ok None => forall k, s <= k <= e -> ~ treatment_at lines k
  | Ok (Some name) => block_name lines s e name
  | Raise err =>
      exists j raw,
        first_treatment lines s e j /\ nth_error lines j = Some raw
        /\ treatment_name (strip raw) = Raise err
  end.
Proof.
  pose proof (find_run_first (treatment_lines lines) s e
                (treatment_lines_sorted lines)) as H.
  assert (Hfirst : forall j l,
            In (j, l) (treatment_lines lines) -> s <= j <= e ->
            (forall j' l', In (j', l') (treatment_lines lines) ->
                           s <= j' <= e -> j <= j') ->
            exists raw, first_treatment lines s e j /\ nth_error lines j = Some raw
                        /\ l = strip raw).
  { intros j l Hin Hj Hmin. apply treatment_lines_in in Hin.
    destruct Hin as (raw & Hnth & Hstart & ->). exists raw.
    split; [| auto]. split; [exact Hj |]. split; [exists raw; auto |].
    intros k Hk (rk & Hrk & Hsk).
    assert (Hin : In (k, strip rk) (treatment_lines lines))
      by (apply treatment_lines_in; exists rk; auto).
    specialize (Hmin k (strip rk) Hin). lia. }
  destruct (find_run s e (treatment_lines lines)) as [[name |] | err].
  - destruct H as (j & l & Hin & Hj & Hmin & Hname).
    destruct (Hfirst j l Hin Hj Hmin) as (raw & Hft & Hnth & ->).
    exists j, raw. auto.
  - intros k Hk (rk & Hrk & Hsk). apply (H k (strip rk)); [| exact Hk].
    apply treatment_lines_in. exists rk. auto.
  - destruct H as (j & l & Hin & Hj & Hmin & Hname).
    destruct (Hfirst j l Hin Hj Hmin) as (raw & Hft & Hnth & ->).
    exists j, raw. auto.
Qed.

Lemma block_name_found (lines : list string) (s e : nat) (name : string) :
  block_name lines s e name ->
  find_run s e (treatment_lines lines) = Ok (Some name).
Proof.
  intros (j & raw & Hft & Hnth & Hname).
  pose proof (find_run_block lines s e) as H.
  destruct (find_run s e (treatment_lines lines)) as [[name' |] | err].
  - destruct H as (j' & raw' & Hft' & Hnth' & Hname').
    assert (j' = j) by (eapply first_treatment_unique; eauto). subst j'.
    congruence.
  - exfalso. destruct Hft as (Hj & Hat & _). now apply (H j).
  - destruct H as (j' & raw' & Hft' & Hnth' & Hname').
    assert (j' = j) by (eapply first_treatment_unique; eauto). subst j'.
    congruence.
Qed.

(* ------------------------------------------------------------------ *)
(** ** The dictionary the second loop fills *)

Lemma dict_set_keys {V : Type} (k : string) (v : V) (d : dict V) (k' : string) :
  In k' (keys (dict_set k v d)) <-> k' = k \/ In k' (keys d).
Proof.
  unfold keys. induction d as [| [k0 v0] d IH]; simpl.
  - intuition.
  - destruct (String.eqb_spec k k0) as [-> | Hne]; simpl.
    + intuition.
    + rewrite IH. intuition.
Qed.

Lemma dict_set_nodup {V : Type} (k : string) (v : V) (d : dict V) :
  NoDup (keys d) -> NoDup (keys (dict_set k v d)).
Proof.
  unfold keys. induction d as [| [k0 v0] d IH]; simpl; intros Hnd.
  - constructor; [intros [] | constructor].
  - inversion Hnd as [| ? ? Hnotin Hrest]; subst.
    destruct (String.eqb_spec k k0) as [-> | Hne]; simpl.
    + now constructor.
    + constructor; [| now apply IH].
      intros Hin. apply (dict_set_keys k v d k0) in Hin.
      destruct Hin as [Heq | Hin]; [congruence | contradiction].
Qed.

Lemma dict_set_in {V : Type} (k : string) (v : V) (d : dict V) (k' : string) (v' : V) :
  NoDup (keys d) ->
  (In (k', v') (dict_set k v d) <-> (k' = k /\ v' = v) \/ (k' <> k /\ In (k', v') d)).
Proof.
  unfold keys. induction d as [| [k0 v0] d IH]; simpl; intros Hnd.
  - split.
    + intros [Heq | []]. inversion Heq. now left.
    + intros [[-> ->] | [_ []]]. now left.
  - inversion Hnd as [| ? ? Hnotin Hrest]; subst.
    destruct (String.eqb_spec k k0) as [-> | Hne]; simpl.
    + split.
      * intros [Heq | Hin]; [inversion Heq; now left | right].
        split; [| now right]. intros ->. apply Hnotin.
        apply in_map_iff. exists (k0, v'). auto.
      * intros [[-> ->] | [Hne [Heq | Hin]]]; [now left | | now right].
        inversion Heq. congruence.
    + rewrite (IH Hrest). split.
      * intros [Heq | [[-> ->] | [Hk Hin]]].
        -- inversion Heq; subst. right. split; [congruence | now left].
        -- now left.
        -- right. split; [exact Hk | now right].
      * intros [[-> ->] | [Hk [Heq | Hin]]].
        -- right. now left.
        -- now left.
        -- right. right. auto.
Qed.

(** The dictionary after the loop over ranges in ascending order: an entry
    is an old one or a range under its name, every named range has its name
    as a key, and the value under a key is the last range of that name. *)
Lemma range_loop_spec (runs : list (nat * string)) (rs : list (nat * nat))
  (d0 d : dict (nat * nat)) :
  StronglySorted before rs ->
  for_each (range_step runs) rs d0 = Ok d ->
  NoDup (keys d0) ->
  (forall k v0 v, In (k, v0) d0 -> In v rs -> fst v0 < fst v) ->
  NoDup (keys d)
  /\ (forall k v, In (k, v) d ->
        In (k, v) d0
        \/ (In v rs /\ find_run (fst v) (snd v) runs = Ok (Some k)))
  /\ (forall v k, In v rs -> find_run (fst v) (snd v) runs = Ok (Some k) ->
        exists v', In (k, v') d /\ fst v <= fst v')
  /\ (forall k v0, In (k, v0) d0 -> exists v', In (k, v') d /\ fst v0 <= fst v').
Proof.
  intros Hsorted. revert d0.
  induction Hsorted as [| v rs Hsorted IH Hhd]; intros d0 Hrun Hnd Hold;
    cbn [for_each] in Hrun.
  - inversion Hrun; subst d. split; [exact Hnd |]. split; [auto |].
    split; [intros v k [] |]. intros k v0 Hin. exists v0. auto.
  - rewrite Forall_forall in Hhd.
    apply bind_ok in Hrun. destruct Hrun as (d1 & Hstep & Hrun).
    unfold range_step in Hstep. apply bind_ok in Hstep.
    destruct Hstep as (info & Hfind & Hstep).
    assert (Hd1 : d1 = match info with
                       | Some name => dict_set name v d0
                       | None => d0
                       end).
    { destruct info as [name |]; [| now inversion Hstep].
      cbn [nonempty] in Hstep.
      assert (Hne : name <> EmptyString).
      { clear - Hfind. revert Hfind. generalize (fst v), (snd v). intros s e.
        induction runs as [| [j l] runs IH]; cbn [find_run]; [discriminate |].
        destruct ((s <=? j) && (j <=? e)); [| exact IH].
        intros H. apply bind_ok in H. destruct H as (n & Hn & H).
        inversion H; subst. now apply treatment_name_nonempty in Hn. }
      apply String.eqb_neq in Hne. rewrite Hne in Hstep. now inversion Hstep. }
    clear Hstep.
    assert (Hnd1 : NoDup (keys d1))
      by (subst d1; destruct info; [now apply dict_set_nodup | exact Hnd]).
    assert (Hold1 : forall k v0 v', In (k, v0) d1 -> In v' rs -> fst v0 < fst v').
    { intros k v0 v' Hin Hv'. subst d1. destruct info as [name |].
      - apply (dict_set_in name v d0 k v0 Hnd) in Hin.
        destruct Hin as [[_ ->] | [_ Hin]].
        + apply (Hhd v' Hv').
        + apply (Hold k v0 v' Hin). now right.
      - apply (Hold k v0 v' Hin). now right. }
    destruct (IH d1 Hrun Hnd1 Hold1) as (Hnodup & Hsound & Hnamed & Hkept).
    split; [exact Hnodup |]. split; [| split].
    + intros k w Hin. destruct (Hsound k w Hin) as [Hin1 | [Hw Hfw]].
      * subst d1. destruct info as [name |]; [| now left].
        apply (dict_set_in name v d0 k w Hnd) in Hin1.
        destruct Hin1 as [[-> ->] | [_ Hin0]]; [right | now left].
        split; [now left | exact Hfind].
      * right. split; [now right | exact Hfw].
    + intros w k [<- | Hw] Hfw.
      * rewrite Hfind in Hfw. inversion Hfw; subst info.
        apply (Hkept k v). subst d1.
        apply (dict_set_in k v d0 k v Hnd). now left.
      * now apply Hnamed.
    + intros k v0 Hin0. subst d1. destruct info as [name |]; [| now apply Hkept].
      destruct (String.eqb_spec k name) as [-> | Hne].
      * destruct (Hkept name v) as (v' & Hv' & Hle).
        { apply (dict_set_in name v d0 name v Hnd). now left. }
        exists v'. split; [exact Hv' |].
        specialize (Hold name v0 v Hin0 (or_introl eq_refl)). lia.
      * apply Hkept. apply (dict_set_in name v d0 k v0 Hnd). right. auto.
Qed.

Lemma range_loop_returns (runs : list (nat * string)) (rs : list (nat * nat))
  (d0 : dict (nat * nat)) :
  (forall v err, In v rs -> find_run (fst v) (snd v) runs <> Raise err) ->
  exists d, for_each (range_step runs) rs d0 = Ok d.
Proof.
  revert d0. induction rs as [| v rs IH]; intros d0 Hok; cbn [for_each]; [eauto |].
  unfold range_step at 1.
  destruct (find_run (fst v) (snd v) runs) as [info | err] eqn:Hfind.
  - cbn [bind]. destruct info as [name |].
    + destruct (nonempty (Some name)); cbn [bind]; apply IH;
        intros w err Hw; apply Hok; now right.
    + cbn [bind]. apply IH. intros w err Hw. apply Hok. now right.
  - exfalso. apply (Hok v err); [now left | exact Hfind].
Qed.

(* ------------------------------------------------------------------ *)
(** ** simulations_lines: the dictionary of the treatment blocks *)

(** What the dictionary of a call that returns holds. *)
Lemma simulations_lines_entries (lines : list string) (d : dict (nat * nat)) :
  simulations_lines lines = Ok d ->
  NoDup (keys d)
  /\ (forall name s e,
        In (name, (s, e)) d -> block_range lines s e /\ block_name lines s e name)
  /\ (forall name s e,
        block_range lines s e -> block_name lines s e name ->
        exists s' e', In (name, (s', e')) d /\ s <= s')
  /\ (forall s e,
        block_range lines s e ->
        (forall k, s <= k <= e -> ~ treatment_at lines k) ->
        forall name, ~ In (name, (s, e)) d).
Proof.
  rewrite simulations_lines_ranges. intros Hrun.
  destruct (range_loop_spec _ _ [] d
              (ranges_sorted _ _ (dssat_indices_sorted lines)) Hrun)
    as (Hnodup & Hsound & Hnamed & _); [constructor | intros k v0 v [] |].
  assert (Hentry : forall name s e,
            In (name, (s, e)) d -> block_range lines s e /\ block_name lines s e name).
  { intros name s e Hin. destruct (Hsound name (s, e) Hin) as [[] | [Hr Hfind]].
    cbn [fst snd] in Hfind. split; [now apply ranges_block |].
    pose proof (find_run_block lines s e) as H. now rewrite Hfind in H. }
  split; [exact Hnodup |]. split; [exact Hentry |]. split.
  - intros name s e Hblock Hname. apply ranges_block in Hblock.
    apply block_name_found in Hname.
    destruct (Hnamed (s, e) name Hblock Hname) as ([s' e'] & Hin & Hle).
    exists s', e'. auto.
  - intros s e Hblock Hnone name Hin.
    destruct (Hentry name s e Hin) as (_ & j & raw & (Hj & Hat & _) & _).
    now apply (Hnone j).
Qed.

(** C1 (amended). On a file in which the first TREATMENT line of every
    block has a name, [simulations_lines] returns a dictionary.  The
    dictionary of a call that returns has each key once; an entry
    [name -> (start, end)] is the range of a block (line [start] contains
    ['*DSSAT'], [end] is the index of the line before the next such line, or
    the number of lines for the last block) under the treatment name of that
    block: the text between the first and the second colon of its first
    TREATMENT line, stripped, without its last blank-separated token when it
    has more than one; the treatment name of every block is a key, whose
    value is the range of the last block of that name; and a block without a
    TREATMENT line in its range has no entry. *)
Theorem simulations_lines_blocks (lines : list string) :
  (treatments_named lines -> exists d, simulations_lines lines = Ok d)
  /\ (forall d, simulations_lines lines = Ok d ->
        NoDup (keys d)
        /\ (forall name s e,
              In (name, (s, e)) d ->
              block_range lines s e /\ block_name lines s e name)
        /\ (forall name s e,
              block_range lines s e -> block_name lines s e name ->
              exists s' e', In (name, (s', e')) d /\ s <= s')
        /\ (forall s e,
              block_range lines s e ->
              (forall k, s <= k <= e -> ~ treatment_at lines k) ->
              forall name, ~ In (name, (s, e)) d)).
Proof.
  split; [| apply simulations_lines_entries].
  intros Hnamed. rewrite simulations_lines_ranges.
  apply range_loop_returns. intros [s e] err Hin Hfind. cbn [fst snd] in Hfind.
  apply ranges_block in Hin.
  pose proof (find_run_block lines s e) as H. rewrite Hfind in H.
  destruct H as (j & raw & Hft & Hnth & Hraise).
  destruct (Hnamed s e j raw Hin Hft Hnth) as (name & Hname). congruence.
Qed.

(** C1, counterexample. A file whose TREATMENT line has no colon makes
    [simulations_lines] raise [IndexError] where the claim has it return a
    dictionary; and on a TREATMENT line with a second colon the key is the
    text up to that colon, ["WW"], not the text after the first colon without
    its last token, which is ["WW:23"]. *)
Lemma simulations_lines_counterexample :
  simulations_lines (readlines (text_of ["*DSSAT Cropping System Model";
                                          " TREATMENT  1"]))
  = Raise IndexError
  /\ simulations_lines (readlines (text_of ["*DSSAT Cropping System Model";
                                             " TREATMENT  1 : WW:23 WHCER048"]))
     = Ok [("WW", (0, 2))].
Proof. split; vm_compute; reflexivity. Qed.

Lemma simulations_lines_blocks_witness :
  exists d,
    simulations_lines overview_example = Ok d
    /\ NoDup (keys d)
    /\ forall name s e,
         In (name, (s, e)) d ->
         block_range overview_example s e /\ block_name overview_example s e name.
Proof.
  destruct (simulations_lines_blocks overview_example) as [Hreturns Hentries].
  destruct Hreturns as (d & Hd).
  { intros s e j raw _ (_ & (raw' & Hnth' & Hstart) & _) Hnth.
    assert (raw' = raw) by congruence. subst raw'. clear Hnth'.
    do 15 (destruct j as [| j];
           [vm_compute in Hnth; inversion Hnth; subst raw;
            first [vm_compute in Hstart; discriminate Hstart
                  | eexists; vm_compute; reflexivity] |]).
    vm_compute in Hnth. destruct j; discriminate Hnth. }
  exists d. split; [exact Hd |].
  destruct (Hentries d Hd) as (Hnodup & Hsound & _). auto.
Defined.

(* ================================================================== *)
(** * Further properties *)

(* ------------------------------------------------------------------ *)
(** ** Occurrences of a pattern *)

Lemma prefix_cons (a b : ascii) (p s : string) :
  String.prefix (String a p) (String b s) = Ascii.eqb a b && String.prefix p s.
Proof.
  cbn [String.prefix]. destruct (ascii_dec a b) as [-> | Hne].
  - now rewrite Ascii.eqb_refl.
  - apply Ascii.eqb_neq in Hne. now rewrite Hne.
Qed.

Lemma prefix_nil_r (p : string) : String.prefix p EmptyString = true -> p = EmptyString.
Proof. destruct p; [reflexivity | discriminate]. Qed.

Lemma contains_cons (p : string) (c : ascii) (s : string) :
  contains p (String c s) = String.prefix p (String c s) || contains p s.
Proof. reflexivity. Qed.

Lemma contains_nil (p : string) : contains p EmptyString = String.prefix p EmptyString.
Proof. cbn [contains]. unfold startswith. now rewrite orb_false_r. Qed.

Lemma contains_drop (p : string) (k : nat) (s : string) :
  contains p s = false -> contains p (drop k s) = false.
Proof.
  revert s. induction k as [| k IH]; intros s H; [now destruct s |].
  destruct s as [| c s]; [exact H |]. cbn [drop]. apply IH.
  rewrite contains_cons in H. now apply orb_false_iff in H.
Qed.

Lemma str_replace_go_drop (old new : string) (k : nat) (s : string) :
  str_replace_go old new k s = str_replace old new (drop k s).
Proof.
  revert k. induction s as [| c s IH]; intros [| k]; try reflexivity.
  cbn [str_replace_go drop]. apply IH.
Qed.

(** The equations of [str_replace]. *)
Lemma str_replace_nil (old new : string) : str_replace old new EmptyString = EmptyString.
Proof. reflexivity. Qed.

Lemma str_replace_cons (old new : string) (c : ascii) (s : string) :
  str_replace old new (String c s)
  = if startswith old (String c s)
    then String.append new (str_replace old new (drop (String.length old - 1) s))
    else String c (str_replace old new s).
Proof.
  unfold str_replace at 1. cbn [str_replace_go].
  destruct (startswith old (String c s)); [| reflexivity].
  now rewrite str_replace_go_drop.
Qed.

Lemma length_drop (k : nat) (s : string) : String.length (drop k s) <= String.length s.
Proof.
  revert s. induction k as [| k IH]; intros [| c s]; cbn [drop String.length]; try lia.
  specialize (IH s). lia.
Qed.

(** A string without the pattern is left as it is. *)
Lemma str_replace_absent (old new s : string) :
  contains old s = false -> str_replace old new s = s.
Proof.
  induction s as [| c s IH]; intros H; [reflexivity |].
  rewrite str_replace_cons. rewrite contains_cons in H.
  apply orb_false_iff in H. destruct H as (Hp & Hc).
  unfold startswith. rewrite Hp. now rewrite IH.
Qed.

Lemma clash_prefix (q n x : string) :
  clash q n = true -> String.prefix q (String.append n x) = false.
Proof.
  revert n. induction q as [| a q IH]; intros [| b n] H; try discriminate H.
  cbn [clash] in H. cbn [String.append]. rewrite prefix_cons.
  destruct (Ascii.eqb a b); cbn [negb orb andb] in *; [now apply IH | reflexivity].
Qed.

(** No occurrence of [p] starts inside [n] when [n] is followed by text
    without [p]. *)
Lemma contains_append_clash (p n x : string) :
  forallb (clash p) (tails n) = true ->
  contains p (String.append n x) = contains p x.
Proof.
  induction n as [| b n IH]; intros H; [reflexivity |].
  cbn [tails forallb] in H. apply andb_true_iff in H. destruct H as (Hc & Hrest).
  cbn [String.append]. rewrite contains_cons.
  change (String b (String.append n x)) with (String.append (String b n) x).
  rewrite (clash_prefix _ _ _ Hc). cbn [orb]. now apply IH.
Qed.

Lemma tails_tail (a : ascii) (q p : string) :
  q <> EmptyString -> In (String a q) (tails p) -> In q (tails p).
Proof.
  intros Hne. induction p as [| x p IH]; intros Hq; [destruct Hq |].
  cbn [tails] in *. right. destruct Hq as [Heq | Hin].
  - inversion Heq; subst. destruct q; [congruence | now left].
  - now apply IH.
Qed.

Lemma tails_self (p : string) : p <> EmptyString -> In p (tails p).
Proof. destruct p; [congruence | intros _; now left]. Qed.

Lemma contains_nil_false (p : string) :
  p <> EmptyString -> contains p EmptyString = false.
Proof. rewrite contains_nil. destruct p; [congruence | reflexivity]. Qed.

Section Absent.

Variables p old new : string.

(** Every non-empty suffix of [p] differs from [new] at a position that
    both have, and so does [p] from every non-empty suffix of [new]. *)
Hypothesis p_new : forallb (fun q => clash q new) (tails p) = true.
Hypothesis new_p : forallb (clash p) (tails new) = true.

Lemma replaced_prefix (q s : string) :
  In q (tails p) ->
  String.prefix q (str_replace old new s) = true -> String.prefix q s = true.
Proof.
  revert q. induction s as [| c s IH]; intros q Hq H.
  - rewrite str_replace_nil in H. apply prefix_nil_r in H. exact (f_equal (fun x => String.prefix x EmptyString) H).
  - rewrite str_replace_cons in H.
    destruct (startswith old (String c s)).
    + rewrite clash_prefix in H; [discriminate H |].
      rewrite forallb_forall in p_new. now apply p_new.
    + destruct q as [| a q]; [reflexivity |].
      rewrite prefix_cons in *. apply andb_true_iff in H. destruct H as (Ha & Hq').
      rewrite Ha. cbn [andb].
      destruct q as [| a' q]; [now destruct s |].
      apply IH; [| exact Hq'].
      apply (tails_tail a); [discriminate | exact Hq].
Qed.

(** The pattern [p] does not arise from the replacement. *)
Lemma replaced_absent (s : string) :
  p <> EmptyString ->
  contains p s = false \/ p = old ->
  contains p (str_replace old new s) = false.
Proof.
  intros Hp.
  assert (Hgen : forall n s, String.length s <= n ->
            contains p s = false \/ p = old ->
            contains p (str_replace old new s) = false).
  { clear s. induction n as [| n IH]; intros s Hlen Hs.
    - destruct s; [| cbn [String.length] in Hlen; lia].
      rewrite str_replace_nil. now apply contains_nil_false.
    - destruct s as [| c s].
      + rewrite str_replace_nil. now apply contains_nil_false.
      + cbn [String.length] in Hlen. rewrite str_replace_cons.
        destruct (startswith old (String c s)) eqn:Hold.
        * rewrite contains_append_clash by exact new_p.
          apply IH.
          -- pose proof (length_drop (String.length old - 1) s). lia.
          -- destruct Hs as [Hs | Hs]; [left | now right].
             apply contains_drop. rewrite contains_cons in Hs.
             now apply orb_false_iff in Hs.
        * rewrite contains_cons. apply orb_false_iff. split.
          -- destruct (String.prefix p (String c (str_replace old new s))) eqn:Hpre;
               [| reflexivity].
             assert (Hin : String.prefix p (String c s) = true).
             { apply replaced_prefix; [now apply tails_self |].
               rewrite str_replace_cons, Hold. exact Hpre. }
             destruct Hs as [Hs | Hs].
             ++ rewrite contains_cons, Hin in Hs. discriminate Hs.
             ++ subst old. unfold startswith in Hold. congruence.
          -- apply IH; [lia |].
             destruct Hs as [Hs | Hs]; [left | now right].
             rewrite contains_cons in Hs. now apply orb_false_iff in Hs. }
  intros Hs. now apply (Hgen (String.length s)).
Qed.

End Absent.

(** No name that leaves the five replacements holds ['kg/ha'], ['m2'] or
    ['g/MJ']. *)
Lemma unit_replacements_absent (var : string) :
  contains "kg/ha" (unit_replacements var) = false
  /\ contains "m2" (unit_replacements var) = false
  /\ contains "g/MJ" (unit_replacements var) = false.
Proof.
  unfold unit_replacements.
  set (s2 := str_replace "g/m2" _ _).
  split; [| split].
  - apply replaced_absent; [reflexivity | reflexivity | discriminate |].
    left. apply replaced_absent; [reflexivity | reflexivity | discriminate |].
    left. apply replaced_absent; [reflexivity | reflexivity | discriminate |].
    now right.
  - apply replaced_absent; [reflexivity | reflexivity | discriminate |].
    left. apply replaced_absent; [reflexivity | reflexivity | discriminate |].
    now right.
  - apply replaced_absent; [reflexivity | reflexivity | discriminate |].
    now right.
Qed.

(** A pattern that holds an absent one is absent. *)
Lemma prefix_append (a b s : string) :
  String.prefix (String.append a b) s = true -> String.prefix a s = true.
Proof.
  revert s. induction a as [| x a IH]; intros s H; [now destruct s |].
  destruct s as [| y s]; [discriminate H |].
  cbn [String.append] in H. rewrite prefix_cons in *.
  apply andb_true_iff in H. destruct H as (-> & H). cbn [andb]. now apply IH.
Qed.

Lemma prefix_contains (p s : string) : String.prefix p s = true -> contains p s = true.
Proof.
  intros H. destruct s; [now rewrite contains_nil | rewrite contains_cons, H; reflexivity].
Qed.

Lemma contains_part (a b x s : string) :
  contains b s = false -> contains (String.append a (String.append b x)) s = false.
Proof.
  intros H. destruct (contains (String.append a (String.append b x)) s) eqn:Hc;
    [| reflexivity].
  exfalso. revert H Hc. induction s as [| c s IH]; intros H Hc.
  - rewrite contains_nil in *. apply prefix_nil_r in Hc.
    destruct a; [| discriminate Hc]. cbn [String.append] in Hc.
    destruct b; [| discriminate Hc]. discriminate H.
  - rewrite contains_cons in *. apply orb_false_iff in H. destruct H as (Hp & Hrest).
    apply orb_true_iff in Hc. destruct Hc as [Hc | Hc]; [| now apply IH].
    clear IH. revert c s Hp Hrest Hc. induction a as [| y a IHa]; intros c s Hp Hrest Hc.
    + cbn [String.append] in Hc. apply prefix_append in Hc. congruence.
    + cbn [String.append] in Hc. rewrite prefix_cons in Hc.
      apply andb_true_iff in Hc. destruct Hc as (_ & Hc).
      destruct s as [| c' s].
      * apply prefix_nil_r in Hc. destruct a; [| discriminate Hc].
        cbn [String.append] in Hc. destruct b; [| discriminate Hc].
        rewrite contains_nil in Hrest. discriminate Hrest.
      * rewrite contains_cons in Hrest. apply orb_false_iff in Hrest.
        destruct Hrest as (Hp' & Hrest'). now apply (IHa c' s).
Qed.

Lemma sub_word_m2_go_absent (repl : string) (prev_word : bool) (s : string) :
  contains "m2" s = false -> sub_word_m2_go repl prev_word 0 s = s.
Proof.
  revert prev_word. induction s as [| c s IH]; intros b H; [reflexivity |].
  cbn [sub_word_m2_go]. rewrite contains_cons in H.
  apply orb_false_iff in H. destruct H as (Hp & Hc).
  unfold startswith. rewrite Hp. rewrite andb_false_r. cbn [andb].
  now rewrite IH.
Qed.

Lemma sub_word_m2_absent (repl s : string) :
  contains "m2" s = false -> sub_word_m2 repl s = s.
Proof. apply sub_word_m2_go_absent. Qed.

(** X3. The call of [re.sub] at the end of the loop body never changes a
    name: no name that leaves the five [replace] calls holds ['m2'], so the
    result is the one of the five [replace] calls alone. *)
Theorem update_variable_names_regex_idle (variable_names : names_arg) :
  update_variable_names variable_names
  = map unit_replacements
      match variable_names with OneName name => [name] | NameList names => names end.
Proof.
  unfold update_variable_names. apply map_ext. intros var.
  unfold update_variable_name. apply sub_word_m2_absent.
  apply unit_replacements_absent.
Qed.

Lemma update_variable_name_fixed (var : string) :
  update_variable_name var = var
  <-> contains "kg/ha" var = false /\ contains "m2" var = false
      /\ contains "g/MJ" var = false.
Proof.
  split.
  - intros H. rewrite <- H. unfold update_variable_name.
    rewrite sub_word_m2_absent by apply unit_replacements_absent.
    apply unit_replacements_absent.
  - intros (Hk & Hm & Hg). unfold update_variable_name, unit_replacements.
    rewrite (str_replace_absent "kg/ha/day").
    2:{ apply (contains_part EmptyString "kg/ha" "/day"). exact Hk. }
    rewrite (str_replace_absent "g/m2").
    2:{ apply (contains_part "g/" "m2" EmptyString). exact Hm. }
    rewrite (str_replace_absent "kg/ha") by exact Hk.
    rewrite (str_replace_absent "m2") by exact Hm.
    rewrite (str_replace_absent "g/MJ") by exact Hg.
    now apply sub_word_m2_absent.
Qed.

(** X1. [update_variable_names] returns a name as it is exactly when the
    name holds none of ['kg/ha'], ['m2'] and ['g/MJ'] (the other two patterns,
    ['kg/ha/day'] and ['g/m2'], hold one of these). *)
Theorem update_variable_names_unchanged (name : string) :
  update_variable_names (OneName name) = [name]
  <-> contains "kg/ha" name = false /\ contains "m2" name = false
      /\ contains "g/MJ" name = false.
Proof.
  rewrite <- update_variable_name_fixed. cbn [update_variable_names map].
  split; intros H; congruence.
Qed.

(** X2. [update_variable_names] is idempotent: names that it has formatted
    are left as they are by a second call. *)
Theorem update_variable_names_idempotent (names : list string) :
  update_variable_names (NameList (update_variable_names (NameList names)))
  = update_variable_names (NameList names).
Proof.
  unfold update_variable_names. cbv beta iota zeta.
  rewrite map_map. apply map_ext. intros var.
  apply update_variable_name_fixed.
  unfold update_variable_name.
  rewrite sub_word_m2_absent by apply unit_replacements_absent.
  apply unit_replacements_absent.
Qed.

(* ------------------------------------------------------------------ *)
(** ** The treatment label *)

Lemma hyphenate_go_skip (k : nat) (l : list ascii) :
  hyphenate_go k l = hyphenate_go 0 (skipn k l).
Proof.
  revert k. induction l as [| c l IH]; intros [| k]; try reflexivity.
  cbn [hyphenate_go skipn]. apply IH.
Qed.

Lemma takewhile_dropwhile {A : Type} (p : A -> bool) (l : list A) :
  takewhile p l ++ dropwhile p l = l.
Proof.
  induction l as [| x l IH]; [reflexivity |]. cbn [takewhile dropwhile].
  destruct (p x); [cbn [app]; now rewrite IH | reflexivity].
Qed.

Lemma skipn_takewhile {A : Type} (p : A -> bool) (l : list A) :
  skipn (List.length (takewhile p l)) l = dropwhile p l.
Proof.
  induction l as [| x l IH]; [reflexivity |]. cbn [takewhile dropwhile].
  destruct (p x); [cbn [List.length skipn]; exact IH | reflexivity].
Qed.

(** The equation of [hyphenate_go] at a position where the search starts. *)
Lemma hyphenate_cons (c : ascii) (rest : list ascii) :
  hyphenate_go 0 (c :: rest)
  = let l := c :: rest in
    let letters := takewhile is_upper l in
    let digits := takewhile is_decimal (dropwhile is_upper l) in
    match letters, digits with
    | _ :: _, _ :: _ =>
        letters ++ "-"%char :: digits
        ++ hyphenate_go 0 (dropwhile is_decimal (dropwhile is_upper l))
    | _, _ => c :: hyphenate_go 0 rest
    end.
Proof.
  cbv zeta. set (l := c :: rest).
  assert (Heq : hyphenate_go 0 l
                = match takewhile is_upper l,
                        takewhile is_decimal (dropwhile is_upper l) with
                  | _ :: _, _ :: _ =>
                      takewhile is_upper l
                      ++ "-"%char :: takewhile is_decimal (dropwhile is_upper l)
                      ++ hyphenate_go
                           (List.length (takewhile is_upper l)
                            + List.length (takewhile is_decimal (dropwhile is_upper l))
                            - 1) rest
                  | _, _ => c :: hyphenate_go 0 rest
                  end) by reflexivity.
  rewrite Heq. clear Heq.
  destruct (takewhile is_upper l) as [| u us] eqn:Hu; [reflexivity |].
  destruct (takewhile is_decimal (dropwhile is_upper l)) as [| d ds] eqn:Hd;
    [reflexivity |].
  assert (Hskip : skipn (List.length (u :: us) + List.length (d :: ds) - 1) rest
                  = dropwhile is_decimal (dropwhile is_upper l)).
  { rewrite <- (skipn_takewhile is_decimal), Hd.
    rewrite <- (skipn_takewhile is_upper), Hu.
    rewrite skipn_skipn. subst l. cbn [List.length].
    replace (S (List.length ds) + S (List.length us))
      with (S (List.length us + S (List.length ds))) by lia.
    cbn [skipn]. f_equal. lia. }
  rewrite hyphenate_go_skip, Hskip. reflexivity.
Qed.

Lemma takewhile_all {A : Type} (p : A -> bool) (l rest : list A) :
  forallb p l = true ->
  match rest with [] => True | x :: _ => p x = false end ->
  takewhile p (l ++ rest) = l /\ dropwhile p (l ++ rest) = rest.
Proof.
  intros Hall Hrest. induction l as [| x l IH].
  - destruct rest as [| y rest]; [split; reflexivity |].
    cbn [app takewhile dropwhile]. rewrite Hrest. split; reflexivity.
  - cbn [forallb] in Hall. apply andb_true_iff in Hall. destruct Hall as (Hx & Hall).
    cbn [app takewhile dropwhile]. rewrite Hx.
    destruct (IH Hall) as (-> & ->). split; reflexivity.
Qed.

Lemma upper_not_decimal (c : ascii) : is_upper c = true -> is_decimal c = false.
Proof.
  unfold is_upper, is_decimal. intros H.
  apply andb_true_iff in H. destruct H as (H1 & H2).
  apply Nat.leb_le in H1. apply andb_false_iff. right. apply Nat.leb_gt. lia.
Qed.

Lemma decimal_not_upper (c : ascii) : is_decimal c = true -> is_upper c = false.
Proof.
  intros H. destruct (is_upper c) eqn:Hu; [| reflexivity].
  apply upper_not_decimal in Hu. congruence.
Qed.

(** Capital letters followed by digits: a hyphen is put between them, and
    the text after the digits is treated in the same way. *)
Lemma hyphenate_code (letters digits rest : list ascii) :
  letters <> [] -> forallb is_upper letters = true ->
  digits <> [] -> forallb is_decimal digits = true ->
  match rest with [] => True | x :: _ => is_decimal x = false end ->
  hyphenate_go 0 (letters ++ digits ++ rest)
  = letters ++ "-"%char :: digits ++ hyphenate_go 0 rest.
Proof.
  intros Hl Hup Hd Hdec Hrest.
  destruct (takewhile_all is_upper letters (digits ++ rest) Hup) as (Htl & Hdl).
  { destruct digits as [| d ds]; [congruence |]. cbn [app].
    cbn [forallb] in Hdec. apply andb_true_iff in Hdec.
    apply decimal_not_upper, Hdec. }
  destruct (takewhile_all is_decimal digits rest Hdec Hrest) as (Htd & Hdd).
  destruct (letters ++ digits ++ rest) as [| c l] eqn:Hall.
  { destruct letters; [congruence | discriminate Hall]. }
  rewrite hyphenate_cons. cbv zeta. rewrite Htl, Hdl, Htd, Hdd.
  destruct letters as [| u us]; [congruence |].
  destruct digits as [| d ds]; [congruence |]. reflexivity.
Qed.

Lemma upper_before_digit_cons (a b : ascii) (rest : list ascii) :
  upper_before_digit (a :: b :: rest)
  = (is_upper a && is_decimal b) || upper_before_digit (b :: rest).
Proof. reflexivity. Qed.

Lemma no_digits_after_letters (l : list ascii) :
  upper_before_digit l = false ->
  match takewhile is_upper l with
  | [] => True
  | _ :: _ => takewhile is_decimal (dropwhile is_upper l) = []
  end.
Proof.
  induction l as [| c l IH]; intros H; [exact I |].
  cbn [takewhile dropwhile]. destruct (is_upper c) eqn:Hc; [| exact I].
  destruct l as [| b l]; [reflexivity |].
  cbn [upper_before_digit] in H. rewrite Hc in H. cbn [andb] in H.
  apply orb_false_iff in H. destruct H as (Hb & Hrest).
  specialize (IH Hrest). cbn [takewhile dropwhile] in *.
  destruct (is_upper b); [exact IH |].
  cbn [takewhile]. now rewrite Hb.
Qed.

Lemma hyphenate_unchanged (l : list ascii) :
  upper_before_digit l = false -> hyphenate_go 0 l = l.
Proof.
  induction l as [| c l IH]; intros H; [reflexivity |].
  rewrite hyphenate_cons. cbv zeta.
  pose proof (no_digits_after_letters (c :: l) H) as Hno.
  assert (Hl : upper_before_digit l = false).
  { destruct l as [| b l]; [reflexivity |].
    cbn [upper_before_digit] in H. now apply orb_false_iff in H. }
  destruct (takewhile is_upper (c :: l)) as [| u us].
  - now rewrite IH.
  - rewrite Hno. now rewrite IH.
Qed.

Lemma hyphenate_head (c : ascii) (l : list ascii) :
  exists out, hyphenate_go 0 (c :: l) = c :: out.
Proof.
  rewrite hyphenate_cons. cbv zeta.
  destruct (takewhile is_upper (c :: l)) as [| u us] eqn:Hu; [eauto |].
  destruct (takewhile is_decimal (dropwhile is_upper (c :: l))) as [| d ds]; [eauto |].
  cbn [takewhile] in Hu. destruct (is_upper c); [| discriminate Hu].
  inversion Hu; subst. cbn [app]. eauto.
Qed.

Lemma upper_run_clear (letters out : list ascii) :
  forallb is_upper letters = true ->
  upper_before_digit (letters ++ "-"%char :: out) = upper_before_digit ("-"%char :: out).
Proof.
  induction letters as [| u us IH]; intros H; [reflexivity |].
  cbn [forallb] in H. apply andb_true_iff in H. destruct H as (Hu & Hus).
  cbn [app]. specialize (IH Hus).
  destruct us as [| u' us'].
  - cbn [app] in *. cbn [upper_before_digit]. cbn [upper_before_digit] in IH.
    replace (is_decimal "-"%char) with false by reflexivity.
    now rewrite andb_false_r.
  - cbn [app] in *. remember (u' :: us' ++ "-"%char :: out) as tl.
    cbn [upper_before_digit]. subst tl. rewrite IH.
    cbn [forallb] in Hus. apply andb_true_iff in Hus. destruct Hus as (Hu' & _).
    rewrite (upper_not_decimal _ Hu'). now rewrite andb_false_r.
Qed.

Lemma digit_run_clear (digits out : list ascii) :
  forallb is_decimal digits = true ->
  upper_before_digit (digits ++ out) = upper_before_digit out.
Proof.
  induction digits as [| d ds IH]; intros H; [reflexivity |].
  cbn [forallb] in H. apply andb_true_iff in H. destruct H as (Hd & Hds).
  cbn [app]. specialize (IH Hds).
  destruct (ds ++ out) as [| b tl] eqn:Htl.
  - destruct ds; [| discriminate Htl]. cbn [app] in Htl. now subst out.
  - cbn [upper_before_digit]. rewrite (decimal_not_upper _ Hd). cbn [andb orb].
    exact IH.
Qed.

Lemma takewhile_forallb {A : Type} (p : A -> bool) (l : list A) :
  forallb p (takewhile p l) = true.
Proof.
  induction l as [| x l IH]; [reflexivity |]. cbn [takewhile].
  destruct (p x) eqn:Hx; [cbn [forallb]; now rewrite Hx | reflexivity].
Qed.

Lemma length_dropwhile {A : Type} (p : A -> bool) (l : list A) :
  List.length (dropwhile p l) <= List.length l.
Proof.
  induction l as [| x l IH]; [apply Nat.le_refl |]. cbn [dropwhile].
  destruct (p x); cbn [List.length]; lia.
Qed.

(** In a label no capital letter stands directly before a digit. *)
Lemma hyphenate_clear (l : list ascii) : upper_before_digit (hyphenate_go 0 l) = false.
Proof.
  assert (Hgen : forall n l, List.length l <= n ->
            upper_before_digit (hyphenate_go 0 l) = false).
  { clear l. induction n as [| n IH]; intros l Hlen.
    - destruct l; [reflexivity | cbn [List.length] in Hlen; lia].
    - destruct l as [| c l]; [reflexivity |]. cbn [List.length] in Hlen.
      rewrite hyphenate_cons. cbv zeta.
      destruct (takewhile is_upper (c :: l)) as [| u us] eqn:Hu.
      + destruct (hyphenate_go 0 l) as [| b out] eqn:Hout; [reflexivity |].
        rewrite upper_before_digit_cons. rewrite <- Hout, IH by lia.
        cbn [takewhile] in Hu. destruct (is_upper c); [discriminate Hu | reflexivity].
      + destruct (takewhile is_decimal (dropwhile is_upper (c :: l))) as [| d ds] eqn:Hd.
        * destruct (hyphenate_go 0 l) as [| b out] eqn:Hout; [reflexivity |].
          rewrite upper_before_digit_cons. rewrite <- Hout, IH by lia.
          rewrite orb_false_r.
          destruct l as [| b' l']; [discriminate Hout |].
          destruct (hyphenate_head b' l') as (out' & Hhead).
          rewrite Hhead in Hout. inversion Hout; subst b' out'.
          destruct (is_upper c) eqn:Hc; [| reflexivity]. cbn [andb].
          cbn [dropwhile takewhile] in Hd. rewrite Hc in Hd.
          destruct (is_decimal b) eqn:Hb; [| reflexivity].
          rewrite (decimal_not_upper _ Hb) in Hd. cbn [takewhile] in Hd.
          rewrite Hb in Hd. discriminate Hd.
        * rewrite <- Hu, <- Hd.
          rewrite upper_run_clear by apply takewhile_forallb.
          assert (Hdash : forall x, upper_before_digit ("-"%char :: x)
                                    = upper_before_digit x).
          { intros [| y x]; reflexivity. }
          rewrite Hdash, digit_run_clear by apply takewhile_forallb.
          apply IH.
          pose proof (length_dropwhile is_decimal (dropwhile is_upper (c :: l))).
          pose proof (length_dropwhile is_upper (c :: l)).
          assert (Hshort : List.length (dropwhile is_upper (c :: l)) <= List.length l).
          { cbn [dropwhile]. cbn [takewhile] in Hu.
            destruct (is_upper c); [apply length_dropwhile | discriminate Hu]. }
          lia. }
  now apply (Hgen (List.length l)).
Qed.

Lemma chars_of_chars (l : list ascii) : chars (of_chars l) = l.
Proof. apply list_ascii_of_string_of_list_ascii. Qed.

Lemma of_chars_chars (s : string) : of_chars (chars s) = s.
Proof. apply string_of_list_ascii_of_string. Qed.

Lemma chars_append (a b : string) : chars (String.append a b) = chars a ++ chars b.
Proof.
  induction a as [| c a IH]; [reflexivity |].
  cbn [String.append]. unfold chars in *. cbn [list_ascii_of_string app]. now rewrite IH.
Qed.

Lemma of_chars_app (a b : list ascii) :
  of_chars (a ++ b) = String.append (of_chars a) (of_chars b).
Proof.
  induction a as [| c a IH]; [reflexivity |].
  unfold of_chars in *. cbn [app string_of_list_ascii String.append]. now rewrite IH.
Qed.

(** X4. In the label of a subplot, capital letters that are followed by
    digits get a hyphen between them (['WW23'] becomes ['WW-23']); the text
    after the digits is treated in the same way. *)
Theorem treatment_label_code (letters digits rest : string) :
  letters <> EmptyString -> forallb is_upper (chars letters) = true ->
  digits <> EmptyString -> forallb is_decimal (chars digits) = true ->
  match rest with EmptyString => True | String x _ => is_decimal x = false end ->
  treatment_label (String.append letters (String.append digits rest))
  = String.append letters
      (String.append "-" (String.append digits (treatment_label rest))).
Proof.
  intros Hl Hup Hd Hdec Hrest. unfold treatment_label.
  rewrite !chars_append, hyphenate_code; try assumption.
  - rewrite of_chars_app. change ("-"%char :: ?x) with (["-"%char] ++ x).
    rewrite of_chars_app, of_chars_app, !of_chars_chars. reflexivity.
  - intros H. apply Hl. rewrite <- (of_chars_chars letters), H. reflexivity.
  - intros H. apply Hd. rewrite <- (of_chars_chars digits), H. reflexivity.
  - destruct rest; [exact I | exact Hrest].
Qed.

Lemma treatment_label_code_witness : treatment_label "WW23" = "WW-23".
Proof.
  exact (treatment_label_code "WW" "23" EmptyString
           ltac:(discriminate) eq_refl ltac:(discriminate) eq_refl I).
Defined.

(** X5. A treatment in which no capital letter stands directly before a
    digit is its own label; no label has a capital letter directly before a
    digit, so labelling a label changes nothing. *)
Theorem treatment_label_fixed (treatment : string) :
  (upper_before_digit (chars treatment) = false ->
   treatment_label treatment = treatment)
  /\ upper_before_digit (chars (treatment_label treatment)) = false
  /\ treatment_label (treatment_label treatment) = treatment_label treatment.
Proof.
  assert (Hclear : upper_before_digit (chars (treatment_label treatment)) = false).
  { unfold treatment_label. rewrite chars_of_chars. apply hyphenate_clear. }
  split; [| split; [exact Hclear |]].
  - intros H. unfold treatment_label. rewrite hyphenate_unchanged by exact H.
    apply of_chars_chars.
  - unfold treatment_label at 1. rewrite hyphenate_unchanged by exact Hclear.
    apply of_chars_chars.
Qed.

Import Barplot.

(* ------------------------------------------------------------------ *)
(** ** The order of the ecotypes in a subplot *)

Lemma isin_in (l : list string) (x : string) : Grid.isin l x = true <-> In x l.
Proof.
  unfold Grid.isin. rewrite existsb_exists. split.
  - intros (y & Hin & Heq). apply String.eqb_eq in Heq. now subst.
  - intros Hin. exists x. split; [exact Hin | apply String.eqb_refl].
Qed.

Lemma list_remove_perm (x : string) (l : list string) :
  In x l -> Permutation l (x :: list_remove x l).
Proof.
  induction l as [| y l IH]; intros Hin; [destruct Hin |]. cbn [list_remove].
  destruct (String.eqb_spec y x) as [-> | Hne]; [reflexivity |].
  destruct Hin as [Heq | Hin]; [congruence |].
  rewrite perm_swap. now constructor; apply IH.
Qed.

Lemma list_insert_perm (i : nat) (x : string) (l : list string) :
  Permutation (list_insert i x l) (x :: l).
Proof.
  unfold list_insert. rewrite <- (firstn_skipn i l) at 3.
  symmetry. apply Permutation_middle.
Qed.

Lemma list_insert_at (x : string) (l : list string) :
  nth_error (list_insert 2 x l) (Nat.min 2 (List.length (list_insert 2 x l) - 1))
  = Some x.
Proof. destruct l as [| a [| b l]]; reflexivity. Qed.

Lemma list_remove_others (x : string) (l : list string) :
  filter (fun e => negb (String.eqb e x)) (list_remove x l)
  = filter (fun e => negb (String.eqb e x)) l.
Proof.
  induction l as [| y l IH]; [reflexivity |]. cbn [list_remove filter].
  destruct (String.eqb y x) eqn:Hy; cbn [negb]; [reflexivity |].
  cbn [filter]. rewrite Hy. cbn [negb]. now rewrite IH.
Qed.

Lemma list_insert_others (i : nat) (x : string) (l : list string) :
  filter (fun e => negb (String.eqb e x)) (list_insert i x l)
  = filter (fun e => negb (String.eqb e x)) l.
Proof.
  unfold list_insert. rewrite filter_app. cbn [filter].
  rewrite String.eqb_refl. cbn [negb]. rewrite <- filter_app.
  now rewrite firstn_skipn.
Qed.

Lemma master_nodup : NoDup MASTER_ECOTYPE_ORDER.
Proof.
  unfold MASTER_ECOTYPE_ORDER.
  repeat (constructor; [cbn [In]; intuition discriminate |]). constructor.
Qed.

(** X6. The order of the bars of a subplot: [plot_order] lists, without
    repetition, exactly the ecotypes of the master order that occur in the
    data; ['subset_C'], when it occurs, stands at index 2, or last when fewer
    than three ecotypes are listed; the other ecotypes keep the master
    order. *)
Theorem plot_order_spec (ecotypes : list string) :
  NoDup (plot_order ecotypes)
  /\ (forall e, In e (plot_order ecotypes)
                <-> In e MASTER_ECOTYPE_ORDER /\ In e ecotypes)
  /\ (In "subset_C" ecotypes ->
      nth_error (plot_order ecotypes)
        (Nat.min 2 (List.length (plot_order ecotypes) - 1)) = Some "subset_C")
  /\ filter (fun e => negb (String.eqb e "subset_C")) (plot_order ecotypes)
     = filter (fun e => negb (String.eqb e "subset_C"))
         (filter (Grid.isin ecotypes) MASTER_ECOTYPE_ORDER).
Proof.
  unfold plot_order.
  set (kept := filter (Grid.isin ecotypes) MASTER_ECOTYPE_ORDER).
  assert (Hkept : forall e, In e kept <-> In e MASTER_ECOTYPE_ORDER /\ In e ecotypes).
  { intros e. unfold kept. rewrite filter_In, isin_in. reflexivity. }
  assert (Hnodup : NoDup kept) by (apply NoDup_filter, master_nodup).
  destruct (Grid.isin kept "subset_C") eqn:Hc.
  - apply isin_in in Hc.
    assert (Hperm : Permutation (list_insert 2 "subset_C" (list_remove "subset_C" kept))
                      kept).
    { rewrite list_insert_perm. symmetry. now apply list_remove_perm. }
    split; [| split; [| split]].
    + eapply Permutation_NoDup; [symmetry; exact Hperm | exact Hnodup].
    + intros e. rewrite <- Hkept. split; intros H.
      * eapply Permutation_in; [exact Hperm | exact H].
      * eapply Permutation_in; [symmetry; exact Hperm | exact H].
    + intros _. apply list_insert_at.
    + now rewrite list_insert_others, list_remove_others.
  - split; [exact Hnodup |]. split; [exact Hkept |]. split; [| reflexivity].
    intros Hin. exfalso.
    assert (Hk : In "subset_C" kept).
    { apply Hkept. split; [| exact Hin]. cbn. tauto. }
    apply isin_in in Hk. congruence.
Qed.

(* ------------------------------------------------------------------ *)
(** ** The colours of the ecotypes *)

Lemma dict_get_set {V : Type} (k : string) (v : V) (d : dict V) (e : string) :
  dict_get e (dict_set k v d) = if String.eqb e k then Some v else dict_get e d.
Proof.
  induction d as [| [k0 v0] d IH]; cbn [dict_set dict_get].
  - reflexivity.
  - destruct (String.eqb_spec k k0) as [-> | Hne]; cbn [dict_get].
    + destruct (String.eqb e k0); reflexivity.
    + rewrite IH. destruct (String.eqb_spec e k0) as [-> | He]; [| reflexivity].
      destruct (String.eqb_spec k0 k) as [-> | _]; [congruence | reflexivity].
Qed.

(** The loop of [color_map] on a subplot of the first three rows: it ends,
    every ecotype gets a colour, ['subset_C'] the fixed one and any other
    ecotype one of the pool of the row. *)
Lemma color_loop (idx : nat) (cats : list string) (d : dict nat) (k : nat) :
  idx < 3 ->
  exists d' k',
    for_each (color_step idx) cats (d, k) = Ok (d', k')
    /\ (forall e, In e (keys d') <-> In e cats \/ In e (keys d))
    /\ (forall e, ~ In e cats -> dict_get e d' = dict_get e d)
    /\ (forall e c, In e cats -> dict_get e d' = Some c ->
                    (e = "subset_C" /\ c = FIXED_COLOR)
                    \/ (e <> "subset_C" /\ In c (nth idx COLOR_POOL []))).
Proof.
  intros Hidx. revert d k. induction cats as [| eco cats IH]; intros d k.
  - exists d, k. cbn [for_each]. split; [reflexivity |].
    split; [intros e; cbn [In]; tauto |]. split; [reflexivity |]. intros e c [].
  - cbn [for_each].
    assert (Hstep : exists c,
              color_step idx (d, k) eco
              = Ok (dict_set eco c d, if String.eqb eco "subset_C" then k else k + 1)
              /\ ((eco = "subset_C" /\ c = FIXED_COLOR)
                  \/ (eco <> "subset_C" /\ In c (nth idx COLOR_POOL [])))).
    { unfold color_step.
      destruct (String.eqb_spec eco "subset_C") as [-> | Hne]; cbn [andb].
      - exists FIXED_COLOR.
        destruct (Nat.ltb_spec idx 2); [split; [reflexivity | now left] |].
        assert (idx = 2) as -> by lia. split; [reflexivity | now left].
      - destruct idx as [| [| [| idx]]]; [| | | lia]; cbn [index COLOR_POOL nth_error bind nth].
        + cbn [List.length]. unfold index.
          assert (Hlt : k mod 4 < 4) by (apply Nat.mod_upper_bound; lia).
          destruct (nth_error [0; 1; 2; 3] (k mod 4)) as [c |] eqn:Hc;
            [| apply nth_error_None in Hc; cbn [List.length] in Hc; lia].
          exists c. split; [reflexivity |]. right. split; [exact Hne |].
          eapply nth_error_In; exact Hc.
        + cbn [List.length]. unfold index.
          assert (Hlt : k mod 3 < 3) by (apply Nat.mod_upper_bound; lia).
          destruct (nth_error [4; 5; 6] (k mod 3)) as [c |] eqn:Hc;
            [| apply nth_error_None in Hc; cbn [List.length] in Hc; lia].
          exists c. split; [reflexivity |]. right. split; [exact Hne |].
          eapply nth_error_In; exact Hc.
        + cbn [List.length]. unfold index.
          assert (Hlt : k mod 3 < 3) by (apply Nat.mod_upper_bound; lia).
          destruct (nth_error [7; 8; 9] (k mod 3)) as [c |] eqn:Hc;
            [| apply nth_error_None in Hc; cbn [List.length] in Hc; lia].
          exists c. split; [reflexivity |]. right. split; [exact Hne |].
          eapply nth_error_In; exact Hc. }
    destruct Hstep as (c & Hstep & Hc). rewrite Hstep. cbn [bind].
    destruct (IH (dict_set eco c d) (if String.eqb eco "subset_C" then k else k + 1))
      as (d' & k' & Hrun & Hkeys & Hframe & Hcol).
    exists d', k'. split; [exact Hrun |]. split; [| split].
    + intros e. rewrite Hkeys, dict_set_keys. cbn [In]. split; intros H.
      * destruct H as [H | [H | H]]; auto.
      * destruct H as [[H | H] | H]; auto.
    + intros e Hnot. rewrite Hframe by (intros H; apply Hnot; now right).
      rewrite dict_get_set.
      destruct (String.eqb_spec e eco) as [-> | _]; [| reflexivity].
      exfalso. apply Hnot. now left.
    + intros e c' Hin Hget.
      destruct (in_dec string_dec e cats) as [Hrest | Hrest].
      * now apply (Hcol e c').
      * rewrite Hframe in Hget by exact Hrest. rewrite dict_get_set in Hget.
        destruct Hin as [-> | Hin]; [| contradiction].
        rewrite String.eqb_refl in Hget. inversion Hget; subst c'. exact Hc.
Qed.

Lemma dict_get_keys {V : Type} (d : dict V) (e : string) :
  In e (keys d) <-> exists v, dict_get e d = Some v.
Proof.
  unfold keys. induction d as [| [k0 v0] d IH]; cbn [map In dict_get fst].
  - split; [intros [] | intros (v & H); discriminate H].
  - destruct (String.eqb_spec e k0) as [-> | Hne].
    + split; [eauto | now left].
    + rewrite <- IH. split; [intros [H | H]; [congruence | exact H] | now right].
Qed.

(** X7. The colours of the bars of subplot [idx]. For [idx] below 3 the loop
    ends, gives a colour to every ecotype it is given and to nothing else,
    and gives ['subset_C'] the fixed colour; from the second subplot on no
    other ecotype gets the fixed colour. For [idx] of 3 or more and at least
    one ecotype, the lookup in the colour pool raises IndexError. *)
Theorem color_map_colours (idx : nat) (unique_ecotypes : list string) :
  (idx < 3 ->
   exists d,
     color_map idx unique_ecotypes = Ok d
     /\ (forall e, In e (keys d) <-> In e unique_ecotypes)
     /\ (In "subset_C" unique_ecotypes -> dict_get "subset_C" d = Some FIXED_COLOR)
     /\ (1 <= idx -> forall e, dict_get e d = Some FIXED_COLOR -> e = "subset_C"))
  /\ (3 <= idx -> unique_ecotypes <> [] ->
      color_map idx unique_ecotypes = Raise IndexError).
Proof.
  split.
  - intros Hidx. unfold color_map.
    destruct (color_loop idx unique_ecotypes [] 0 Hidx)
      as (d & k & Hrun & Hkeys & Hframe & Hcol).
    exists d. split; [unfold dict in *; rewrite Hrun; reflexivity |]. split; [| split].
    + intros e. rewrite Hkeys. cbn. tauto.
    + intros Hin.
      assert (Hk : In "subset_C" (keys d)) by (apply Hkeys; now left).
      apply dict_get_keys in Hk. destruct Hk as (c & Hget). rewrite Hget.
      destruct (Hcol _ _ Hin Hget) as [(_ & ->) | (Hne & _)]; [reflexivity | congruence].
    + intros Hpos e Hget.
      assert (Hin : In e unique_ecotypes).
      { assert (Hk : In e (keys d)) by (apply dict_get_keys; eauto).
        apply Hkeys in Hk. destruct Hk as [Hk | []]. exact Hk. }
      destruct (Hcol _ _ Hin Hget) as [(He & _) | (_ & Hpool)]; [exact He |].
      exfalso. unfold FIXED_COLOR in Hpool.
      destruct idx as [| [| [| idx]]]; [lia | | | lia];
        cbn [nth COLOR_POOL In] in Hpool; intuition discriminate.
  - intros Hidx Hne. unfold color_map.
    destruct unique_ecotypes as [| eco rest]; [congruence |].
    cbn [for_each]. unfold color_step.
    destruct (Nat.ltb_spec idx 2); [lia |].
    destruct (Nat.eqb_spec idx 2); [lia |].
    rewrite !andb_false_r.
    assert (Hpool : index COLOR_POOL idx = Raise IndexError).
    { unfold index. destruct (nth_error COLOR_POOL idx) eqn:Hn; [| reflexivity].
      assert (Hlt : idx < List.length COLOR_POOL) by (apply nth_error_Some; congruence).
      cbn in Hlt. lia. }
    rewrite Hpool. reflexivity.
Qed.

(* ------------------------------------------------------------------ *)
(** ** read_growth_file *)

Lemma find_header_none (i : nat) (l : list string) :
  find_header i l = None <-> forall line, In line l -> startswith "@" line = false.
Proof.
  revert i. induction l as [| x l IH]; intros i; cbn [find_header].
  - split; [intros _ line [] | reflexivity].
  - destruct (startswith "@" x) eqn:Hx.
    + split; [discriminate |]. intros H. rewrite (H x) in Hx; [discriminate | now left].
    + rewrite IH. split.
      * intros H line [<- | Hin]; [exact Hx | now apply H].
      * intros H line Hin. apply H. now right.
Qed.

Lemma find_header_some (i : nat) (l : list string) (k : nat) (h : string) :
  find_header i l = Some (k, h) ->
  exists j,
    k = i + j /\ nth_error l j = Some h /\ startswith "@" h = true
    /\ forall m x, m < j -> nth_error l m = Some x -> startswith "@" x = false.
Proof.
  revert i. induction l as [| x l IH]; intros i H; cbn [find_header] in H;
    [discriminate H |].
  destruct (startswith "@" x) eqn:Hx.
  - inversion H; subst. exists 0. split; [lia |]. split; [reflexivity |].
    split; [exact Hx |]. intros m y Hm. lia.
  - destruct (IH _ H) as (j & -> & Hj & Hh & Hbefore).
    exists (S j). split; [lia |]. split; [exact Hj |]. split; [exact Hh |].
    intros [| m] y Hm Hy; cbn [nth_error] in Hy.
    + inversion Hy; subst. exact Hx.
    + apply (Hbefore m); [lia | exact Hy].
Qed.

Lemma for_each_raise {A S : Type} (body : S -> A -> result S) (P : exn -> Prop)
  (xs : list A) (s : S) (e : exn) :
  (forall t x e', body t x = Raise e' -> P e') ->
  for_each body xs s = Raise e -> P e.
Proof.
  intros Hbody. revert s. induction xs as [| x xs IH]; intros s H; cbn [for_each] in H.
  - discriminate H.
  - destruct (body s x) as [t |] eqn:Hx; cbn [bind] in H.
    + now apply (IH t).
    + inversion H; subst. now apply (Hbody s x).
Qed.

Lemma fold_max_ge (l : list nat) (a n : nat) :
  In n l \/ n <= a -> n <= fold_left Nat.max l a.
Proof.
  revert a. induction l as [| x l IH]; intros a H; cbn [fold_left].
  - destruct H as [[] | H]; exact H.
  - apply IH. destruct H as [[-> | H] | H]; [right; lia | now left | right; lia].
Qed.

Lemma data_frame_ok (data : list (list string)) (headers : list string)
  (cells : list (list (option string))) :
  data_frame data headers = Ok cells ->
  cells = map (fun row => map Some row
                          ++ repeat None (List.length headers - List.length row)) data
  /\ forall row, In row data -> List.length row <= List.length headers.
Proof.
  unfold data_frame. destruct data as [| r data]; intros H.
  - inversion H. split; [reflexivity | intros row []].
  - remember (r :: data) as rows eqn:Hrows.
    assert (Hmax : forall row, In row rows ->
              List.length row <= fold_left Nat.max (map (@List.length string) rows) 0).
    { intros row Hin. apply fold_max_ge. left. now apply in_map. }
    destruct (Nat.eqb_spec (fold_left Nat.max (map (@List.length string) rows) 0)
                (List.length headers)) as [Heq | Hne]; [| discriminate H].
    rewrite Heq in *. inversion H. split; [reflexivity | exact Hmax].
Qed.

Lemma data_frame_raise (data : list (list string)) (headers : list string) (e : exn) :
  data_frame data headers = Raise e -> e = ValueError.
Proof.
  unfold data_frame. destruct data as [| r data]; [discriminate |].
  destruct (_ =? _); [discriminate |]. intros H. now inversion H.
Qed.

Lemma forall2_nth_r {A B : Type} (R : A -> B -> Prop) (xs : list A) (ys : list B)
  (k : nat) (y : B) :
  Forall2 R xs ys -> nth_error ys k = Some y ->
  exists x, nth_error xs k = Some x /\ R x y.
Proof.
  intros H. revert k. induction H as [| x0 y0 xs ys Hxy _ IH]; intros [| k] Hk;
    cbn [nth_error] in *; try discriminate Hk.
  - inversion Hk; subst. eauto.
  - now apply IH.
Qed.

Section GrowthFacts.

Variable num : Type.
Variable to_numeric : string -> option (option num).

Lemma numeric_cell_raise (c : option string) (e : exn) :
  numeric_cell to_numeric c = Raise e -> e = ValueError.
Proof.
  destruct c as [text |]; cbn [numeric_cell]; [| discriminate].
  destruct (to_numeric text); [discriminate |]. intros H. now inversion H.
Qed.

Lemma numeric_frame_raise (cells : list (list (option string))) (e : exn) :
  numeric_frame to_numeric cells = Raise e -> e = ValueError.
Proof.
  unfold numeric_frame. apply (for_each_raise _ (fun e => e = ValueError)).
  intros rows row e' H.
  destruct (for_each _ row []) as [r |] eqn:Hrow; cbn [bind] in H; [discriminate H |].
  inversion H; subst. revert Hrow. apply (for_each_raise _ (fun e => e = ValueError)).
  intros acc c e'' Hc.
  destruct (numeric_cell to_numeric c) eqn:Hcell; cbn [bind] in Hc; [discriminate Hc |].
  inversion Hc; subst. now apply (numeric_cell_raise c).
Qed.

Lemma numeric_frame_ok (cells : list (list (option string)))
  (rows : list (list (option num))) :
  numeric_frame to_numeric cells = Ok rows ->
  Forall2 (Forall2 (fun c x => numeric_cell to_numeric c = Ok x)) cells rows.
Proof.
  unfold numeric_frame. intros H.
  apply collect_ok in H. destruct H as (ys & -> & Hall). cbn [app].
  induction Hall as [| row r cells' rows' Hrow _ IH]; constructor; [| exact IH].
  apply collect_ok in Hrow. destruct Hrow as (xs & -> & Hcells). exact Hcells.
Qed.

(** X9. [read_growth_file] fails with UnboundLocalError ([header_line] is
    never bound) exactly when no line of [lines[start_line - 1:end_line]]
    starts with ['@']; the lines are not stripped for this test, so an
    indented header is not found. *)
Theorem read_growth_file_header (lines : list string) (treatment_range : nat * nat) :
  read_growth_file to_numeric lines treatment_range = Raise UnboundLocalError
  <-> forall line, In line (treatment_slice lines treatment_range) ->
                   startswith "@" line = false.
Proof.
  destruct treatment_range as [start_line end_line].
  unfold read_growth_file, treatment_slice. cbn [fst snd].
  rewrite <- (find_header_none 0).
  destruct (find_header 0 _) as [[i header_line] |] eqn:Hfind.
  - split; [| discriminate]. intros H. exfalso.
    destruct (data_frame _ _) as [cells |] eqn:Hdata; cbn [bind] in H.
    + destruct (numeric_frame to_numeric cells) as [rows |] eqn:Hrows; cbn [bind] in H.
      * discriminate H.
      * inversion H; subst. apply numeric_frame_raise in Hrows. discriminate Hrows.
    + inversion H; subst. apply data_frame_raise in Hdata. discriminate Hdata.
  - split; reflexivity.
Qed.

Lemma slice_first (lines : list string) (end_line : nat) :
  List.length (slice lines (Z.of_nat 0 - 1) (Z.of_nat end_line)) <= 1
  /\ (end_line < List.length lines ->
      slice lines (Z.of_nat 0 - 1) (Z.of_nat end_line) = []).
Proof.
  assert (Hlo : slice_bound (List.length lines) (Z.of_nat 0 - 1) = List.length lines - 1).
  { unfold slice_bound. destruct (Z.ltb_spec (Z.of_nat 0 - 1) 0); lia. }
  assert (Hhi : slice_bound (List.length lines) (Z.of_nat end_line)
                = Nat.min end_line (List.length lines)).
  { unfold slice_bound. destruct (Z.ltb_spec (Z.of_nat end_line) 0); lia. }
  unfold slice. rewrite Hlo, Hhi.
  split.
  - rewrite length_firstn. lia.
  - intros Hlt. replace (Nat.min end_line (List.length lines) - (List.length lines - 1))
      with 0 by lia. reflexivity.
Qed.

(** X10. With [start_line = 0] the slice is [lines[-1:end_line]]: it is
    empty when [end_line] is less than the number of lines, and the call then
    fails with UnboundLocalError; when the call returns, the frame has no
    row. *)
Theorem read_growth_file_first_line (lines : list string) (end_line : nat) :
  (end_line < List.length lines ->
   read_growth_file to_numeric lines (0, end_line) = Raise UnboundLocalError)
  /\ (forall df, read_growth_file to_numeric lines (0, end_line) = Ok df ->
                 gf_rows df = []).
Proof.
  destruct (slice_first lines end_line) as (Hshort & Hempty). split.
  - intros Hlt. unfold read_growth_file. now rewrite (Hempty Hlt).
  - intros df H. unfold read_growth_file in H.
    destruct (find_header 0 _) as [[i header_line] |] eqn:Hfind; [| discriminate H].
    apply find_header_some in Hfind. destruct Hfind as (j & -> & Hj & _).
    assert (Hdata : skipn (0 + j + 1)
                      (slice lines (Z.of_nat 0 - 1) (Z.of_nat end_line)) = []).
    { apply skipn_all2. lia. }
    rewrite Hdata in H. cbn [map data_frame bind numeric_frame for_each] in H.
    inversion H. reflexivity.
Qed.

(** X11. When [read_growth_file] returns, the header is the first line of
    the slice that starts with ['@'], and the columns are its words; every
    later line of the slice gives one row, in the order of the lines; no
    line has more words than the header, and the cell of a row under column
    [j] is the number read from word [j] of its line, missing when the line
    has fewer words. *)
Theorem read_growth_file_rows (lines : list string) (treatment_range : nat * nat)
  (df : growth_frame num) :
  read_growth_file to_numeric lines treatment_range = Ok df ->
  let treatment_lines := treatment_slice lines treatment_range in
  exists i header_line,
    nth_error treatment_lines i = Some header_line
    /\ startswith "@" header_line = true
    /\ (forall k line, k < i -> nth_error treatment_lines k = Some line ->
                       startswith "@" line = false)
    /\ gf_columns df = split_ws (strip header_line)
    /\ List.length (gf_rows df) = List.length treatment_lines - S i
    /\ forall k row,
         nth_error (gf_rows df) k = Some row ->
         exists line,
           nth_error treatment_lines (S i + k) = Some line
           /\ List.length (split_ws (strip line)) <= List.length (gf_columns df)
           /\ List.length row = List.length (gf_columns df)
           /\ forall j x, nth_error row j = Some x -> cell_of_line to_numeric line j x.
Proof.
  destruct treatment_range as [start_line end_line].
  unfold read_growth_file, treatment_slice. cbn [fst snd].
  set (treatment_lines := slice lines _ _). intros H.
  destruct (find_header 0 treatment_lines) as [[i header_line] |] eqn:Hfind;
    [| discriminate H].
  apply find_header_some in Hfind. destruct Hfind as (j & -> & Hj & Hat & Hbefore).
  cbn [Nat.add] in H.
  apply bind_ok in H. destruct H as (cells & Hdata & H).
  apply bind_ok in H. destruct H as (rows & Hrows & H). inversion H; subst df. clear H.
  apply data_frame_ok in Hdata. destruct Hdata as (Hcells & Hwidth).
  apply numeric_frame_ok in Hrows.
  exists j, header_line. cbn [gf_columns gf_rows].
  split; [exact Hj |]. split; [exact Hat |]. split; [exact Hbefore |].
  split; [reflexivity |]. split.
  - rewrite <- (Forall2_length Hrows), Hcells, !length_map, length_skipn. lia.
  - intros k row Hk.
    destruct (forall2_nth_r _ _ _ k row Hrows Hk) as (crow & Hcrow & Hcell).
    rewrite Hcells in Hcrow. rewrite nth_error_map in Hcrow.
    destruct (nth_error (map _ (skipn (j + 1) treatment_lines)) k) as [toks |] eqn:Htoks;
      [| discriminate Hcrow].
    cbn [option_map] in Hcrow. inversion Hcrow; subst crow. clear Hcrow.
    rewrite nth_error_map in Htoks.
    destruct (nth_error (skipn (j + 1) treatment_lines) k) as [line |] eqn:Hline;
      [| discriminate Htoks].
    cbn [option_map] in Htoks. inversion Htoks; subst toks. clear Htoks.
    assert (Hle : List.length (split_ws (strip line))
                  <= List.length (split_ws (strip header_line))).
    { apply Hwidth. apply (in_map (fun l => split_ws (strip l))).
      eapply nth_error_In. exact Hline. }
    rewrite nth_error_skipn in Hline.
    exists line. replace (S j + k) with (j + 1 + k) by lia.
    split; [exact Hline |]. split; [exact Hle |]. split.
    + rewrite <- (Forall2_length Hcell), length_app, length_map, repeat_length. lia.
    + intros c x Hx.
      destruct (forall2_nth_r _ _ _ c x Hcell Hx) as (cell & Hc & Hnum).
      unfold cell_of_line.
      destruct (nth_error (split_ws (strip line)) c) as [tok |] eqn:Htok.
      * rewrite nth_error_app1 in Hc by (rewrite length_map; apply nth_error_Some; congruence).
        rewrite nth_error_map, Htok in Hc. cbn [option_map] in Hc.
        inversion Hc; subst cell. cbn [numeric_cell] in Hnum.
        destruct (to_numeric tok); [now inversion Hnum | discriminate Hnum].
      * apply nth_error_None in Htok.
        rewrite nth_error_app2 in Hc by (now rewrite length_map).
        apply nth_error_In, repeat_spec in Hc. subst cell.
        cbn [numeric_cell] in Hnum. now inversion Hnum.
Qed.

End GrowthFacts.

Lemma read_growth_file_rows_witness :
  exists df,
    read_growth_file to_number growth_example (11, 19) = Ok df
    /\ exists i header_line,
         nth_error (treatment_slice growth_example (11, 19)) i = Some header_line
         /\ startswith "@" header_line = true
         /\ gf_columns df = split_ws (strip header_line)
         /\ List.length (gf_rows df)
            = List.length (treatment_slice growth_example (11, 19)) - S i.
Proof.
  assert (Hcall : exists df,
            read_growth_file to_number growth_example (11, 19) = Ok df)
    by (eexists; vm_compute; reflexivity).
  destruct Hcall as (df & Hcall). exists df. split; [exact Hcall |].
  destruct (read_growth_file_rows Z to_number growth_example (11, 19) df Hcall)
    as (i & header_line & Hat & Hstart & _ & Hcols & Hlen & _).
  exists i, header_line. auto.
Defined.

(* ------------------------------------------------------------------ *)
(** ** extract_treatment_info_plantgrowth *)

Lemma dict_set_same_keys {V W : Type} (k : string) (v : V) (w : W)
  (d1 : dict V) (d2 : dict W) :
  keys d1 = keys d2 -> keys (dict_set k v d1) = keys (dict_set k w d2).
Proof.
  unfold keys. revert d2. induction d1 as [| [k1 v1] d1 IH]; intros [| [k2 v2] d2] H;
    cbn [map fst] in H; try discriminate H; [reflexivity |].
  inversion H; subst. cbn [dict_set].
  destruct (String.eqb k k2); cbn [map fst]; [now f_equal |].
  f_equal. now apply IH.
Qed.

(** What a round of the scan does to the two dictionaries. *)
Lemma info_line_step_cases (lines : list string) (st st' : info_state) (i : nat) :
  info_line_step lines st i = Ok st' ->
  exists raw,
    nth_error lines i = Some raw
    /\ ((startswith "TREATMENT" (strip raw) = false
         /\ in_number st' = in_number st /\ in_experiment st' = in_experiment st)
        \/ (startswith "TREATMENT" (strip raw) = true
            /\ exists name code experiment,
                 treatment_name (strip raw) = Ok name
                 /\ treatment_code (strip raw) = Ok code
                 /\ in_number st' = dict_set name code (in_number st)
                 /\ in_experiment st' = dict_set name experiment (in_experiment st))).
Proof.
  unfold info_line_step. intros H.
  apply bind_ok in H. destruct H as (raw & Hraw & H).
  unfold index in Hraw. destruct (nth_error lines i) as [raw' |] eqn:Hnth;
    [| discriminate Hraw]. inversion Hraw; subst raw'. clear Hraw.
  exists raw. split; [reflexivity |].
  apply bind_ok in H. destruct H as (info & _ & H).
  destruct (startswith "TREATMENT" (strip raw)).
  - right. split; [reflexivity |].
    apply bind_ok in H. destruct H as (code & Hcode & H).
    apply bind_ok in H. destruct H as (name & Hname & H).
    apply bind_ok in H. destruct H as (experiment & _ & H).
    inversion H; subst st'. cbn [in_number in_experiment].
    exists name, code, experiment. auto.
  - left. inversion H; subst st'. cbn [in_number in_experiment]. auto.
Qed.

Lemma info_scan_inv (P : info_state -> Prop) (lines : list string)
  (treatment_dict : dict (nat * nat)) (st st' : info_state) :
  (forall t t' i, info_line_step lines t i = Ok t' -> P t -> P t') ->
  P st ->
  for_each (info_treatment_step lines) treatment_dict st = Ok st' -> P st'.
Proof.
  intros Hstep Hst. apply for_each_inv; [exact Hst |].
  intros [name [s e]] t t' _ Ht Hrun. unfold info_treatment_step in Hrun.
  revert Hrun. apply for_each_inv; [exact Ht |].
  intros i u u' _ Hu Hline. now apply (Hstep u u' i).
Qed.

(** The two dictionaries are filled together: they have the same keys, in
    the same order. *)
Lemma info_tables_keys (lines : list string) (treatment_dict : dict (nat * nat))
  (number experiment : dict string) :
  extract_treatment_info_plantgrowth lines treatment_dict = Ok (number, experiment) ->
  keys number = keys experiment.
Proof.
  unfold extract_treatment_info_plantgrowth. intros H.
  apply bind_ok in H. destruct H as (st & Hrun & H). inversion H; subst.
  revert Hrun.
  apply (info_scan_inv (fun st => keys (in_number st) = keys (in_experiment st)));
    [| reflexivity].
  intros t t' i Hline Ht. apply info_line_step_cases in Hline.
  destruct Hline as (raw & _ & [(_ & -> & ->) | (_ & name & code & ex & _ & _ & -> & ->)]).
  - exact Ht.
  - now apply dict_set_same_keys.
Qed.

Lemma for_each_raise_in {A S : Type} (body : S -> A -> result S) (P : exn -> Prop)
  (xs : list A) (s : S) (e : exn) :
  (forall t x e', In x xs -> body t x = Raise e' -> P e') ->
  for_each body xs s = Raise e -> P e.
Proof.
  revert s. induction xs as [| x xs IH]; intros s Hbody H; cbn [for_each] in H.
  - discriminate H.
  - destruct (body s x) as [t |] eqn:Hx; cbn [bind] in H.
    + apply (IH t); [| exact H]. intros u y e' Hy. apply Hbody. now right.
    + inversion H; subst. apply (Hbody s x); [now left | exact Hx].
Qed.

Import TimeSeries.

Lemma py_int_raise (s : string) (e : exn) : py_int s = Raise e -> e = ValueError.
Proof.
  unfold py_int. destruct (match chars (strip s) with [] => _ | _ => _ end);
    [discriminate |]. intros H. now inversion H.
Qed.

(** X14. After [extract_treatment_info_plantgrowth], the loop that builds
    the mapping rows never fails for a missing key:
    [treatment_number_name[sim_id]] is found for every key of
    [treatment_experiment_name]. The loop can only fail with ValueError, for
    a name that is not of the form [treatment_genotype] or a treatment number
    that is not an integer. *)
Theorem treatment_numbers_found (lines : list string)
  (treatment_dict : dict (nat * nat))
  (treatment_number_name treatment_experiment_name : dict string) (e : exn) :
  extract_treatment_info_plantgrowth lines treatment_dict
  = Ok (treatment_number_name, treatment_experiment_name) ->
  mapping_rows treatment_number_name treatment_experiment_name = Raise e ->
  e = ValueError.
Proof.
  intros Hcall. pose proof (info_tables_keys _ _ _ _ Hcall) as Hkeys.
  cbn [fst snd] in Hkeys. unfold mapping_rows.
  apply (for_each_raise_in _ (fun e => e = ValueError)).
  intros rows [sim_id experiment_id] e' Hin Hrow.
  destruct (mapping_row_of treatment_number_name (sim_id, experiment_id))
    as [row |] eqn:Hmap; cbn [bind] in Hrow; [discriminate Hrow |].
  inversion Hrow; subst e0. clear Hrow. unfold mapping_row_of in Hmap.
  assert (Hkey : In sim_id (keys treatment_number_name)).
  { rewrite Hkeys. unfold keys. apply in_map_iff. now exists (sim_id, experiment_id). }
  apply dict_get_keys in Hkey. destruct Hkey as (number & Hget).
  unfold dict_index in Hmap. rewrite Hget in Hmap. cbn [bind] in Hmap.
  unfold split_sim_id in Hmap.
  destruct (split "_" sim_id) as [| treat [| geno [| x rest]]]; cbn [bind] in Hmap;
    try (now inversion Hmap).
  destruct (py_int number) eqn:Hint; cbn [bind] in Hmap; [discriminate Hmap |].
  inversion Hmap; subst. now apply (py_int_raise number).
Qed.

Lemma treatment_numbers_found_witness :
  extract_treatment_info_plantgrowth unnamed_example [("WW23", (0, 5))]
  = Ok ([("WW23", "1")], [("WW23", "EXP1")])
  /\ mapping_rows [("WW23", "1")] [("WW23", "EXP1")] = Raise ValueError.
Proof.
  assert (Hcall : extract_treatment_info_plantgrowth unnamed_example [("WW23", (0, 5))]
                  = Ok ([("WW23", "1")], [("WW23", "EXP1")]))
    by (vm_compute; reflexivity).
  split; [exact Hcall |].
  destruct (mapping_rows [("WW23", "1")] [("WW23", "EXP1")]) as [rows | e] eqn:Hmap.
  - vm_compute in Hmap. discriminate Hmap.
  - f_equal.
    exact (treatment_numbers_found unnamed_example [("WW23", (0, 5))]
             [("WW23", "1")] [("WW23", "EXP1")] e Hcall Hmap).
Defined.

Lemma for_each_visit {A S : Type} (body : S -> A -> result S) (P : S -> Prop)
  (xs : list A) (x : A) (s s' : S) :
  In x xs ->
  (forall t t', body t x = Ok t' -> P t') ->
  (forall t y t', body t y = Ok t' -> P t -> P t') ->
  for_each body xs s = Ok s' -> P s'.
Proof.
  intros Hin Hat Hkeep. revert s. induction xs as [| y xs IH]; intros s Hrun;
    [destruct Hin |].
  cbn [for_each] in Hrun. apply bind_ok in Hrun. destruct Hrun as (t & Hy & Hrest).
  destruct Hin as [-> | Hin].
  - revert Hrest. apply for_each_inv; [now apply (Hat s) |].
    intros z u u' _ Hu Hz. now apply (Hkeep u z u').
  - now apply (IH Hin t).
Qed.

(** X13. With the ranges that [simulations_lines] gives for the same lines,
    every treatment whose first TREATMENT line lies before the end index of
    its range has an entry in both dictionaries. *)
Theorem treatment_info_covers_blocks (lines : list string)
  (treatment_dict : dict (nat * nat))
  (treatment_number_name treatment_experiment_name : dict string) :
  simulations_lines lines = Ok treatment_dict ->
  extract_treatment_info_plantgrowth lines treatment_dict
  = Ok (treatment_number_name, treatment_experiment_name) ->
  forall name s e,
    In (name, (s, e)) treatment_dict ->
    (forall j, first_treatment lines s e j -> j < e) ->
    exists number experiment,
      dict_get name treatment_number_name = Some number
      /\ dict_get name treatment_experiment_name = Some experiment.
Proof.
  intros Hdict Hcall name s e Hin Hlast.
  pose proof (info_tables_keys _ _ _ _ Hcall) as Hkeys.
  cbn [fst snd] in Hkeys.
  assert (Hkey : In name (keys treatment_number_name)).
  { destruct (simulations_lines_entries lines treatment_dict Hdict)
      as (_ & Hentry & _).
    destruct (Hentry name s e Hin) as (_ & j & raw & Hfirst & Hraw & Hname).
    pose proof (Hlast j Hfirst) as Hj. destruct Hfirst as ((Hsj & _) & Hat & _).
    unfold extract_treatment_info_plantgrowth in Hcall.
    apply bind_ok in Hcall. destruct Hcall as (st & Hrun & Hst).
    inversion Hst; subst. clear Hst. revert Hrun.
    assert (Hkeep : forall t t' i,
              info_line_step lines t i = Ok t' ->
              In name (keys (in_number t)) -> In name (keys (in_number t'))).
    { intros t t' i Hline Ht. apply info_line_step_cases in Hline.
      destruct Hline as (raw' & _ & [(_ & -> & _) | (_ & n & c & x & _ & _ & -> & _)]);
        [exact Ht |]. apply dict_set_keys. now right. }
    apply (for_each_visit _ (fun st => In name (keys (in_number st))) _ (name, (s, e)));
      [exact Hin | |].
    - intros t t' Hblock. unfold info_treatment_step in Hblock. revert Hblock.
      apply (for_each_visit _ (fun st => In name (keys (in_number st))) _ j).
      + apply in_seq. lia.
      + intros u u' Hline. apply info_line_step_cases in Hline.
        destruct Hline as (raw' & Hraw' & Hcases).
        rewrite Hraw in Hraw'. inversion Hraw'; subst raw'.
        destruct Hcases as [(Hno & _) | (_ & n & c & x & Hn & _ & -> & _)].
        * destruct Hat as (raw2 & Hraw2 & Hstart). rewrite Hraw in Hraw2.
          inversion Hraw2; subst raw2. congruence.
        * rewrite Hname in Hn. inversion Hn; subst n. apply dict_set_keys. now left.
      + intros u i u'. apply Hkeep.
    - intros t [n [a b]] t' Hblock Ht. unfold info_treatment_step in Hblock.
      revert Hblock.
      apply (for_each_inv _ (fun st => In name (keys (in_number st)))); [exact Ht |].
      intros i u u' _ Hu Hline. now apply (Hkeep u u' i). }
  assert (Hkey' : In name (keys treatment_experiment_name)) by now rewrite <- Hkeys.
  apply dict_get_keys in Hkey. apply dict_get_keys in Hkey'.
  destruct Hkey as (number & Hn). destruct Hkey' as (experiment & Hx). eauto.
Qed.

Lemma treatment_info_covers_blocks_witness :
  exists treatment_number_name treatment_experiment_name number experiment,
    extract_treatment_info_plantgrowth growth_example growth_example_ranges
    = Ok (treatment_number_name, treatment_experiment_name)
    /\ dict_get "WW23_G1" treatment_number_name = Some number
    /\ dict_get "WW23_G1" treatment_experiment_name = Some experiment.
Proof.
  assert (Hdict : simulations_lines growth_example = Ok growth_example_ranges)
    by (vm_compute; reflexivity).
  assert (Hcall : exists tables,
            extract_treatment_info_plantgrowth growth_example growth_example_ranges
            = Ok tables)
    by (eexists; vm_compute; reflexivity).
  destruct Hcall as ([number_name experiment_name] & Hcall).
  assert (Hin : In ("WW23_G1", (2, 10)) growth_example_ranges) by now left.
  assert (Hlast : forall j, first_treatment growth_example 2 10 j -> j < 10).
  { intros j ((_ & Hle) & (raw & Hraw & Hstart) & _).
    destruct (Nat.eq_dec j 10) as [-> |]; [| lia].
    vm_compute in Hraw. injection Hraw as <-. vm_compute in Hstart.
    discriminate Hstart. }
  destruct (treatment_info_covers_blocks growth_example growth_example_ranges
              number_name experiment_name Hdict Hcall "WW23_G1" 2 10 Hin Hlast)
    as (number & experiment & Hn & Hx).
  exists number_name, experiment_name, number, experiment. auto.
Defined.

(* ------------------------------------------------------------------ *)
(** ** compute_global_metric_limits *)

Import Limits.

Section Extremum.

Variable A : Type.
Variable le : A -> A -> bool.
Hypothesis le_total : forall x y, le x y = true \/ le y x = true.
Hypothesis le_trans : forall x y z, le x y = true -> le y z = true -> le x z = true.

Lemma fold_extremum (rest : list A) (x : A) :
  let m := fold_left (fun acc y => if le acc y then acc else y) rest x in
  (m = x \/ In m rest) /\ le m x = true /\ forall z, In z rest -> le m z = true.
Proof.
  revert x. induction rest as [| y rest IH]; intros x; cbn [fold_left].
  - split; [now left |]. split; [| intros z []].
    destruct (le_total x x); assumption.
  - destruct (IH (if le x y then x else y)) as (Hin & Hle & Hall).
    set (m := fold_left _ rest _) in *.
    destruct (le x y) eqn:Hxy.
    + split; [destruct Hin; [now left | right; now right] |].
      split; [exact Hle |]. intros z [<- | Hz]; [| now apply Hall].
      now apply (le_trans m x y).
    + assert (Hyx : le y x = true) by (destruct (le_total x y); congruence).
      split; [right; destruct Hin; [now left | now right] |].
      split; [now apply (le_trans m y x) |].
      intros z [<- | Hz]; [exact Hle | now apply Hall].
Qed.

Lemma extremum_spec (xs : list A) :
  match extremum le xs with
  | None => xs = []
  | Some m => In m xs /\ forall z, In z xs -> le m z = true
  end.
Proof.
  destruct xs as [| x rest]; [reflexivity |]. cbn [extremum].
  destruct (fold_extremum rest x) as (Hin & Hle & Hall). split.
  - destruct Hin as [-> | Hin]; [now left | now right].
  - intros z [<- | Hz]; [exact Hle | now apply Hall].
Qed.

End Extremum.

Lemma present_in {V : Type} (cells : list (option V)) (v : V) :
  In v (present cells) <-> In (Some v) cells.
Proof.
  unfold present. rewrite in_flat_map. split.
  - intros ([x |] & Hin & Hv); [| destruct Hv].
    destruct Hv as [<- | []]. exact Hin.
  - intros Hin. exists (Some v). split; [exact Hin | now left].
Qed.

Section LimitFacts.

Variable V : Type.
Variable leb : V -> V -> bool.
Hypothesis leb_total : forall x y, leb x y = true \/ leb y x = true.
Hypothesis leb_trans :
  forall x y z, leb x y = true -> leb y z = true -> leb x z = true.

Lemma series_bounds (cells : list (option V)) :
  bounded_by leb cells (series_min leb cells) (series_max leb cells).
Proof.
  unfold bounded_by, series_min, series_max.
  pose proof (extremum_spec V leb leb_total leb_trans (present cells)) as Hmin.
  pose proof (extremum_spec V (fun a b => leb b a)
                (fun x y => match leb_total y x with
                            | or_introl H => or_introl H
                            | or_intror H => or_intror H
                            end)
                (fun x y z Hxy Hyz => leb_trans z y x Hyz Hxy) (present cells)) as Hmax.
  destruct (extremum leb (present cells)) as [a |].
  - destruct (extremum (fun a b => leb b a) (present cells)) as [b |].
    + right. exists a, b. destruct Hmin as (Ha & Hlo). destruct Hmax as (Hb & Hhi).
      split; [reflexivity |]. split; [reflexivity |].
      split; [now apply present_in |]. split; [now apply present_in |].
      intros v Hv. apply present_in in Hv. split; [now apply Hlo | now apply Hhi].
    + destruct Hmin as (Ha & _). rewrite Hmax in Ha. destruct Ha.
  - left. split; [exact Hmin |]. split; [reflexivity |].
    destruct (extremum (fun a b => leb b a) (present cells)) as [b |]; [| reflexivity].
    destruct Hmax as (Hb & _). rewrite Hmin in Hb. destruct Hb.
Qed.

(** X17. [compute_global_metric_limits] returns the eight limits, and for
    each metric the two limits bound the selected values that are not
    missing and are two of them; both limits are missing when no selected
    value is present. The order on the values is total and transitive. *)
Theorem compute_global_metric_limits_bounds
  (nrmse_data mpe_data r2_data gain_data : list (Grid.metric_row V))
  (selected_variables selected_short_labels : list string) :
  let limits :=
    compute_global_metric_limits leb nrmse_data mpe_data r2_data gain_data
      selected_variables selected_short_labels in
  keys limits = ["nrmse_min"; "nrmse_max"; "mpe_min"; "mpe_max";
                 "r2_min"; "r2_max"; "gain_min"; "gain_max"]
  /\ forall metric data,
       In (metric, data) [("nrmse", nrmse_data); ("mpe", mpe_data);
                          ("r2", r2_data); ("gain", gain_data)] ->
       exists lo hi,
         dict_get (String.append metric "_min") limits = Some lo
         /\ dict_get (String.append metric "_max") limits = Some hi
         /\ bounded_by leb
              (limit_cells data selected_variables selected_short_labels) lo hi.
Proof.
  cbv zeta. split; [reflexivity |].
  intros metric data Hin. cbn [In] in Hin.
  destruct Hin as [H | [H | [H | [H | []]]]]; inversion H; subst metric data;
    eexists; eexists; (split; [reflexivity |]); (split; [reflexivity |]);
    apply series_bounds.
Qed.

End LimitFacts.

Lemma compute_global_metric_limits_bounds_witness :
  exists lo hi,
    dict_get "nrmse_min"
      (compute_global_metric_limits Z.leb grid_example [] [] [] ["Yield"; "LAI"]
         ["A"; "B"]) = Some lo
    /\ dict_get "nrmse_max"
         (compute_global_metric_limits Z.leb grid_example [] [] [] ["Yield"; "LAI"]
            ["A"; "B"]) = Some hi
    /\ bounded_by Z.leb (limit_cells grid_example ["Yield"; "LAI"] ["A"; "B"]) lo hi.
Proof.
  assert (Htotal : forall x y, Z.leb x y = true \/ Z.leb y x = true).
  { intros x y. destruct (Z.leb_spec x y); [now left | right].
    apply Z.leb_le. lia. }
  assert (Htrans : forall x y z,
            Z.leb x y = true -> Z.leb y z = true -> Z.leb x z = true).
  { intros x y z Hxy Hyz. apply Z.leb_le in Hxy. apply Z.leb_le in Hyz.
    apply Z.leb_le. lia. }
  destruct (compute_global_metric_limits_bounds Z Z.leb Htotal Htrans
              grid_example [] [] [] ["Yield"; "LAI"] ["A"; "B"]) as (_ & H).
  apply (H "nrmse" grid_example). now left.
Defined.

(* ------------------------------------------------------------------ *)
(** ** The sampling order *)

Import Sampling.

Lemma smaller_in (group : list Z) (x y : Z) :
  In y (smaller group x) <-> In y group /\ (y < x)%Z.
Proof.
  unfold smaller. rewrite nodup_In, filter_In, Z.ltb_lt. reflexivity.
Qed.

Lemma dense_rank_smaller (group : list Z) (x : Z) :
  dense_rank group x = (1 + Z.of_nat (List.length (smaller group x)))%Z.
Proof. reflexivity. Qed.

Lemma dense_rank_lt (group : list Z) (x y : Z) :
  In x group -> (x < y)%Z -> (dense_rank group x < dense_rank group y)%Z.
Proof.
  intros Hx Hlt. rewrite !dense_rank_smaller.
  assert (Hlen : List.length (x :: smaller group x) <= List.length (smaller group y)).
  { apply NoDup_incl_length.
    - constructor; [| apply NoDup_nodup].
      intros H. apply smaller_in in H. lia.
    - intros z [<- | Hz]; apply smaller_in.
      + split; [exact Hx | exact Hlt].
      + apply smaller_in in Hz. split; [tauto | lia]. }
  cbn [List.length] in Hlen. lia.
Qed.

(** Within a group the ranks follow the values. *)
Lemma dense_rank_order (group : list Z) (x y : Z) :
  In x group -> In y group ->
  ((x < y)%Z <-> (dense_rank group x < dense_rank group y)%Z)
  /\ (x = y <-> dense_rank group x = dense_rank group y).
Proof.
  intros Hx Hy.
  pose proof (dense_rank_lt group x y Hx) as Hxy.
  pose proof (dense_rank_lt group y x Hy) as Hyx.
  destruct (Z.lt_trichotomy x y) as [H | [H | H]].
  - specialize (Hxy H). split; split; intros; lia.
  - subst y. split; split; intros; try reflexivity; lia.
  - specialize (Hyx H). split; split; intros; lia.
Qed.

Lemma greatest_of (l : list Z) :
  l <> [] -> exists m, In m l /\ forall x, In x l -> (x <= m)%Z.
Proof.
  induction l as [| a l IH]; intros Hne; [congruence |].
  destruct l as [| b l].
  - exists a. split; [now left |]. intros x [<- | []]. lia.
  - destruct IH as (m & Hm & Hmax); [discriminate |].
    destruct (Z.le_gt_cases a m).
    + exists m. split; [now right |]. intros x [<- | Hx]; [lia | now apply Hmax].
    + exists a. split; [now left |]. intros x [<- | Hx]; [lia |].
      specialize (Hmax x Hx). lia.
Qed.

(** The ranks of a group have no gap. *)
Lemma dense_rank_gap (group : list Z) (x : Z) :
  (1 <= dense_rank group x)%Z
  /\ ((1 < dense_rank group x)%Z ->
      exists y, In y group /\ dense_rank group y = (dense_rank group x - 1)%Z).
Proof.
  rewrite dense_rank_smaller. split; [lia |]. intros Hgt.
  destruct (greatest_of (smaller group x)) as (m & Hm & Hmax).
  { destruct (smaller group x); [cbn [List.length] in Hgt; lia | discriminate]. }
  pose proof (proj1 (smaller_in group x m) Hm) as (Hmg & Hmx).
  exists m. split; [exact Hmg |]. rewrite dense_rank_smaller.
  assert (Hperm : Permutation (m :: smaller group m) (smaller group x)).
  { apply NoDup_Permutation.
    - constructor; [| apply NoDup_nodup]. intros H. apply smaller_in in H. lia.
    - apply NoDup_nodup.
    - intros z. cbn [In]. rewrite !smaller_in. split.
      + intros [<- | (Hz & Hlt)]; [tauto | split; [exact Hz | lia]].
      + intros (Hz & Hlt).
        assert (Hzm : (z <= m)%Z) by (apply Hmax; apply smaller_in; tauto).
        destruct (Z.eq_dec m z) as [-> | Hne]; [now left | right].
        split; [exact Hz | lia]. }
  apply Permutation_length in Hperm. cbn [List.length] in Hperm. lia.
Qed.

Lemma group_values_in (rows : list merged_row) (g : string) (d : Z) :
  In d (group_values rows g)
  <-> exists r, In r rows /\ genotype_of r = Some g /\ mr_DAP r = Some d.
Proof.
  unfold group_values. rewrite in_flat_map. split.
  - intros (r & Hr & Hd). apply filter_In in Hr. destruct Hr as (Hr & Hg).
    exists r. split; [exact Hr |]. unfold same_genotype in Hg.
    destruct (genotype_of r) as [g' |]; [| discriminate Hg].
    apply String.eqb_eq in Hg. subst g'. split; [reflexivity |].
    destruct (mr_DAP r) as [d' |]; [| destruct Hd].
    destruct Hd as [<- | []]. reflexivity.
  - intros (r & Hr & Hg & Hd). exists r. split.
    + apply filter_In. split; [exact Hr |]. unfold same_genotype.
      rewrite Hg. apply String.eqb_refl.
    + rewrite Hd. now left.
Qed.

Lemma sampling_id_entries (rows : list merged_row) (out : list (merged_row * Z)) :
  sampling_id rows = Ok out ->
  map fst out = rows
  /\ forall r k, In (r, k) out -> rank_of rows r = Some k.
Proof.
  unfold sampling_id.
  generalize (rank_of rows) as f. intros f.
  assert (Hgen : forall l acc out,
            for_each (fun acc r => match f r with
                                   | Some k => Ok (acc ++ [(r, k)])
                                   | None => Raise ValueError
                                   end) l acc = Ok out ->
            map fst out = map fst acc ++ l
            /\ forall r k, In (r, k) out -> In (r, k) acc \/ f r = Some k).
  { induction l as [| r l IH]; intros acc o H; cbn [for_each] in H.
    - inversion H; subst. rewrite app_nil_r. split; [reflexivity | auto].
    - destruct (f r) as [k |] eqn:Hr; cbn [bind] in H; [| discriminate H].
      destruct (IH _ _ H) as (Hmap & Hin). split.
      + rewrite Hmap, map_app. cbn [map fst]. now rewrite <- app_assoc.
      + intros r' k' Hout. destruct (Hin r' k' Hout) as [Hacc | Hf]; [| now right].
        apply in_app_or in Hacc. destruct Hacc as [Hacc | [Heq | []]]; [now left |].
        inversion Heq; subst. now right. }
  intros H. destruct (Hgen rows [] out H) as (Hmap & Hin). split; [exact Hmap |].
  intros r k Hout. destruct (Hin r k Hout) as [[] | Hf]. exact Hf.
Qed.

(** X16. The sampling ids. The conversion to integers succeeds when every
    row has a genotype and a DAP, and fails with ValueError when some row
    lacks one. When it succeeds, every row gets an id; within a genotype the
    ids follow the order of the DAP values (equal DAP, equal id), start at 1
    and leave no gap. *)
Theorem sampling_id_dense (rows : list merged_row) :
  ((forall r, In r rows -> genotype_of r <> None /\ mr_DAP r <> None) ->
   exists out, sampling_id rows = Ok out)
  /\ ((exists r, In r rows /\ (genotype_of r = None \/ mr_DAP r = None)) ->
      sampling_id rows = Raise ValueError)
  /\ forall out,
       sampling_id rows = Ok out ->
       map fst out = rows
       /\ (forall r k r' k' d d',
             In (r, k) out -> In (r', k') out ->
             genotype_of r = genotype_of r' ->
             mr_DAP r = Some d -> mr_DAP r' = Some d' ->
             ((d < d')%Z <-> (k < k')%Z) /\ (d = d' <-> k = k'))
       /\ (forall r k,
             In (r, k) out ->
             (1 <= k)%Z
             /\ ((1 < k)%Z ->
                 exists r', In (r', (k - 1)%Z) out /\ genotype_of r' = genotype_of r)).
Proof.
  split; [| split].
  - intros Hall. unfold sampling_id.
    assert (Hgen : forall l acc,
              (forall r, In r l -> rank_of rows r <> None) ->
              exists out,
                for_each (fun acc r => match rank_of rows r with
                                       | Some k => Ok (acc ++ [(r, k)])
                                       | None => Raise ValueError
                                       end) l acc = Ok out).
    { induction l as [| r l IH]; intros acc Hl; cbn [for_each]; [eauto |].
      destruct (rank_of rows r) as [k |] eqn:Hr; [| now destruct (Hl r (or_introl eq_refl))].
      cbn [bind]. apply IH. intros r' Hr'. apply Hl. now right. }
    apply Hgen. intros r Hr. destruct (Hall r Hr) as (Hg & Hd). unfold rank_of.
    destruct (genotype_of r); [| congruence]. destruct (mr_DAP r); [discriminate | congruence].
  - intros (r & Hr & Hmiss).
    destruct (sampling_id rows) as [out | e] eqn:Hrun.
    + exfalso. destruct (sampling_id_entries rows out Hrun) as (Hmap & Hrank).
      rewrite <- Hmap in Hr. apply in_map_iff in Hr.
      destruct Hr as ([r0 k] & Heq & Hin). cbn [fst] in Heq. subst r0.
      specialize (Hrank r k Hin). unfold rank_of in Hrank.
      destruct Hmiss as [Hg | Hd]; [rewrite Hg in Hrank; discriminate Hrank |].
      rewrite Hd in Hrank. destruct (genotype_of r); discriminate Hrank.
    + f_equal. revert Hrun. unfold sampling_id.
      apply (for_each_raise _ (fun e => e = ValueError)).
      intros acc x e' Hx. destruct (rank_of rows x); [discriminate Hx |].
      now inversion Hx.
  - intros out Hrun. destruct (sampling_id_entries rows out Hrun) as (Hmap & Hrank).
    split; [exact Hmap |].
    assert (Hrow : forall r k, In (r, k) out -> In r rows).
    { intros r k Hin. rewrite <- Hmap. apply in_map_iff. now exists (r, k). }
    split.
    + intros r k r' k' d d' Hin Hin' Hsame Hd Hd'.
      pose proof (Hrank r k Hin) as Hk. pose proof (Hrank r' k' Hin') as Hk'.
      unfold rank_of in Hk, Hk'. rewrite Hd in Hk. rewrite Hd' in Hk'.
      rewrite <- Hsame in Hk'.
      destruct (genotype_of r) as [g |] eqn:Hg; [| discriminate Hk].
      inversion Hk; subst k. inversion Hk'; subst k'.
      apply dense_rank_order; apply group_values_in.
      * exists r. split; [now apply (Hrow r _ Hin) | auto].
      * exists r'. split; [now apply (Hrow r' _ Hin') | auto].
    + intros r k Hin. pose proof (Hrank r k Hin) as Hk. unfold rank_of in Hk.
      destruct (genotype_of r) as [g |] eqn:Hg; [| discriminate Hk].
      destruct (mr_DAP r) as [d |] eqn:Hd; [| discriminate Hk].
      inversion Hk; subst k. clear Hk.
      destruct (dense_rank_gap (group_values rows g) d) as (Hone & Hgap).
      split; [exact Hone |]. intros Hgt.
      destruct (Hgap Hgt) as (y & Hy & Hrank_y).
      apply group_values_in in Hy. destruct Hy as (r' & Hr' & Hg' & Hd').
      exists r'. split; [| exact Hg'].
      rewrite <- Hmap in Hr'. apply in_map_iff in Hr'.
      destruct Hr' as ([r0 k0] & Heq & Hin0). cbn [fst] in Heq. subst r0.
      pose proof (Hrank r' k0 Hin0) as Hk0. unfold rank_of in Hk0.
      rewrite Hg', Hd' in Hk0. inversion Hk0; subst k0.
      rewrite Hrank_y in Hin0. exact Hin0.
Qed.

(* ------------------------------------------------------------------ *)
(** ** Where the entries of the two dictionaries come from *)

Lemma dict_set_from {V : Type} (k : string) (v : V) (d : dict V) (k' : string) (v' : V) :
  In (k', v') (dict_set k v d) -> (k' = k /\ v' = v) \/ In (k', v') d.
Proof.
  induction d as [| [k0 v0] d IH]; cbn [dict_set In].
  - intros [H | []]. inversion H. now left.
  - destruct (String.eqb k k0); cbn [In].
    + intros [H | H]; [inversion H; now left | right; now right].
    + intros [H | H]; [right; now left |].
      destruct (IH H) as [Heq | Hin]; [now left | right; now right].
Qed.

Lemma info_line_step_sound (lines : list string) (treatment_dict : dict (nat * nat))
  (st st' : info_state) (i : nat) :
  in_ranges treatment_dict i ->
  info_line_step lines st i = Ok st' ->
  let sound st :=
    (forall name code, In (name, code) (in_number st) ->
                       number_read lines treatment_dict name code)
    /\ (forall name x, In (name, x) (in_experiment st) ->
                       experiment_read lines treatment_dict x)
    /\ (forall x, in_experiment_info st = Some x ->
                  experiment_read lines treatment_dict x) in
  sound st -> sound st'.
Proof.
  intros Hi H sound (Hnum & Hexp & Hinfo). unfold info_line_step in H.
  apply bind_ok in H. destruct H as (raw & Hraw & H).
  unfold index in Hraw. destruct (nth_error lines i) as [raw' |] eqn:Hnth;
    [| discriminate Hraw]. inversion Hraw; subst raw'. clear Hraw.
  apply bind_ok in H. destruct H as (info & Hx & H).
  assert (Hinfo' : forall x, info = Some x -> experiment_read lines treatment_dict x).
  { destruct (startswith "EXPERIMENT" (strip raw)) eqn:Hstart.
    - apply bind_ok in Hx. destruct Hx as (x0 & Hcode & Hx). inversion Hx; subst info.
      intros x Heq. inversion Heq; subst x0. exists i, raw. auto.
    - inversion Hx; subst info. exact Hinfo. }
  destruct (startswith "TREATMENT" (strip raw)) eqn:Htreat.
  - apply bind_ok in H. destruct H as (code & Hcode & H).
    apply bind_ok in H. destruct H as (name & Hname & H).
    apply bind_ok in H. destruct H as (experiment & Hbound & H).
    inversion H; subst st'. clear H. unfold sound. cbn [in_number in_experiment in_experiment_info].
    split; [| split; [| exact Hinfo']].
    + intros n c Hin. apply dict_set_from in Hin.
      destruct Hin as [(-> & ->) | Hin]; [| now apply Hnum].
      exists i, raw. auto.
    + intros n x Hin. apply dict_set_from in Hin.
      destruct Hin as [(-> & ->) | Hin]; [| now apply (Hexp n)].
      apply Hinfo'. destruct info; [now inversion Hbound | discriminate Hbound].
  - inversion H; subst st'. clear H. unfold sound.
    cbn [in_number in_experiment in_experiment_info]. auto.
Qed.

(** X12. Every entry of the first dictionary was read from a TREATMENT line
    inside one of the ranges (the name after the colon, the number before
    it), and every experiment of the second from an EXPERIMENT line inside
    one of the ranges. *)
Theorem treatment_info_sound (lines : list string) (treatment_dict : dict (nat * nat))
  (treatment_number_name treatment_experiment_name : dict string) :
  extract_treatment_info_plantgrowth lines treatment_dict
  = Ok (treatment_number_name, treatment_experiment_name) ->
  (forall name code,
     In (name, code) treatment_number_name ->
     number_read lines treatment_dict name code)
  /\ (forall name experiment,
        In (name, experiment) treatment_experiment_name ->
        experiment_read lines treatment_dict experiment).
Proof.
  unfold extract_treatment_info_plantgrowth. intros H.
  apply bind_ok in H. destruct H as (st & Hrun & H). inversion H; subst. clear H.
  set (sound := fun st : info_state =>
         (forall name code, In (name, code) (in_number st) ->
                            number_read lines treatment_dict name code)
         /\ (forall name x, In (name, x) (in_experiment st) ->
                            experiment_read lines treatment_dict x)
         /\ (forall x, in_experiment_info st = Some x ->
                       experiment_read lines treatment_dict x)).
  assert (Hsound : sound st).
  { revert Hrun. apply (for_each_inv _ sound).
    - unfold sound. cbn [in_number in_experiment in_experiment_info].
      split; [intros n c [] |]. split; [intros n x [] | discriminate].
    - intros [name [s e]] t t' Hentry Ht Hblock. unfold info_treatment_step in Hblock.
      revert Hblock. apply (for_each_inv _ sound); [exact Ht |].
      intros i u u' Hi Hu Hline. apply in_seq in Hi.
      apply (info_line_step_sound lines treatment_dict u u' i); [| exact Hline | exact Hu].
      exists name, s, e. split; [exact Hentry | lia]. }
  destruct Hsound as (Hnum & Hexp & _). split; [exact Hnum | exact Hexp].
Qed.

Lemma treatment_info_sound_witness :
  number_read growth_example growth_example_ranges "WW23_G1" "1".
Proof.
  assert (Hcall : extract_treatment_info_plantgrowth growth_example growth_example_ranges
                  = Ok ([("WW23_G1", "1"); ("WW23_G2", "2")],
                        [("WW23_G1", "EXP1"); ("WW23_G2", "EXP1")]))
    by (vm_compute; reflexivity).
  apply (proj1 (treatment_info_sound growth_example growth_example_ranges _ _ Hcall)).
  now left.
Defined.

Import Legend PlantGroDate.

(* ------------------------------------------------------------------ *)
(** ** The colours of the calibrations *)


Lemma legend_loop_frame (codes : list string) (k : nat) (d : dict (string * nat))
  (c : string) :
  ~ In c codes ->
  dict_get c (fold_left legend_step (combine (seq k (List.length codes)) codes) d)
  = dict_get c d.
Proof.
  revert k d. induction codes as [| x codes IH]; intros k d Hnot; [reflexivity |].
  cbn [List.length seq combine fold_left]. rewrite IH by (intros H; apply Hnot; now right).
  unfold legend_step. rewrite dict_get_set.
  destruct (String.eqb_spec c x) as [-> | _]; [| reflexivity].
  exfalso. apply Hnot. now left.
Qed.

(** The entry of the calibration at position [j]. *)
Lemma legend_loop_entry (codes : list string) (k : nat) (d : dict (string * nat))
  (j : nat) (c : string) :
  NoDup codes -> nth_error codes j = Some c ->
  dict_get c (fold_left legend_step (combine (seq k (List.length codes)) codes) d)
  = Some (nth ((k + j) mod 14) COLOR_PALETTE EmptyString,
          nth ((k + j) mod 14) LINESTYLES 0).
Proof.
  revert k d j. induction codes as [| x codes IH]; intros k d j Hnodup Hj;
    [destruct j; discriminate Hj |].
  inversion Hnodup as [| ? ? Hnot Hrest]; subst.
  cbn [List.length seq combine fold_left]. destruct j as [| j]; cbn [nth_error] in Hj.
  - inversion Hj; subst c. rewrite legend_loop_frame by exact Hnot.
    unfold legend_step. rewrite dict_get_set, String.eqb_refl.
    now rewrite Nat.add_0_r.
  - rewrite (IH (S k) _ j Hrest Hj). now replace (S k + j) with (k + S j) by lia.
Qed.

Lemma palette_nodup : NoDup COLOR_PALETTE.
Proof.
  unfold COLOR_PALETTE.
  repeat (constructor; [cbn [In]; intuition discriminate |]). constructor.
Qed.

(** X8. The colour and the line style of the calibrations in the legend.
    For calibration codes without repetition, the legend has exactly these
    codes, and two codes share a colour exactly when their positions are
    equal modulo 14, and likewise share a line style: up to 14 calibrations
    are all told apart, the fifteenth looks like the first. *)
Theorem calib_legend_info_distinct (calib_codes : list string) :
  NoDup calib_codes ->
  (forall c, In c calib_codes <-> In c (keys (calib_legend_info calib_codes)))
  /\ forall i j c1 c2 v1 v2,
       nth_error calib_codes i = Some c1 -> nth_error calib_codes j = Some c2 ->
       dict_get c1 (calib_legend_info calib_codes) = Some v1 ->
       dict_get c2 (calib_legend_info calib_codes) = Some v2 ->
       (fst v1 = fst v2 <-> i mod 14 = j mod 14)
       /\ (snd v1 = snd v2 <-> i mod 14 = j mod 14).
Proof.
  intros Hnodup. split.
  - intros c. unfold calib_legend_info, enumerate.
    assert (Hgen : forall codes k d,
              In c (keys (fold_left legend_step
                            (combine (seq k (List.length codes)) codes) d))
              <-> In c codes \/ In c (keys d)).
    { induction codes as [| x codes IH]; intros k d.
      - cbn. tauto.
      - cbn [List.length seq combine fold_left]. rewrite IH. unfold legend_step.
        rewrite dict_set_keys. cbn [In]. split; intros H.
        + destruct H as [H | [H | H]]; auto.
        + destruct H as [[H | H] | H]; auto. }
    rewrite Hgen. cbn. tauto.
  - intros i j c1 c2 v1 v2 Hi Hj H1 H2. unfold calib_legend_info in H1, H2.
    change (enumerate calib_codes)
      with (combine (seq 0 (List.length calib_codes)) calib_codes) in H1, H2.
    rewrite (legend_loop_entry _ 0 [] i c1 Hnodup Hi) in H1.
    rewrite (legend_loop_entry _ 0 [] j c2 Hnodup Hj) in H2.
    change (0 + i) with i in H1. change (0 + j) with j in H2.
    assert (E1 : v1 = (nth (i mod 14) COLOR_PALETTE EmptyString,
                       nth (i mod 14) LINESTYLES 0)) by congruence.
    assert (E2 : v2 = (nth (j mod 14) COLOR_PALETTE EmptyString,
                       nth (j mod 14) LINESTYLES 0)) by congruence.
    subst v1 v2. unfold fst, snd.
    assert (Hi14 : i mod 14 < 14) by (apply Nat.mod_upper_bound; lia).
    assert (Hj14 : j mod 14 < 14) by (apply Nat.mod_upper_bound; lia).
    split.
    + split; intros H; [| now rewrite H].
      apply (proj1 (NoDup_nth COLOR_PALETTE EmptyString) palette_nodup); try exact H;
        assumption.
    + split; intros H; [| now rewrite H].
      unfold LINESTYLES in H. rewrite !seq_nth in H by assumption. exact H.
Qed.

Lemma calib_legend_info_distinct_witness :
  exists v1 v2,
    dict_get "A" (calib_legend_info ["A"; "B"]) = Some v1
    /\ dict_get "B" (calib_legend_info ["A"; "B"]) = Some v2
    /\ fst v1 <> fst v2.
Proof.
  assert (Hnodup : NoDup ["A"; "B"]).
  { repeat (constructor; [cbn [In]; intuition discriminate |]). constructor. }
  destruct (calib_legend_info_distinct ["A"; "B"] Hnodup) as (_ & H).
  eexists. eexists. split; [reflexivity |]. split; [reflexivity |].
  intros Heq.
  destruct (H 0 1 "A" "B" _ _ eq_refl eq_refl eq_refl eq_refl) as ((Hcol & _) & _).
  specialize (Hcol Heq). discriminate Hcol.
Defined.

(* ------------------------------------------------------------------ *)
(** ** The DATE column is read back as a date *)

Import TimeSeries.

Lemma digit_char_digit (d : Z) :
  (0 <= d <= 9)%Z ->
  is_digit (digit_char d) = true /\ digit (digit_char d) = d
  /\ Ascii.eqb (digit_char d) "-"%char = false
  /\ Ascii.eqb (digit_char d) "+"%char = false.
Proof.
  intros Hd. unfold is_digit, digit, digit_char.
  assert (Hn : nat_of_ascii (ascii_of_nat (48 + Z.to_nat d)) = 48 + Z.to_nat d).
  { apply nat_ascii_embedding. lia. }
  rewrite Hn. split; [| split; [| split]].
  - apply andb_true_iff. split; apply Nat.leb_le; lia.
  - lia.
  - apply Ascii.eqb_neq. intros H. apply (f_equal nat_of_ascii) in H.
    rewrite Hn in H. cbn in H. lia.
  - apply Ascii.eqb_neq. intros H. apply (f_equal nat_of_ascii) in H.
    rewrite Hn in H. cbn in H. lia.
Qed.

Lemma decimal_go_step (f : nat) (z : Z) (acc : list ascii) :
  decimal_go (S f) z acc
  = if (z <? 10)%Z then digit_char (z mod 10) :: acc
    else decimal_go f (z / 10) (digit_char (z mod 10) :: acc).
Proof. reflexivity. Qed.

Lemma log2_fuel (a z : Z) (n : nat) :
  (0 < a <= z)%Z -> Z.to_nat (Z.log2 a) = n ->
  exists m, S (Z.to_nat (Z.log2 z)) = S (n + m).
Proof.
  intros Haz Hn. pose proof (Z.log2_le_mono a z (proj2 Haz)) as Hle.
  pose proof (Z.log2_nonneg a) as Hpos.
  exists (Z.to_nat (Z.log2 z) - n). lia.
Qed.

(** The four digits of a year. *)
Lemma str_int_year (z : Z) :
  (1000 <= z <= 9999)%Z ->
  str_int z = [digit_char (z / 1000); digit_char (z / 100 mod 10);
               digit_char (z / 10 mod 10); digit_char (z mod 10)].
Proof.
  intros Hz. unfold str_int.
  destruct (Z.ltb_spec z 0) as [Hneg | _]; [lia |].
  destruct (log2_fuel 1000 z 9 ltac:(lia) eq_refl) as (m & ->).
  cbn [Nat.add]. rewrite !decimal_go_step.
  destruct (Z.ltb_spec z 10); [lia |].
  destruct (Z.ltb_spec (z / 10) 10); [exfalso; Z.div_mod_to_equations; lia |].
  destruct (Z.ltb_spec (z / 10 / 10) 10); [exfalso; Z.div_mod_to_equations; lia |].
  destruct (Z.ltb_spec (z / 10 / 10 / 10) 10); [| exfalso; Z.div_mod_to_equations; lia].
  replace (z / 10 / 10 / 10 mod 10)%Z with (z / 1000)%Z
    by (Z.div_mod_to_equations; lia).
  replace (z / 10 / 10 mod 10)%Z with (z / 100 mod 10)%Z
    by (Z.div_mod_to_equations; lia).
  reflexivity.
Qed.

(** The three digits of a day of the year, once filled with zeros. *)
Lemma zfill_day (z : Z) :
  (0 <= z <= 999)%Z ->
  zfill 3 (str_int z)
  = [digit_char (z / 100); digit_char (z / 10 mod 10); digit_char (z mod 10)].
Proof.
  intros Hz. unfold str_int.
  destruct (Z.ltb_spec z 0) as [Hneg | _]; [lia |].
  assert (Hd : (0 <= z mod 10 <= 9)%Z) by (Z.div_mod_to_equations; lia).
  destruct (digit_char_digit _ Hd) as (_ & _ & Hminus & Hplus).
  destruct (Z.ltb_spec z 10) as [Hone | Hmore].
  - rewrite decimal_go_step.
    destruct (Z.ltb_spec z 10); [| lia].
    unfold zfill. cbn [List.length Nat.sub repeat app]. rewrite Hminus, Hplus. cbn [orb].
    replace (z / 100)%Z with 0%Z by (Z.div_mod_to_equations; lia).
    replace (z / 10 mod 10)%Z with 0%Z by (Z.div_mod_to_equations; lia).
    reflexivity.
  - destruct (log2_fuel 10 z 3 ltac:(lia) eq_refl) as (m & ->).
    cbn [Nat.add]. rewrite !decimal_go_step.
    destruct (Z.ltb_spec z 10); [lia |].
    assert (Hd1 : (0 <= z / 10 mod 10 <= 9)%Z) by (Z.div_mod_to_equations; lia).
    destruct (digit_char_digit _ Hd1) as (_ & _ & Hminus1 & Hplus1).
    destruct (Z.ltb_spec (z / 10) 10) as [Htwo | Hthree].
    + unfold zfill. cbn [List.length Nat.sub repeat app]. rewrite Hminus1, Hplus1.
      cbn [orb]. replace (z / 100)%Z with 0%Z by (Z.div_mod_to_equations; lia).
      reflexivity.
    + destruct (Z.ltb_spec (z / 10 / 10) 10); [| exfalso; Z.div_mod_to_equations; lia].
      assert (Hd2 : (0 <= z / 10 / 10 mod 10 <= 9)%Z) by (Z.div_mod_to_equations; lia).
      destruct (digit_char_digit _ Hd2) as (_ & _ & Hminus2 & Hplus2).
      unfold zfill. cbn [List.length Nat.sub repeat app]. rewrite Hminus2, Hplus2.
      cbn [orb].
      replace (z / 10 / 10 mod 10)%Z with (z / 100)%Z by (Z.div_mod_to_equations; lia).
      reflexivity.
Qed.


(** The text of the DATE column as the model of [to_datetime] reads it. *)
Lemma DATE_parse (year doy : Z) :
  (1000 <= year <= 9999)%Z -> (1 <= doy <= 366)%Z ->
  to_datetime (DATE year doy)
  = (if (min_ordinal <=? ordinal year doy)%Z && (ordinal year doy <=? max_ordinal)%Z
     then Ok (ordinal year doy) else Raise OutOfBoundsDatetime).
Proof.
  intros Hyear Hdoy.
  unfold to_datetime, DATE. rewrite chars_of_chars.
  rewrite (str_int_year year Hyear), (zfill_day doy) by lia.
  cbn [app firstn skipn List.length forallb Nat.eqb Nat.leb andb].
  assert (H3 : (0 <= year / 1000 <= 9)%Z) by (Z.div_mod_to_equations; lia).
  assert (H2 : (0 <= year / 100 mod 10 <= 9)%Z) by (Z.div_mod_to_equations; lia).
  assert (H1 : (0 <= year / 10 mod 10 <= 9)%Z) by (Z.div_mod_to_equations; lia).
  assert (H0 : (0 <= year mod 10 <= 9)%Z) by (Z.div_mod_to_equations; lia).
  assert (D2 : (0 <= doy / 100 <= 9)%Z) by (Z.div_mod_to_equations; lia).
  assert (D1 : (0 <= doy / 10 mod 10 <= 9)%Z) by (Z.div_mod_to_equations; lia).
  assert (D0 : (0 <= doy mod 10 <= 9)%Z) by (Z.div_mod_to_equations; lia).
  destruct (digit_char_digit _ H3) as (I3 & V3 & _).
  destruct (digit_char_digit _ H2) as (I2 & V2 & _).
  destruct (digit_char_digit _ H1) as (I1 & V1 & _).
  destruct (digit_char_digit _ H0) as (I0 & V0 & _).
  destruct (digit_char_digit _ D2) as (J2 & W2 & _).
  destruct (digit_char_digit _ D1) as (J1 & W1 & _).
  destruct (digit_char_digit _ D0) as (J0 & W0 & _).
  rewrite I3, I2, I1, I0, J2, J1, J0. cbn [andb].
  unfold number. cbn [fold_left]. rewrite V3, V2, V1, V0, W2, W1, W0.
  replace (10 * (10 * (10 * 0 + doy / 100) + doy / 10 mod 10) + doy mod 10)%Z
    with doy by (Z.div_mod_to_equations; lia).
  replace (10 * (10 * (10 * (10 * 0 + year / 1000) + year / 100 mod 10)
                 + year / 10 mod 10) + year mod 10)%Z
    with year by (Z.div_mod_to_equations; lia).
  destruct (Z.leb_spec 1 doy); [| lia].
  destruct (Z.leb_spec doy 366); [| lia].
  destruct (Z.leb_spec 1 year); [| lia].
  reflexivity.
Qed.

(** X15. The text of the DATE column is read back as the date it was made
    from. For an integer year from 1678 to 2261 and a day of the year from
    1 to 366, [to_datetime] on the year followed by the day filled to three
    digits returns the day number [doy] counted from 1 January of [year]
    (so day 366 of a year of 365 days is 1 January of the next year). *)
Theorem DATE_is_read_back (year doy : Z) :
  (1678 <= year <= 2261)%Z -> (1 <= doy <= 366)%Z ->
  to_datetime (DATE year doy) = Ok (ordinal year doy).
Proof.
  intros Hyear Hdoy. rewrite DATE_parse by lia.
  assert (Hlo : (min_ordinal <= ordinal year doy)%Z).
  { unfold min_ordinal, ordinal, days_before_year. Z.div_mod_to_equations. lia. }
  assert (Hhi : (ordinal year doy <= max_ordinal)%Z).
  { unfold max_ordinal, ordinal, days_before_year. Z.div_mod_to_equations. lia. }
  apply Z.leb_le in Hlo. apply Z.leb_le in Hhi. now rewrite Hlo, Hhi.
Qed.

Lemma DATE_is_read_back_witness :
  to_datetime (DATE 2022 7) = Ok (ordinal 2022 7).
Proof.
  exact (DATE_is_read_back 2022 7 ltac:(lia) ltac:(lia)).
Defined.

Import Grid.

(* ------------------------------------------------------------------ *)
(** ** prepare_metrics_by_treatment: the cells of the four tables *)

Lemma nth_map_some {A B : Type} (f : A -> B) (l : list A) (n : nat) (x : A) (d : B) :
  nth_error l n = Some x -> nth n (map f l) d = f x.
Proof.
  intros H. apply nth_error_nth. now rewrite nth_error_map, H.
Qed.

Section GridCells.

Context {V : Type}.

Lemma at_key_eq (v l : string) (r : metric_row V) :
  at_key v l r = true <-> m_variable r = v /\ m_short_label r = l.
Proof. unfold at_key. now rewrite andb_true_iff, !String.eqb_eq. Qed.

(** In a table without duplicates the row of a key is found. *)
Lemma find_own_key (rows : list (metric_row V)) (r : metric_row V) :
  has_duplicates rows = false -> In r rows ->
  find (at_key (m_variable r) (m_short_label r)) rows = Some r.
Proof.
  induction rows as [| x rows IH]; intros Hdup Hin; [destruct Hin |].
  cbn [has_duplicates] in Hdup. apply orb_false_iff in Hdup.
  destruct Hdup as (Hx & Hrest). cbn [find].
  destruct Hin as [-> | Hin].
  - assert (Hself : at_key (m_variable r) (m_short_label r) r = true)
      by (apply at_key_eq; auto).
    now rewrite Hself.
  - destruct (at_key (m_variable r) (m_short_label r) x) eqn:Hkey.
    + exfalso. apply at_key_eq in Hkey. destruct Hkey as (Hv & Hl).
      assert (Hex : existsb (at_key (m_variable x) (m_short_label x)) rows = true).
      { apply existsb_exists. exists r. split; [exact Hin |].
        apply at_key_eq. auto. }
      congruence.
    + now apply IH.
Qed.

(** The cells of a pivoted table. *)
Lemma pivot_table_cell (rows : list (metric_row V)) (p : pivot V)
  (n m : nat) (v l : string) :
  pivot_table rows = Ok p ->
  nth_error (pv_index p) n = Some v -> nth_error (pv_columns p) m = Some l ->
  has_duplicates rows = false
  /\ cell_at p n m = match find (at_key v l) rows with
                     | Some r => m_value r
                     | None => None
                     end.
Proof.
  unfold pivot_table. destruct (has_duplicates rows) eqn:Hdup; [discriminate |].
  intros H. inversion H; subst p. clear H. cbn [pv_index pv_columns].
  intros Hn Hm. split; [reflexivity |]. unfold cell_at. cbn [pv_cells].
  set (index := sort_by String.leb (unique (map m_variable rows))) in *.
  set (columns := sort_by String.leb (unique (map m_short_label rows))) in *.
  rewrite (nth_map_some _ _ _ _ _ Hn), (nth_map_some _ _ _ _ _ Hm).
  reflexivity.
Qed.

Lemma position_of_nth (label : string) (labels : list string) (n : nat) :
  position_of label labels = Ok n -> nth_error labels n = Some label.
Proof.
  revert n. induction labels as [| x rest IH]; intros n H; cbn [position_of] in H;
    [discriminate H |].
  destruct (String.eqb_spec x label) as [-> | Hne].
  - inversion H. reflexivity.
  - apply bind_ok in H. destruct H as (k & Hk & H). inversion H; subst n.
    cbn [nth_error]. now apply IH.
Qed.

Lemma positions_nth (wanted labels : list string) (ns : list nat) (i : nat) (w : string) :
  positions wanted labels = Ok ns -> nth_error wanted i = Some w ->
  exists n, nth_error ns i = Some n /\ nth_error labels n = Some w.
Proof.
  unfold positions. intros H Hw.
  apply collect_ok in H. destruct H as (ys & -> & Hall). cbn [app].
  revert i Hw. induction Hall as [| x n xs ys' Hx _ IH]; intros [| i] Hw;
    cbn [nth_error] in *; try discriminate Hw.
  - inversion Hw; subst x. exists n. split; [reflexivity |]. now apply position_of_nth.
  - now apply IH.
Qed.

(** A cell of [p.loc[rows, cols]] is the cell of [p] under the same labels. *)
Lemma loc_cell (p q : pivot V) (rows cols : list string) (i j : nat) (v l : string) :
  loc p rows cols = Ok q ->
  nth_error rows i = Some v -> nth_error cols j = Some l ->
  exists n m,
    nth_error (pv_index p) n = Some v /\ nth_error (pv_columns p) m = Some l
    /\ cell_at q i j = cell_at p n m.
Proof.
  unfold loc. intros H Hv Hl.
  apply bind_ok in H. destruct H as (rp & Hrp & H).
  apply bind_ok in H. destruct H as (cp & Hcp & H). inversion H; subst q. clear H.
  destruct (positions_nth _ _ _ _ _ Hrp Hv) as (n & Hn & Hpn).
  destruct (positions_nth _ _ _ _ _ Hcp Hl) as (m & Hm & Hpm).
  exists n, m. split; [exact Hpn |]. split; [exact Hpm |].
  unfold cell_at. cbn [pv_cells].
  rewrite (nth_map_some _ _ _ _ _ Hn), (nth_map_some _ _ _ _ _ Hm).
  reflexivity.
Qed.

Lemma round_pivot_cell (round : V -> V) (p : pivot V) (n m : nat) :
  cell_at (round_pivot round p) n m = option_map round (cell_at p n m).
Proof.
  unfold cell_at, round_pivot. cbn [pv_cells].
  change (@nil (option V)) with (map (option_map round) (@nil (option V))).
  rewrite map_nth.
  change (@None V) with (option_map round (@None V)) at 1.
  now rewrite map_nth.
Qed.

(** The table made of [rows] and reordered holds their values. *)
Lemma located_values (f : option V -> option V) (rows : list (metric_row V))
  (p0 p q : pivot V) (wanted_rows wanted_cols : list string) :
  pivot_table rows = Ok p0 ->
  pv_index p = pv_index p0 -> pv_columns p = pv_columns p0 ->
  (forall n m, cell_at p n m = f (cell_at p0 n m)) ->
  f None = None ->
  loc p wanted_rows wanted_cols = Ok q ->
  holds_values f rows q.
Proof.
  intros Hp0 Hindex Hcolumns Hcell Hnone Hloc i j v l Hv Hl.
  destruct (loc_labels _ _ _ _ Hloc) as (Hqi & Hqc). rewrite Hqi in Hv. rewrite Hqc in Hl.
  destruct (loc_cell _ _ _ _ _ _ _ _ Hloc Hv Hl) as (n & m & Hn & Hm & Heq).
  rewrite Hindex in Hn. rewrite Hcolumns in Hm.
  destruct (pivot_table_cell _ _ _ _ _ _ Hp0 Hn Hm) as (Hdup & Hval).
  rewrite Heq, Hcell, Hval. split.
  - intros r Hin <- <-. now rewrite (find_own_key rows r Hdup Hin).
  - intros Hnone'. destruct (find (at_key v l) rows) as [r |] eqn:Hfind; [| exact Hnone].
    apply find_some in Hfind. destruct Hfind as (Hin & Hkey).
    apply at_key_eq in Hkey. now destruct (Hnone' r Hin).
Qed.

(** X18. The cells of the four tables of [prepare_metrics_by_treatment].
    Each table holds, under a row label and a column label, the value of
    the selected row of its metric with that variable and calibration label
    (rounded for NRMSE, as it is for the other three), and a missing value
    when no selected row has them. *)
Theorem prepare_metrics_by_treatment_cells
  (leb : V -> V -> bool) (round : V -> V) (mean : list V -> V)
  (nrmse_data mpe_data r2_data gain_data : list (metric_row V))
  (treatment : string) (selected_variables selected_short_labels : list string)
  (p1 p2 p3 p4 : pivot V) :
  prepare_metrics_by_treatment leb round mean nrmse_data mpe_data r2_data gain_data
    treatment selected_variables selected_short_labels = Ok (p1, p2, p3, p4) ->
  holds_values (option_map round)
    (selected_nrmse nrmse_data treatment selected_variables selected_short_labels) p1
  /\ holds_values (fun c => c)
       (selected_rows mpe_data treatment selected_variables selected_short_labels) p2
  /\ holds_values (fun c => c)
       (selected_rows r2_data treatment selected_variables selected_short_labels) p3
  /\ holds_values (fun c => c)
       (selected_rows gain_data treatment selected_variables selected_short_labels) p4.
Proof.
  intros H. unfold prepare_metrics_by_treatment in H.
  apply bind_ok in H. destruct H as (p0 & Hp0 & H).
  apply bind_ok in H. destruct H as (q1 & Hq1 & H).
  apply bind_ok in H. destruct H as (q2 & Hq2 & H).
  apply bind_ok in H. destruct H as (q3 & Hq3 & H).
  apply bind_ok in H. destruct H as (q4 & Hq4 & H).
  inversion H; subst q1 q2 q3 q4; clear H.
  apply bind_ok in Hq2. destruct Hq2 as (m2 & Hm2 & Hq2).
  apply bind_ok in Hq3. destruct Hq3 as (m3 & Hm3 & Hq3).
  apply bind_ok in Hq4. destruct Hq4 as (m4 & Hm4 & Hq4).
  split; [| split; [| split]].
  - eapply (located_values (option_map round) _ p0 (round_pivot round p0) p1);
      [exact Hp0 | reflexivity | reflexivity | apply round_pivot_cell | reflexivity
      | exact Hq1].
  - eapply (located_values (fun c => c) _ m2 m2 p2);
      [exact Hm2 | reflexivity | reflexivity | reflexivity | reflexivity | exact Hq2].
  - eapply (located_values (fun c => c) _ m3 m3 p3);
      [exact Hm3 | reflexivity | reflexivity | reflexivity | reflexivity | exact Hq3].
  - eapply (located_values (fun c => c) _ m4 m4 p4);
      [exact Hm4 | reflexivity | reflexivity | reflexivity | reflexivity | exact Hq4].
Qed.

End GridCells.

Lemma prepare_metrics_by_treatment_cells_witness :
  exists p1 p2 p3 p4,
    prepare_metrics_by_treatment Z.leb (fun x => x) mean_int grid_example
      grid_example grid_example grid_example "WW-23" ["Yield"; "Anthesis"; "LAI"]
      ["A"; "B"] = Ok (p1, p2, p3, p4)
    /\ holds_values (fun c => c)
         (selected_rows grid_example "WW-23" ["Yield"; "Anthesis"; "LAI"] ["A"; "B"]) p2.
Proof.
  assert (Hcall : exists tables,
            prepare_metrics_by_treatment Z.leb (fun x => x) mean_int grid_example
              grid_example grid_example grid_example "WW-23"
              ["Yield"; "Anthesis"; "LAI"] ["A"; "B"] = Ok tables)
    by (eexists; vm_compute; reflexivity).
  destruct Hcall as ([[[p1 p2] p3] p4] & Hcall).
  exists p1, p2, p3, p4. split; [exact Hcall |].
  exact (proj1 (proj2 (prepare_metrics_by_treatment_cells Z.leb (fun x => x) mean_int
                         _ _ _ _ _ _ _ _ _ _ _ Hcall))).
Defined.

(* ------------------------------------------------------------------ *)
(** ** prepare_metrics_by_treatment: the four tables *)

(** C5 (amended). For every treatment and every selection of variables and
    calibration labels: when each metric table holds a key (variable,
    calibration label, treatment) at most once and the MPE, R2 and gain
    tables hold the keys of the NRMSE table, [prepare_metrics_by_treatment]
    returns four tables.  The four tables of a call that returns have the
    same row order and the same column order, the variables by ascending
    mean of the rounded NRMSE over the calibration labels and the calibration
    labels by ascending mean of the rounded NRMSE over the variables; and
    each table holds, under a variable and a calibration label, the value of
    the selected row of its metric (NRMSE rounded, MPE, R2 and gain as they
    are), a missing value where no selected row has the pair. *)
Theorem prepare_metrics_by_treatment_tables {V : Type}
  (leb : V -> V -> bool) (round : V -> V) (mean : list V -> V)
  (leb_total : forall x y, leb x y = true \/ leb y x = true)
  (nrmse_data mpe_data r2_data gain_data : list (metric_row V))
  (treatment : string) (selected_variables selected_short_labels : list string) :
  (NoDup (map key3 nrmse_data) -> NoDup (map key3 mpe_data) ->
   NoDup (map key3 r2_data) -> NoDup (map key3 gain_data) ->
   (forall r, In r nrmse_data ->
      In (key3 r) (map key3 mpe_data) /\ In (key3 r) (map key3 r2_data)
      /\ In (key3 r) (map key3 gain_data)) ->
   exists tables,
     prepare_metrics_by_treatment leb round mean nrmse_data mpe_data r2_data gain_data
       treatment selected_variables selected_short_labels = Ok tables)
  /\ (forall p1 p2 p3 p4,
        prepare_metrics_by_treatment leb round mean nrmse_data mpe_data r2_data
          gain_data treatment selected_variables selected_short_labels
        = Ok (p1, p2, p3, p4) ->
        ordered_by_nrmse leb round mean
          (selected_nrmse nrmse_data treatment selected_variables selected_short_labels)
          p1 p2 p3 p4
        /\ holds_values (option_map round)
             (selected_nrmse nrmse_data treatment selected_variables
                selected_short_labels) p1
        /\ holds_values (fun c => c)
             (selected_rows mpe_data treatment selected_variables
                selected_short_labels) p2
        /\ holds_values (fun c => c)
             (selected_rows r2_data treatment selected_variables
                selected_short_labels) p3
        /\ holds_values (fun c => c)
             (selected_rows gain_data treatment selected_variables
                selected_short_labels) p4).
Proof.
  split; [intros N1 N2 N3 N4 Hkeys; now apply prepare_metrics_returns |].
  intros p1 p2 p3 p4 Hcall.
  split; [exact (prepare_metrics_order_of_result leb round mean leb_total
                   _ _ _ _ _ _ _ _ _ _ _ Hcall) |].
  unfold prepare_metrics_by_treatment in Hcall.
  apply bind_ok in Hcall. destruct Hcall as (p0 & Hp0 & H).
  apply bind_ok in H. destruct H as (q1 & Hq1 & H).
  apply bind_ok in H. destruct H as (q2 & Hq2 & H).
  apply bind_ok in H. destruct H as (q3 & Hq3 & H).
  apply bind_ok in H. destruct H as (q4 & Hq4 & H).
  inversion H; subst q1 q2 q3 q4; clear H.
  assert (Hother : forall (data : list (metric_row V)) (q : pivot V),
            (p <- pivot_table (selected_rows data treatment selected_variables
                                 selected_short_labels) ;;
             loc p (sorted_index leb (row_means mean (round_pivot round p0)))
               (sorted_index leb (column_means mean (round_pivot round p0))))
            = Ok q ->
            holds_values (fun c => c)
              (selected_rows data treatment selected_variables selected_short_labels)
              q).
  { intros data q Hq. apply bind_ok in Hq. destruct Hq as (m & Hm & Hq).
    eapply (located_values (fun c => c) _ m m q);
      [exact Hm | reflexivity | reflexivity | reflexivity | reflexivity | exact Hq]. }
  split; [| split; [| split]].
  - eapply (located_values (option_map round) _ p0 (round_pivot round p0) p1);
      [exact Hp0 | reflexivity | reflexivity | apply round_pivot_cell | reflexivity
      | exact Hq1].
  - exact (Hother mpe_data p2 Hq2).
  - exact (Hother r2_data p3 Hq3).
  - exact (Hother gain_data p4 Hq4).
Qed.

Lemma prepare_metrics_by_treatment_tables_witness :
  exists p1 p2 p3 p4,
    prepare_metrics_by_treatment Z.leb (fun x => x) mean_int grid_example
      grid_example grid_example grid_example "WW-23" ["Yield"; "Anthesis"; "LAI"]
      ["A"; "B"] = Ok (p1, p2, p3, p4)
    /\ pv_index p1 = ["LAI"; "Yield"; "Anthesis"]
    /\ pv_columns p1 = ["B"; "A"]
    /\ pv_cells p4 = [[None; Some 1%Z]; [Some 30%Z; Some 10%Z]; [Some 2%Z; Some 50%Z]]
    /\ ordered_by_nrmse Z.leb (fun x => x) mean_int
         (selected_nrmse grid_example "WW-23" ["Yield"; "Anthesis"; "LAI"] ["A"; "B"])
         p1 p2 p3 p4
    /\ holds_values (fun c => c)
         (selected_rows grid_example "WW-23" ["Yield"; "Anthesis"; "LAI"] ["A"; "B"]) p4.
Proof.
  assert (Htotal : forall x y, Z.leb x y = true \/ Z.leb y x = true).
  { intros x y. destruct (Z.leb_spec x y); [now left | right].
    apply Z.leb_le. lia. }
  pose proof (prepare_metrics_by_treatment_tables Z.leb (fun x => x) mean_int Htotal
                grid_example grid_example grid_example grid_example "WW-23"
                ["Yield"; "Anthesis"; "LAI"] ["A"; "B"]) as [_ Htables].
  do 4 eexists. split; [vm_compute; reflexivity |].
  split; [reflexivity |]. split; [reflexivity |]. split; [reflexivity |].
  match goal with
  | |- ordered_by_nrmse _ _ _ _ ?a ?b ?c ?d /\ _ =>
      destruct (Htables a b c d) as (Horder & _ & _ & _ & Hgain);
        [vm_compute; reflexivity | split; [exact Horder | exact Hgain]]
  end.
Defined.

(** C5, counterexample. A metric table that holds Yield of WW-23 twice under
    the calibration label A (once per calibration method) makes the pivot
    fail with ValueError, and an MPE table without the rows of the NRMSE
    table makes the reordering fail with KeyError: no table is returned. *)
Lemma prepare_metrics_by_treatment_counterexample :
  prepare_metrics_by_treatment Z.leb (fun x => x) mean_int grid_two_methods
    grid_example grid_example grid_example "WW-23" ["Yield"; "Anthesis"; "LAI"]
    ["A"; "B"] = Raise ValueError
  /\ prepare_metrics_by_treatment Z.leb (fun x => x) mean_int grid_example
       [] grid_example grid_example "WW-23" ["Yield"; "Anthesis"; "LAI"]
       ["A"; "B"] = Raise KeyError.
Proof. split; vm_compute; reflexivity. Qed.

(* ------------------------------------------------------------------ *)
(** ** Files without a block, without a header line, and missing files *)

(** X19. For a file in which no line contains ['*DSSAT'],
    [simulations_lines] returns the empty dictionary, whatever TREATMENT
    lines the file has. *)
Theorem simulations_lines_no_block (lines : list string) :
  (forall line, In line lines -> contains "*DSSAT" line = false) ->
  simulations_lines lines = Ok [].
Proof.
  intros Hnone. rewrite simulations_lines_ranges.
  assert (Hempty : dssat_indices lines = []).
  { unfold dssat_indices.
    assert (Hfilter : forall l : list (nat * string),
              (forall il, In il l -> contains "*DSSAT" (snd il) = false) ->
              filter (fun il => contains "*DSSAT" (snd il)) l = []).
    { induction l as [| il l IH]; intros Hl; [reflexivity |]. cbn [filter].
      rewrite (Hl il) by now left. apply IH. intros x Hx. apply Hl. now right. }
    rewrite Hfilter; [reflexivity |].
    intros [i line] Hin. cbn [snd]. apply in_enumerate in Hin.
    apply Hnone. eapply nth_error_In. exact Hin. }
  rewrite Hempty. reflexivity.
Qed.

Lemma simulations_lines_no_block_witness :
  simulations_lines [" TREATMENT  1 : WW23_G1 WHCER048"; "@YEAR DOY"] = Ok [].
Proof.
  apply simulations_lines_no_block.
  intros line [<- | [<- | []]]; reflexivity.
Defined.

Lemma line_step_header (lines : list string) (t : string) (st st' : scan_state)
  (i : nat) :
  (forall line, In line lines -> startswith "@" (strip line) = false) ->
  line_step lines t st i = Ok st' -> st_header_line st' = st_header_line st.
Proof.
  intros Hnone H. unfold line_step in H.
  apply bind_ok in H. destruct H as (raw & Hraw & H).
  unfold index in Hraw. destruct (nth_error lines i) as [raw' |] eqn:Hnth;
    [| discriminate Hraw].
  inversion Hraw; subst raw'. clear Hraw.
  apply bind_ok in H. destruct H as (x & _ & H).
  apply bind_ok in H. destruct H as (c & _ & H).
  rewrite (Hnone raw) in H by (eapply nth_error_In; exact Hnth).
  inversion H. reflexivity.
Qed.

(** X20. For a file in which no line, once stripped, starts with ['@'],
    [extract_simulation_data] does not return: it raises. *)
Theorem extract_simulation_data_needs_header {num : Type}
  (to_numeric : string -> option num) (lines : list string) :
  (forall line, In line lines -> startswith "@" (strip line) = false) ->
  exists e, extract_simulation_data to_numeric lines = Raise e.
Proof.
  intros Hnone. unfold extract_simulation_data.
  destruct (scan_overview lines) as [st | e] eqn:Hscan; [| now exists e].
  cbn [bind].
  assert (Hheader : st_header_line st = None).
  { unfold scan_overview in Hscan.
    apply bind_ok in Hscan. destruct Hscan as (d & _ & Hrun). revert Hrun.
    apply (for_each_inv _ (fun st => st_header_line st = None)); [reflexivity |].
    intros [t [s e]] u u' _ Hu Hblock. unfold treatment_step in Hblock.
    revert Hblock.
    apply (for_each_inv _ (fun st => st_header_line st = None)); [exact Hu |].
    intros i v v' _ Hv Hline.
    now rewrite (line_step_header lines t v v' i Hnone Hline). }
  rewrite Hheader. now exists UnboundLocalError.
Qed.

Lemma extract_simulation_data_needs_header_witness :
  exists e,
    extract_simulation_data to_numeric_int
      ["*DSSAT Cropping System Model"; " TREATMENT  1 : WW23_G1 WHCER048"]
    = Raise e.
Proof.
  apply extract_simulation_data_needs_header.
  intros line [<- | [<- | []]]; reflexivity.
Defined.

Lemma for_each_each {A S : Type} (body : S -> A -> result S) (xs : list A)
  (s s' : S) (x : A) :
  for_each body xs s = Ok s' -> In x xs -> exists t t', body t x = Ok t'.
Proof.
  revert s. induction xs as [| y xs IH]; intros s H Hin; [destruct Hin |].
  cbn [for_each] in H. apply bind_ok in H. destruct H as (t & Hy & Hrest).
  destruct Hin as [-> | Hin]; [eauto | now apply (IH t)].
Qed.

(** X21. [load_and_process_overview] returns only for a list of
    calibration codes that is not empty, and only when, for every code of
    the list, the file OVERVIEW.OUT exists and can be read and the file
    config.yaml can be opened; the config.yaml of the first code, moreover,
    is parsed into a mapping. *)
Theorem load_and_process_overview_needs_files {num : Type}
  (to_numeric : string -> option num) (fs : file_system)
  (calibration_code_list : list string) (base_data_dir : string)
  (treatments_dic variable_name_mapping : dict string)
  (overview_data : list (overview_row num)) :
  load_and_process_overview to_numeric fs calibration_code_list base_data_dir
    treatments_dic variable_name_mapping = Ok overview_data ->
  calibration_code_list <> []
  /\ (forall calibration_code,
       In calibration_code calibration_code_list ->
       fs_isfile fs (path_join base_data_dir [calibration_code; "OVERVIEW.OUT"]) = true
       /\ fs_lines fs (path_join base_data_dir [calibration_code; "OVERVIEW.OUT"]) <> None
       /\ fs_yaml fs (path_join base_data_dir [calibration_code; "config.yaml"]) <> None)
  /\ forall first rest,
       calibration_code_list = first :: rest ->
       exists m,
         fs_yaml fs (path_join base_data_dir [first; "config.yaml"])
         = Some (YamlParsed (YDocMap m)).
Proof.
  unfold load_and_process_overview. intros H.
  apply bind_ok in H. destruct H as ([config frames] & Hrun & H). split; [| split].
  - intros ->. cbn [for_each] in Hrun. inversion Hrun; subst. discriminate H.
  - intros code Hin.
    destruct (for_each_each _ _ _ _ code Hrun Hin) as ([c l] & t' & Hstep).
    unfold overview_step in Hstep.
    apply bind_ok in Hstep. destruct Hstep as (validated & Hvalid & Hstep).
    unfold validate_file_path in Hvalid.
    destruct (negb (truthy _) || negb (is_str _)); [discriminate Hvalid |].
    destruct (fs_isfile fs _) eqn:Hfile; cbn [negb] in Hvalid; [| discriminate Hvalid].
    inversion Hvalid; subst validated. clear Hvalid.
    apply bind_ok in Hstep. destruct Hstep as (ls & Hopen & Hstep).
    apply bind_ok in Hstep. destruct Hstep as ([raw hd] & _ & Hstep).
    apply bind_ok in Hstep. destruct Hstep as (loaded & Hyaml & _).
    split; [reflexivity |]. split.
    + unfold open_lines in Hopen. destruct (fs_lines fs _); [discriminate | discriminate Hopen].
    + unfold open_yaml in Hyaml. destruct (fs_yaml fs _); [discriminate | discriminate Hyaml].
  - intros first rest ->. cbn [for_each] in Hrun.
    apply bind_ok in Hrun. destruct Hrun as (st & Hstep & _).
    unfold overview_step in Hstep.
    apply bind_ok in Hstep. destruct Hstep as (validated & _ & Hstep).
    apply bind_ok in Hstep. destruct Hstep as (ls & _ & Hstep).
    apply bind_ok in Hstep. destruct Hstep as ([raw hd] & _ & Hstep).
    apply bind_ok in Hstep. destruct Hstep as (loaded & Hyaml & Hstep).
    apply bind_ok in Hstep. destruct Hstep as (label & Hlabel & _).
    unfold open_yaml in Hyaml.
    destruct (fs_yaml fs _) as [y |]; [| discriminate Hyaml].
    inversion Hyaml; subst y. clear Hyaml.
    destruct loaded as [[| m |] |]; cbn in Hlabel; try discriminate Hlabel.
    now exists m.
Qed.

Lemma load_and_process_overview_needs_files_witness :
  exists overview_data : list (overview_row Z),
    load_and_process_overview to_numeric_int two_folders ["a"] "data" [] []
    = Ok overview_data
    /\ fs_isfile two_folders (path_join "data" ["a"; "OVERVIEW.OUT"]) = true.
Proof.
  assert (Hcall : exists overview_data,
            load_and_process_overview to_numeric_int two_folders ["a"] "data" [] []
            = Ok overview_data)
    by (eexists; vm_compute; reflexivity).
  destruct Hcall as (overview_data & Hcall).
  exists overview_data. split; [exact Hcall |].
  destruct (load_and_process_overview_needs_files _ _ _ _ _ _ _ Hcall)
    as (_ & Hfiles & _).
  exact (proj1 (Hfiles "a" (or_introl eq_refl))).
Defined.

(* ------------------------------------------------------------------ *)
(** ** The figures: what is written to disk *)

Import Plots.

Lemma written_app (t t' : list effect) : written (t ++ t') = written t ++ written t'.
Proof. unfold written. apply flat_map_app. Qed.

Section Quiet.

Variable isdir : string -> bool.
Variable outcome : nat -> option exn.

Lemma quiet_ret {A : Type} (a : A) : quiet (ret a).
Proof. intros k. reflexivity. Qed.

Lemma quiet_raise {A : Type} (e : exn) : quiet (@raise A e).
Proof. intros k. reflexivity. Qed.

Lemma quiet_lift {A : Type} (r : result A) : quiet (lift r).
Proof. intros k. reflexivity. Qed.

Lemma quiet_lib (name : string) : quiet (lib outcome name).
Proof. intros k. reflexivity. Qed.

Lemma quiet_read_csv (path : string) : quiet (read_csv outcome path).
Proof. intros k. reflexivity. Qed.

Lemma quiet_print_line (text : string) : quiet (print_line outcome text).
Proof. intros k. reflexivity. Qed.

Lemma quiet_then {A B : Type} (m : M A) (f : A -> M B) :
  quiet m -> (forall a, quiet (f a)) -> quiet (then_ m f).
Proof.
  intros Hm Hf k. unfold then_. specialize (Hm k).
  destruct (m k) as [[t k'] [a | e]]; [| exact Hm].
  specialize (Hf a k'). destruct (f a k') as [[t' k''] r].
  unfold trace_of in *. cbn [fst] in *. now rewrite written_app, Hm, Hf.
Qed.

Lemma quiet_for {A : Type} (xs : list A) (body : A -> M unit) :
  (forall x, quiet (body x)) -> quiet (for_ xs body).
Proof.
  intros Hbody. induction xs as [| x xs IH]; cbn [for_].
  - apply quiet_ret.
  - apply quiet_then; [apply Hbody | intros _; exact IH].
Qed.

Lemma quiet_if {A : Type} (b : bool) (m1 m2 : M A) :
  quiet m1 -> quiet m2 -> quiet (if b then m1 else m2).
Proof. now destruct b. Qed.

(** A statement that writes nothing, before the statements that save. *)
Lemma saves_then {A : Type} (path : string) (m : M A) (f : A -> M unit) :
  quiet m -> (forall a, saves isdir path (f a)) -> saves isdir path (then_ m f).
Proof.
  intros Hm Hf k. unfold then_. specialize (Hm k).
  destruct (m k) as [[t k'] [a | e]].
  - specialize (Hf a k'). destruct (f a k') as [[t' k''] r].
    unfold saves_only, saves_nothing, trace_of, result_of in *. cbn [fst snd] in *.
    now rewrite written_app, Hm.
  - unfold saves_only, saves_nothing, trace_of, result_of in *. cbn [fst snd] in *.
    split; [split; [now left | discriminate] |].
    intros _. split; [exact Hm | now exists e].
Qed.

(** [savefig], before statements that write nothing. *)
Lemma saves_savefig (path : string) (after : M unit) :
  quiet after -> saves isdir path (then_ (savefig isdir outcome path) (fun _ => after)).
Proof.
  intros Hafter k.
  unfold saves_only, saves_nothing, then_, savefig, call, trace_of, result_of.
  destruct (outcome k) as [e |]; cbn [fst snd written flat_map].
  - split; [split; [now left | discriminate] |].
    intros _. split; [reflexivity | now exists e].
  - destruct (can_open isdir path) eqn:Hopen.
    + destruct (outcome (S k)) as [e |].
      * cbn [fst snd written flat_map app].
        split; [split; [now right | discriminate] | discriminate].
      * specialize (Hafter (S (S k))). unfold trace_of in Hafter.
        destruct (after (S (S k))) as [[t' k''] r]. cbn [fst snd] in *.
        rewrite written_app, Hafter. cbn [written flat_map app].
        split; [split; [now right | reflexivity] | discriminate].
    + cbn [fst snd written flat_map].
      split; [split; [now left | discriminate] |].
      intros _. split; [reflexivity | now exists FileNotFoundError].
Qed.

End Quiet.

Create HintDb quiet.

#[local] Hint Resolve quiet_ret quiet_raise quiet_lift quiet_lib quiet_read_csv
  quiet_print_line : quiet.

Ltac quiet_step :=
  first
    [ apply quiet_then; [| intros ?]
    | apply quiet_for; intros ?
    | apply quiet_if
    | solve [auto with quiet] ].

Ltac saves_step :=
  first
    [ apply saves_savefig
    | apply saves_then; [| intros ?] ].

Lemma create_heatmap_plot_saves (isdir : string -> bool) (outcome : nat -> option exn)
  (output_dir figure_name treatment : string) :
  saves isdir
    (path_join output_dir
       [String.append figure_name
          (String.append "_heatmap_" (String.append treatment ".png"))])
    (create_heatmap_plot isdir outcome output_dir figure_name treatment).
Proof.
  unfold create_heatmap_plot. cbv zeta.
  change (String.append "." HEATMAP_FILE_FORMAT) with ".png".
  repeat (saves_step; [solve [repeat quiet_step] |]).
  saves_step. repeat quiet_step.
Qed.

Lemma quiet_bar_step (outcome : nat -> option exn) (PARAMS : list string)
  (color_map : dict nat) (eco : string) :
  quiet (bar_step outcome PARAMS color_map eco).
Proof. unfold bar_step. repeat quiet_step. Qed.

Lemma quiet_subplot_step (outcome : nat -> option exn) (ecotypes : string -> list string)
  (PARAMS LEGEND_TITLES : list string) (Y_LIMITS : list (Z * Z))
  (subplot_labels : list string) (item : nat * string) :
  quiet (subplot_step outcome ecotypes PARAMS LEGEND_TITLES Y_LIMITS subplot_labels item).
Proof.
  destruct item as [idx step]. unfold subplot_step. cbv zeta.
  repeat first [apply quiet_bar_step | quiet_step].
Qed.

Lemma create_parameter_barplot_saves (isdir : string -> bool)
  (outcome : nat -> option exn) (ecotypes : string -> list string)
  (PARAMS STEP_ORDER LEGEND_TITLES : list string) (Y_LIMITS : list (Z * Z))
  (BASE_DATA BASE_OUTPUT DATAFILE_NAME : string) :
  saves isdir (path_join BASE_OUTPUT ["Figure-3_parameters_barplot.png"])
    (create_parameter_barplot isdir outcome ecotypes PARAMS STEP_ORDER LEGEND_TITLES
       Y_LIMITS BASE_DATA BASE_OUTPUT DATAFILE_NAME).
Proof.
  unfold create_parameter_barplot. cbv zeta.
  change (String.append "Figure-3_parameters_barplot." BARPLOT_FILE_FORMAT)
    with "Figure-3_parameters_barplot.png".
  repeat (saves_step; [solve [repeat first [apply quiet_subplot_step | quiet_step]] |]).
  saves_step. repeat quiet_step.
Qed.

(** *** The path of the saved file *)

Lemma run_stops {A : Type} (p : A -> bool) (a b : list A) :
  forallb p a = true ->
  match b with [] => True | x :: _ => p x = false end ->
  takewhile p (a ++ b) = a /\ dropwhile p (a ++ b) = b.
Proof.
  intros Ha Hb. induction a as [| x a IH]; cbn [app].
  - destruct b as [| y b]; [now split |]. cbn [takewhile dropwhile]. now rewrite Hb.
  - cbn [forallb] in Ha. apply andb_prop in Ha. destruct Ha as [Hx Ha].
    cbn [takewhile dropwhile]. rewrite Hx. destruct (IH Ha) as [-> ->]. now split.
Qed.

Lemma contains_slash (s : string) :
  contains "/" s = false -> forallb not_slash (chars s) = true.
Proof.
  induction s as [| c s IH]; intros H; [reflexivity |].
  rewrite contains_cons in H. apply orb_false_iff in H. destruct H as [Hc Hs].
  rewrite prefix_cons in Hc.
  assert (Hempty : String.prefix EmptyString s = true) by now destruct s.
  rewrite Hempty, andb_true_r in Hc.
  change (chars (String c s)) with (c :: chars s). cbn [forallb].
  rewrite (IH Hs), andb_true_r. unfold not_slash, is_slash.
  now rewrite Ascii.eqb_sym, Hc.
Qed.

Lemma relative_name (f : string) :
  forallb not_slash (chars f) = true -> startswith "/" f = false.
Proof.
  destruct f as [| c f]; [reflexivity |]. intros H.
  change (chars (String c f)) with (c :: chars f) in H. cbn [forallb] in H.
  apply andb_prop in H. destruct H as [Hc _]. unfold startswith.
  rewrite prefix_cons. unfold not_slash, is_slash in Hc.
  rewrite Ascii.eqb_sym. now destruct (Ascii.eqb c "/").
Qed.

(** The split of a head that is empty or ends with a slash, followed by a
    name without a slash. *)
Lemma path_split_name (h f : list ascii) :
  forallb not_slash f = true ->
  match rev h with [] => True | c :: _ => is_slash c = true end ->
  path_split (of_chars (h ++ f)) = (of_chars (trim_slashes h), of_chars f).
Proof.
  intros Hf Hh. unfold path_split. rewrite chars_of_chars, rev_app_distr.
  assert (Hrev : forallb not_slash (rev f) = true).
  { rewrite forallb_forall in *. intros c Hc. apply Hf. now apply in_rev. }
  destruct (run_stops not_slash (rev f) (rev h) Hrev) as [-> ->].
  - destruct (rev h) as [| c r]; [exact I |]. unfold not_slash. now rewrite Hh.
  - now rewrite !rev_involutive.
Qed.

Lemma all_slashes_end (l : list ascii) :
  l <> [] -> forallb is_slash l = true ->
  match rev l with [] => False | c :: _ => is_slash c = true end.
Proof.
  intros Hne Hall. destruct (rev l) as [| c r] eqn:Hrev.
  - apply Hne. apply (f_equal (@rev ascii)) in Hrev. now rewrite rev_involutive in Hrev.
  - rewrite forallb_forall in Hall. apply Hall. apply in_rev. rewrite Hrev. now left.
Qed.

(** A name without a slash, joined to a directory, is in that directory. *)
Lemma path_split_join (d f : string) :
  forallb not_slash (chars f) = true ->
  path_split (path_join d [f]) = (without_trailing_slashes d, f).
Proof.
  intros Hf. unfold path_join, path_join2, without_trailing_slashes. cbn [fold_left].
  rewrite (relative_name f Hf).
  destruct (String.eqb_spec d EmptyString) as [-> | Hne]; cbn [orb].
  - change (String.append EmptyString f) with f.
    rewrite <- (of_chars_chars f) at 1.
    change (chars f) with ([] ++ chars f) at 1.
    rewrite (path_split_name [] (chars f) Hf I). now rewrite of_chars_chars.
  - unfold ends_with_slash. destruct (rev (chars d)) as [| c r] eqn:Hrev.
    + exfalso. apply Hne. apply (f_equal (@rev ascii)) in Hrev.
      rewrite rev_involutive in Hrev. cbn [rev] in Hrev.
      rewrite <- (of_chars_chars d), Hrev. reflexivity.
    + destruct (Ascii.eqb c "/") eqn:Hc.
      * rewrite <- (of_chars_chars (String.append d f)), chars_append.
        rewrite (path_split_name (chars d) (chars f) Hf); [| now rewrite Hrev].
        now rewrite of_chars_chars.
      * rewrite <- (of_chars_chars (String.append d (String.append "/" f))).
        rewrite !chars_append. change (chars "/") with ["/"%char].
        rewrite app_assoc.
        rewrite (path_split_name (chars d ++ ["/"%char]) (chars f) Hf);
          [| now rewrite rev_app_distr].
        rewrite of_chars_chars. f_equal. f_equal. unfold trim_slashes.
        rewrite forallb_app. cbn [forallb]. rewrite !andb_true_r.
        destruct (forallb is_slash (chars d)) eqn:Hall.
        -- exfalso.
           assert (Hnil : chars d <> []).
           { intros Hnil. rewrite Hnil in Hrev. discriminate Hrev. }
           pose proof (all_slashes_end (chars d) Hnil Hall) as Hend.
           rewrite Hrev in Hend. unfold is_slash in Hend. congruence.
        -- rewrite rev_app_distr. reflexivity.
Qed.

Lemma heatmap_name_relative (figure_name treatment : string) :
  contains "/" figure_name = false -> contains "/" treatment = false ->
  forallb not_slash
    (chars (String.append figure_name
              (String.append "_heatmap_" (String.append treatment ".png")))) = true.
Proof.
  intros Hf Ht. rewrite !chars_append, !forallb_app.
  rewrite (contains_slash _ Hf), (contains_slash _ Ht). reflexivity.
Qed.

(** C9 (amended). Whatever the library calls do in memory and however they
    end, a call of [create_heatmap_plot] opens no file for writing but
    [os.path.join(output_dir, '<figure_name>_heatmap_<treatment>.png')], and
    a call that returns has written exactly this file; the file is in the
    output directory itself when neither the figure name nor the treatment
    contains a slash.  A call of [create_parameter_barplot] opens no file for
    writing but [os.path.join(BASE_OUTPUT, 'Figure-3_parameters_barplot.png')],
    a name made of no figure name and no treatment, in the directory
    [BASE_OUTPUT] itself, and a call that returns has written exactly this
    file. *)
Theorem figures_write_one_image (isdir : string -> bool) (outcome : nat -> option exn)
  (ecotypes : string -> list string) (k : nat)
  (output_dir figure_name treatment BASE_DATA BASE_OUTPUT DATAFILE_NAME : string)
  (PARAMS STEP_ORDER LEGEND_TITLES : list string) (Y_LIMITS : list (Z * Z)) :
  let heatmap_name :=
    String.append figure_name
      (String.append "_heatmap_" (String.append treatment ".png")) in
  let barplot_name := "Figure-3_parameters_barplot.png" in
  saves_only (path_join output_dir [heatmap_name])
    (create_heatmap_plot isdir outcome output_dir figure_name treatment k)
  /\ (contains "/" figure_name = false -> contains "/" treatment = false ->
      path_split (path_join output_dir [heatmap_name])
      = (without_trailing_slashes output_dir, heatmap_name))
  /\ saves_only (path_join BASE_OUTPUT [barplot_name])
       (create_parameter_barplot isdir outcome ecotypes PARAMS STEP_ORDER LEGEND_TITLES
          Y_LIMITS BASE_DATA BASE_OUTPUT DATAFILE_NAME k)
  /\ path_split (path_join BASE_OUTPUT [barplot_name])
     = (without_trailing_slashes BASE_OUTPUT, barplot_name).
Proof.
  intros heatmap_name barplot_name. split; [| split; [| split]].
  - apply (create_heatmap_plot_saves isdir outcome output_dir figure_name treatment k).
  - intros Hf Ht. apply path_split_join. now apply heatmap_name_relative.
  - apply (create_parameter_barplot_saves isdir outcome ecotypes PARAMS STEP_ORDER
             LEGEND_TITLES Y_LIMITS BASE_DATA BASE_OUTPUT DATAFILE_NAME k).
  - apply path_split_join. reflexivity.
Qed.

Lemma figures_write_one_image_witness :
  Plots.written
    (trace_of (create_heatmap_plot every_directory all_return "output" "Figure-B.2"
                 "WW-23" 0))
  = ["output/Figure-B.2_heatmap_WW-23.png"]
  /\ Plots.written
       (trace_of (create_parameter_barplot every_directory all_return three_ecotypes
                    ["P1V"; "P1D"] ["Cultivar calibration"; "Ecotype assessment";
                                    "Calibrarion time-series "]
                    ["Cultivar"; "Ecotype"; "Time series"]
                    [(-100, 100); (-100, 100); (-100, 100)]%Z
                    "data" "output" "CULTIVAR_parameters.csv" 0))
    = ["output/Figure-3_parameters_barplot.png"].
Proof.
  split.
  - destruct (figures_write_one_image every_directory all_return three_ecotypes 0
                "output" "Figure-B.2" "WW-23" "" "" "" [] [] [] [])
      as ((_ & Hsaved) & _).
    apply Hsaved. vm_compute. reflexivity.
  - destruct (figures_write_one_image every_directory all_return three_ecotypes 0
                "" "" "" "data" "output" "CULTIVAR_parameters.csv"
                ["P1V"; "P1D"] ["Cultivar calibration"; "Ecotype assessment";
                                "Calibrarion time-series "]
                ["Cultivar"; "Ecotype"; "Time series"]
                [(-100, 100); (-100, 100); (-100, 100)]%Z)
      as (_ & _ & (_ & Hsaved) & _).
    apply Hsaved. vm_compute. reflexivity.
Defined.

(** C9, counterexample. With the figure name ["/tmp/Figure-B.2"], or
    ["../../etc/Figure-B.2"], the heat map is written outside the output
    directory; and the bar plot is written under the same fixed name
    whatever the data directory and data file are. *)
Lemma figures_counterexample :
  create_heatmap_plot every_directory all_return "output" "/tmp/Figure-B.2" "WW-23" 0
  = ([WriteFile "/tmp/Figure-B.2_heatmap_WW-23.png";
      Stdout "Heatmap saved to: /tmp/Figure-B.2_heatmap_WW-23.png"], 45, Ok tt)
  /\ dirname "/tmp/Figure-B.2_heatmap_WW-23.png" = "/tmp"
  /\ Plots.written
       (trace_of (create_heatmap_plot every_directory all_return "output"
                    "../../etc/Figure-B.2" "WW-23" 0))
     = ["output/../../etc/Figure-B.2_heatmap_WW-23.png"]
  /\ dirname "output/../../etc/Figure-B.2_heatmap_WW-23.png" = "output/../../etc"
  /\ Plots.written
       (trace_of (create_parameter_barplot every_directory all_return three_ecotypes
                    ["P1V"] ["Cultivar calibration"; "Ecotype assessment"]
                    ["Cultivar"; "Ecotype"] [] "data/other" "output" "WW-23.csv" 0))
     = ["output/Figure-3_parameters_barplot.png"].
Proof. repeat split; vm_compute; reflexivity. Qed.

(** X22. The two functions create no directory: in a world where the
    directory of the output path does not exist, a call raises and has
    written no file, however the library calls end. *)
Theorem figures_need_directory (isdir : string -> bool) (outcome : nat -> option exn)
  (ecotypes : string -> list string) (k : nat)
  (output_dir figure_name treatment BASE_DATA BASE_OUTPUT DATAFILE_NAME : string)
  (PARAMS STEP_ORDER LEGEND_TITLES : list string) (Y_LIMITS : list (Z * Z)) :
  let heatmap_path :=
    path_join output_dir
      [String.append figure_name
         (String.append "_heatmap_" (String.append treatment ".png"))] in
  let barplot_path := path_join BASE_OUTPUT ["Figure-3_parameters_barplot.png"] in
  (can_open isdir heatmap_path = false ->
   let run := create_heatmap_plot isdir outcome output_dir figure_name treatment k in
   Plots.written (trace_of run) = [] /\ exists e, result_of run = Raise e)
  /\ (can_open isdir barplot_path = false ->
      let run :=
        create_parameter_barplot isdir outcome ecotypes PARAMS STEP_ORDER LEGEND_TITLES
          Y_LIMITS BASE_DATA BASE_OUTPUT DATAFILE_NAME k in
      Plots.written (trace_of run) = [] /\ exists e, result_of run = Raise e).
Proof.
  intros heatmap_path barplot_path. split.
  - intros Hmissing run.
    now apply (create_heatmap_plot_saves isdir outcome output_dir figure_name treatment k).
  - intros Hmissing run.
    now apply (create_parameter_barplot_saves isdir outcome ecotypes PARAMS STEP_ORDER
                 LEGEND_TITLES Y_LIMITS BASE_DATA BASE_OUTPUT DATAFILE_NAME k).
Qed.

Lemma figures_need_directory_witness :
  Plots.written
    (trace_of (create_heatmap_plot no_directory all_return "output" "Figure-B.2"
                 "WW-23" 0)) = []
  /\ exists e,
       result_of (create_heatmap_plot no_directory all_return "output" "Figure-B.2"
                    "WW-23" 0) = Raise e.
Proof.
  apply (proj1 (figures_need_directory no_directory all_return three_ecotypes 0
                  "output" "Figure-B.2" "WW-23" "" "" "" [] [] [] [])).
  vm_compute. reflexivity.
Defined.
